(** * ESMValCore preprocessor I/O: a shallow embedding of
      [esmvalcore/preprocessor/_io.py]

    The Python module loads, concatenates and saves iris cubes and writes
    the metadata manifests of the preprocessor.  Every function of the module
    that a property below talks about is translated here as a Rocq function
    of the same name.  The iris, numpy, cf_units and yaml libraries are
    outside the module: their operations are either modelled by what their
    documentation says ([array_equal], [dirname], [os_makedirs]) or taken as
    parameters of a section ([num2date], [iris_concatenate], [extract_time]).
    Time points and numeric attribute values are integers, with NaN as the
    one further attribute value; effects (the log, the paths that exist,
    the files written) are threaded through the state [World]. *)

From Stdlib Require Import ZArith List String Ascii Bool Lia PeanoNat.
From Stdlib Require Import Sorted Permutation.
From Stdlib Require DecimalString.
Import ListNotations.

Local Open Scope string_scope.
Local Open Scope list_scope.

(** ** Python exceptions and results *)

(** The exception classes that [_io.py] raises itself or lets through.
    [Exception] is the generic base class, the others are the more specific
    built-in or iris classes. *)
Inductive PyError : Type :=
| Exception (msg : string)
| ValueError (msg : string)
| IndexError
| FileNotFoundError (path : string)
| KeyError (key : string)
| TypeError
| CoordinateNotFoundError (name : string)
| ConcatenateError (msg : string).

(** [Exception] itself carries no label besides its message. *)
Definition is_generic (e : PyError) : bool :=
  match e with
  | Exception _ => true
  | _ => false
  end.

Inductive Result (A : Type) : Type :=
| Ok (a : A)
| Raise (e : PyError).
Arguments Ok {A} a.
Arguments Raise {A} e.

(** ** Attribute values and attribute dictionaries *)

(** A number read from a NetCDF attribute: an integer, or the float NaN,
    the one number that is not equal to itself. *)
Inductive Number : Type :=
| Int (z : Z)
| NaN.

(** Values of cube attributes: a string, a numpy scalar or a
    one-dimensional numpy array. *)
Inductive Value : Type :=
| VStr (s : string)
| VNum (n : Number)
| VArr (a : list Number).

(** [==] on numpy scalars. *)
Definition number_eqb (a b : Number) : bool :=
  match a, b with
  | Int x, Int y => Z.eqb x y
  | _, _ => false
  end.

(** [np.array_equal(a, b)]: same shape and all elements equal. *)
Definition array_equal (a b : Value) : bool :=
  match a, b with
  | VStr s, VStr t => String.eqb s t
  | VNum m, VNum n => number_eqb m n
  | VArr xs, VArr ys =>
      Nat.eqb (List.length xs) (List.length ys)
      && forallb (fun p => number_eqb (fst p) (snd p)) (combine xs ys)
  | _, _ => false
  end.

Definition number_has_nan (n : Number) : bool :=
  match n with
  | NaN => true
  | Int _ => false
  end.

Definition has_nan (v : Value) : bool :=
  match v with
  | VStr _ => false
  | VNum n => number_has_nan n
  | VArr a => existsb number_has_nan a
  end.

(** A Python [dict] with string keys, in insertion order. *)
Definition Dict (V : Type) : Type := list (string * V).

Section DictOps.
Context {V : Type}.

(** [d.get(k)] *)
Fixpoint dict_get (k : string) (d : Dict V) : option V :=
  match d with
  | [] => None
  | (k', v) :: rest => if String.eqb k k' then Some v else dict_get k rest
  end.

(** [d[k] = v]: an existing key keeps its place, a new key goes last. *)
Fixpoint dict_set (k : string) (v : V) (d : Dict V) : Dict V :=
  match d with
  | [] => [(k, v)]
  | (k', v') :: rest =>
      if String.eqb k k' then (k', v) :: rest
      else (k', v') :: dict_set k v rest
  end.

Definition keys (d : Dict V) : list string := map fst d.
Definition values (d : Dict V) : list V := map snd d.
End DictOps.

(** No value of the dictionary is or holds a NaN. *)
Definition nan_free (d : Dict Value) : Prop :=
  Forall (fun kv => has_nan (snd kv) = false) d.

(** ** Cubes *)

(** A coordinate: its units, its points and the data dimensions it spans.
    An iris coordinate holds at least one point: [points[0]] is
    [first_point], and [points[-1]] is the last of [more_points] or, for a
    single point, [first_point] again. *)
Record Coord : Type := {
  coord_units : string;
  first_point : Z;
  more_points : list Z;
  dims : list nat
}.

Definition points (c : Coord) : list Z := first_point c :: more_points c.

Record Cube : Type := {
  var_name : string;
  attributes : Dict Value;
  coords : Dict Coord;
  shape : list nat;
  lazy_data : bool
}.

(** [cube.attributes = attrs] *)
Definition set_attributes (attrs : Dict Value) (cube : Cube) : Cube :=
  {| var_name := var_name cube;
     attributes := attrs;
     coords := coords cube;
     shape := shape cube;
     lazy_data := lazy_data cube |}.

(** ** The attribute unifier *)

Section Unifier.
(** [str] of a numpy scalar or array; [str] of a string is the string. *)
Variable numpy_str : Value -> string.

Definition str (v : Value) : string :=
  match v with
  | VStr s => s
  | _ => numpy_str v
  end.

(** ['{};{}'.format(str(a), str(b))] *)
Definition format_pair (a b : Value) : Value :=
  VStr (str a ++ ";" ++ str b).

(** The body of the inner loop of [_fix_cube_attributes]. *)
Definition merge_attr (attrs : Dict Value) (item : string * Value)
  : Dict Value :=
  let (attr, val) := item in
  match dict_get attr attrs with
  | None => dict_set attr val attrs
  | Some cur =>
      if array_equal val cur then attrs
      else dict_set attr (format_pair cur val) attrs
  end.

(** The dictionary [attributes] after the first loop. *)
Definition unified_attributes (cubes : list Cube) : Dict Value :=
  fold_left (fun attrs cube => fold_left merge_attr (attributes cube) attrs)
            cubes [].

(** [_fix_cube_attributes(cubes)]: the cubes as the call leaves them. *)
Definition _fix_cube_attributes (cubes : list Cube) : list Cube :=
  map (set_attributes (unified_attributes cubes)) cubes.

(** *** Per-key view of the unifier *)

(** One step of the accumulation for a single key. *)
Definition accumulate (cur : option Value) (val : Value) : option Value :=
  match cur with
  | None => Some val
  | Some c => Some (if array_equal val c then c else format_pair c val)
  end.

(** The values a key has in the fragments, in encounter order. *)
Definition values_of (k : string) (cubes : list Cube) : list Value :=
  flat_map (fun cube =>
              map snd (filter (fun kv => String.eqb k (fst kv))
                              (attributes cube)))
           cubes.
End Unifier.
Arguments merge_attr : simpl never.

(** A plain rendering of numbers and arrays, used to run the unifier on
    examples: integers in decimal, NaN as numpy prints it, arrays in
    brackets. *)
Definition str_of_Z (z : Z) : string :=
  DecimalString.NilZero.string_of_int (Z.to_int z).

Definition str_of_number (n : Number) : string :=
  match n with
  | Int z => str_of_Z z
  | NaN => "nan"
  end.

Definition plain_str (v : Value) : string :=
  match v with
  | VStr s => s
  | VNum n => str_of_number n
  | VArr a => "[" ++ String.concat " " (map str_of_number a) ++ "]"
  end.

(** ** Dates *)

(** A calendar date as [num2date] returns it. *)
Record Date : Type := {
  year : Z; month : Z; day : Z;
  hour : Z; minute : Z; second : Z
}.

Definition lex (c1 c2 : comparison) : comparison :=
  match c1 with
  | Eq => c2
  | _ => c1
  end.

Definition date_compare (a b : Date) : comparison :=
  lex (Z.compare (year a) (year b))
 (lex (Z.compare (month a) (month b))
 (lex (Z.compare (day a) (day b))
 (lex (Z.compare (hour a) (hour b))
 (lex (Z.compare (minute a) (minute b))
      (Z.compare (second a) (second b)))))).

(** [a == b], [a < b], [a <= b] and [a > b] on dates. *)
Definition date_eqb (a b : Date) : bool :=
  match date_compare a b with Eq => true | _ => false end.
Definition date_ltb (a b : Date) : bool :=
  match date_compare a b with Lt => true | _ => false end.
Definition date_leb (a b : Date) : bool :=
  match date_compare a b with Gt => false | _ => true end.
Definition date_gtb (a b : Date) : bool :=
  match date_compare a b with Gt => true | _ => false end.

(** ** Logging, the file system and the monad of the module *)

Inductive Level : Type := DEBUG | ERROR.

Inductive LogArg : Type :=
| ArgCube (c : Cube)
| ArgCubes (cs : list Cube)
| ArgDate (d : Date)
| ArgStr (s : string)
| ArgError (e : PyError).

(** A call [logger.<level>(msg, *args)]; [msg] is a format string or, in
    [logger.error(cube)], a cube. *)
Inductive LogMsg : Type :=
| Fmt (s : string)
| Obj (c : Cube).

Record LogRecord : Type := {
  level : Level;
  msg : LogMsg;
  args : list LogArg
}.

(** The keyword arguments [save] hands to [iris.save]. *)
Record SaveKwargs : Type := {
  target : string;
  zlib : bool;
  chunksizes : option (list nat);
  fill_value : Z
}.

(** Values of product attributes, as the recipe provides them. *)
Inductive YamlValue : Type :=
| YStr (s : string)
| YInt (z : Z)
| YList (l : list string).

(** The [info] structure [_write_ncl_metadata] hands to
    [write_ncl_settings]. *)
Record NclInfo : Type := {
  input_file_info : list (Dict YamlValue);
  variable_info : Dict YamlValue;
  dataset_info : list (Dict YamlValue)
}.

(** What the functions can see and change outside their arguments: the
    paths that exist, the calls of [iris.save], the YAML documents dumped,
    the NCL settings written, and the log. *)
Record World : Type := {
  paths : list string;
  saved : list (list Cube * SaveKwargs);
  dumped : list (string * Dict (Dict YamlValue));
  ncl_settings : list (string * NclInfo);
  logged : list LogRecord
}.

Definition IO (A : Type) : Type := World -> World * Result A.

Definition ret {A} (a : A) : IO A := fun w => (w, Ok a).
Definition raise {A} (e : PyError) : IO A := fun w => (w, Raise e).
Definition bind {A B} (m : IO A) (f : A -> IO B) : IO B :=
  fun w => match m w with
           | (w', Ok a) => f a w'
           | (w', Raise e) => (w', Raise e)
           end.
Definition lift {A} (r : Result A) : IO A := fun w => (w, r).

Notation "x <- c1 ;; c2" := (bind c1 (fun x => c2))
  (at level 61, c1 at next level, right associativity).
Notation "c1 ;; c2" := (bind c1 (fun _ => c2))
  (at level 61, right associativity).

(** The world with more records in the log. *)
Definition add_log (records : list LogRecord) (w : World) : World :=
  {| paths := paths w; saved := saved w; dumped := dumped w;
     ncl_settings := ncl_settings w;
     logged := logged w ++ records |}.

Definition log_record (r : LogRecord) : IO unit :=
  fun w => (add_log [r] w, Ok tt).

Definition logger_debug (fmt : string) (a : list LogArg) : IO unit :=
  log_record {| level := DEBUG; msg := Fmt fmt; args := a |}.
Definition logger_error (fmt : string) (a : list LogArg) : IO unit :=
  log_record {| level := ERROR; msg := Fmt fmt; args := a |}.
Definition logger_error_cube (c : Cube) : IO unit :=
  log_record {| level := ERROR; msg := Obj c; args := [] |}.

(** [for x in xs: body(x)] *)
Fixpoint for_each {A} (xs : list A) (body : A -> IO unit) : IO unit :=
  match xs with
  | [] => ret tt
  | x :: rest => body x ;; for_each rest body
  end.

(** [xs[i]] for [i >= 0]. *)
Definition index {A} (xs : list A) (i : nat) : Result A :=
  match nth_error xs i with
  | Some x => Ok x
  | None => Raise IndexError
  end.

(** [cube.coord(name)] *)
Definition coord (cube : Cube) (name : string) : Result Coord :=
  match dict_get name (coords cube) with
  | Some c => Ok c
  | None => Raise (CoordinateNotFoundError name)
  end.

(** [cube.coord_dims(name)] *)
Definition coord_dims (cube : Cube) (name : string) : Result (list nat) :=
  match coord cube name with
  | Ok c => Ok (dims c)
  | Raise e => Raise e
  end.

(** ** Loading *)

Section Loading.
(** [iris.load_raw(file, callback=callback)]; the callback is handed on
    as it is. *)
Variable Callback : Type.
Variable load_raw : string -> option Callback -> list Cube.

Definition newline : string := String (ascii_of_nat 10) "".

(** [load(file, callback=None)] *)
Definition load (file : string) (callback : option Callback)
  : IO (list Cube) :=
  logger_debug ("Loading:" ++ newline ++ "%s") [ArgStr file] ;;
  let raw_cubes := load_raw file callback in
  match raw_cubes with
  | [] => raise (Exception ("Can not load cubes from " ++ file))
  | _ =>
      ret (map (fun cube =>
                  set_attributes
                    (dict_set "source_file" (VStr file) (attributes cube))
                    cube)
               raw_cubes)
  end.
End Loading.

(** ** Concatenation *)

Section Concatenation.
(** [str] of numpy values, see the unifier. *)
Variable numpy_str : Value -> string.
(** [units.num2date(t)] of cf_units: the date of a time point. *)
Variable num2date : string -> Z -> Date.
(** [iris.cube.CubeList(cubes).concatenate()] *)
Variable iris_concatenate : list Cube -> list Cube.
(** [iris.cube.CubeList(cubes).concatenate_cube()] *)
Variable concatenate_cube : list Cube -> Result Cube.
(** [extract_time(cube, start_year, start_month, start_day, end_year,
    end_month, end_day)] of [_time.py] *)
Variable extract_time : Cube -> Z -> Z -> Z -> Z -> Z -> Z -> Result Cube.

(** [time.cell(0).point] and [time.cell(-1).point]: the dates of the first
    and the last point. *)
Definition cell_first (time : Coord) : Date :=
  num2date (coord_units time) (first_point time).

Definition cell_last (time : Coord) : Date :=
  num2date (coord_units time) (last (more_points time) (first_point time)).

(** [next((time_1.units.num2date(t) for t in time_1.points
          if t in time_2.points), None)] *)
Definition find_start_overlap (time_1 time_2 : Coord) : option Date :=
  match find (fun t => existsb (Z.eqb t) (points time_2)) (points time_1) with
  | Some t => Some (num2date (coord_units time_1) t)
  | None => None
  end.

(** ["-".join([str(d.year), str(d.month), str(d.day)])] *)
Definition ymd (d : Date) : string :=
  String.concat "-" [str_of_Z (year d); str_of_Z (month d); str_of_Z (day d)].

(** Case 2.1 of the resolver: shorten the first cube and concatenate. *)
Definition splice (cube_1 cube_2 : Cube) (data_start_1 start_overlap : Date)
  : IO (list Cube) :=
  logger_debug
    ("Extracting time slice between %s and %s "
     ++ "from cube %s to use it for concatenation "
     ++ "with cube %s")
    [ArgStr (ymd data_start_1); ArgStr (ymd start_overlap);
     ArgCube cube_1; ArgCube cube_2] ;;
  c1_delta <- lift (extract_time cube_1
                      (year data_start_1) (month data_start_1)
                      (day data_start_1)
                      (year start_overlap) (month start_overlap)
                      (day start_overlap)) ;;
  let cubes := [c1_delta; cube_2] in
  logger_debug "Attemptong concatenatenation of %s with %s"
               [ArgCube c1_delta; ArgCube cube_2] ;;
  match concatenate_cube cubes with
  | Ok cube => ret [cube]
  | Raise (ConcatenateError m) =>
      let ex := ConcatenateError m in
      logger_error "Can not concatenate cubes: %s" [ArgError ex] ;;
      logger_error "Cubes:" [] ;;
      for_each cubes logger_error_cube ;;
      raise ex
  | Raise e => raise e
  end.

(** [_concatenate_overlapping_cubes(cubes)], from the comment
    [# get time end points] on: [cube_1] and [cube_2] are the cubes in the
    order chosen, [time_1] and [time_2] their time coordinates. *)
Definition resolve_ordered (cube_1 cube_2 : Cube) (time_1 time_2 : Coord)
  : IO (list Cube) :=
  let data_start_1 := cell_first time_1 in
  let data_start_2 := cell_first time_2 in
  let data_end_1 := cell_last time_1 in
  let data_end_2 := cell_last time_2 in
  if date_eqb data_start_1 data_start_2 then
    if date_ltb data_end_1 data_end_2 then
      logger_debug ("Both cubes start at the same time but cube %s "
                    ++ "ends before %s") [ArgCube cube_1; ArgCube cube_2] ;;
      logger_debug ("Cube %s contains all needed data "
                    ++ "so using it fully") [ArgCube cube_2] ;;
      ret [cube_2]
    else
      logger_debug ("Both cubes start at the same time but cube %s "
                    ++ "ends before %s") [ArgCube cube_2; ArgCube cube_1] ;;
      logger_debug ("Cube %s contains all needed data "
                    ++ "so using it fully") [ArgCube cube_1] ;;
      ret [cube_1]
  else
    match find_start_overlap time_1 time_2 with
    | None =>
        raise (ValueError ("Attempting to concatenate cubes that are"
                           ++ "separated in time."))
    | Some start_overlap =>
        cubes <- (if date_leb data_end_1 data_end_2
                  then splice cube_1 cube_2 data_start_1 start_overlap
                  else ret [cube_1; cube_2]) ;;
        if date_gtb data_end_1 data_end_2 then
          first <- lift (index cubes 0) ;;
          logger_debug "Using only data from %s" [ArgCube first] ;;
          ret [first]
        else ret cubes
    end.

(** [_concatenate_overlapping_cubes(cubes)]: both branches of the first
    test log the cubes in the order they were given, the second one after
    it has swapped them. *)
Definition _concatenate_overlapping_cubes (cubes : list Cube)
  : IO (list Cube) :=
  c0 <- lift (index cubes 0) ;;
  t0 <- lift (coord c0 "time") ;;
  c1 <- lift (index cubes 1) ;;
  t1 <- lift (coord c1 "time") ;;
  let cubes :=
    if Z.leb (first_point t0) (first_point t1) then (c0, c1) else (c1, c0) in
  logger_debug ("Will attempt to concatenate cubes %s "
                ++ "and %s in this order") [ArgCube c0; ArgCube c1] ;;
  let cube_1 := fst cubes in
  let cube_2 := snd cubes in
  time_1 <- lift (coord cube_1 "time") ;;
  time_2 <- lift (coord cube_2 "time") ;;
  resolve_ordered cube_1 cube_2 time_1 time_2.

(** Does the cube have a time coordinate?  ([coord] raises
    [CoordinateNotFoundError] when it has none.) *)
Definition has_time (cube : Cube) : bool :=
  match coord cube "time" with
  | Ok _ => true
  | Raise _ => false
  end.

(** Step 3 of [concatenate]: two results with time coordinates go to the
    overlap resolver. *)
Definition resolve_overlap (concatenated : list Cube) : IO (list Cube) :=
  match concatenated with
  | [cube_a; cube_b] =>
      if has_time cube_a && has_time cube_b
      then _concatenate_overlapping_cubes concatenated
      else ret concatenated
  | _ => ret concatenated
  end.

(** The error report for one remaining cube. *)
Definition report_cube (cube : Cube) : IO unit :=
  logger_error_cube cube ;;
  match coord cube "time" with
  | Raise _ => ret tt
  | Ok time =>
      logger_error "From %s to %s"
                   [ArgDate (cell_first time); ArgDate (cell_last time)]
  end.

(** The records the report of one remaining cube consists of: the cube
    and, when it has a time coordinate, its first and last date. *)
Definition report_records (cube : Cube) : list LogRecord :=
  {| level := ERROR; msg := Obj cube; args := [] |}
  :: match coord cube "time" with
     | Raise _ => []
     | Ok time =>
         [{| level := ERROR; msg := Fmt "From %s to %s";
             args := [ArgDate (cell_first time); ArgDate (cell_last time)] |}]
     end.

(** The error of the resolver for cubes without a common time point. *)
Definition separated_in_time : PyError :=
  ValueError "Attempting to concatenate cubes that areseparated in time.".

(** The error of [concatenate] for more or less than one remaining cube. *)
Definition can_not_concatenate : PyError :=
  ValueError "Can not concatenate cubes.".

(** The errors that reach [_io.py] from the functions it calls on cubes. *)
Definition raised_by_collaborator (e : PyError) : Prop :=
  (exists cubes, concatenate_cube cubes = Raise e)
  \/ (exists cube y1 m1 d1 y2 m2 d2,
        extract_time cube y1 m1 d1 y2 m2 d2 = Raise e).

(** [concatenate(cubes)] *)
Definition concatenate (cubes : list Cube) : IO Cube :=
  let cubes := _fix_cube_attributes numpy_str cubes in
  concatenated <- resolve_overlap (iris_concatenate cubes) ;;
  match concatenated with
  | [cube] => ret cube
  | _ =>
      logger_error "Can not concatenate cubes into a single one." [] ;;
      logger_error "Resulting cubes:" [] ;;
      for_each concatenated report_cube ;;
      raise (ValueError "Can not concatenate cubes.")
  end.
End Concatenation.

(** ** Paths *)

Definition is_slash (c : ascii) : bool := Ascii.eqb c "/"%char.

Fixpoint drop_while {A} (f : A -> bool) (l : list A) : list A :=
  match l with
  | [] => []
  | x :: rest => if f x then drop_while f rest else l
  end.

(** [os.path.dirname(p)]: the part up to the last slash, without trailing
    slashes unless it consists of slashes only. *)
Definition dirname (p : string) : string :=
  let head := rev (drop_while (fun c => negb (is_slash c))
                              (rev (list_ascii_of_string p))) in
  string_of_list_ascii
    (if forallb is_slash head then head
     else rev (drop_while is_slash (rev head))).

Definition endswith_slash (a : string) : bool :=
  match rev (list_ascii_of_string a) with
  | c :: _ => is_slash c
  | [] => false
  end.

Definition startswith_slash (b : string) : bool :=
  match b with
  | String c _ => is_slash c
  | EmptyString => false
  end.

(** [os.path.join(a, b)] *)
Definition path_join (a b : string) : string :=
  if startswith_slash b then b
  else if String.eqb a "" || endswith_slash a then a ++ b
  else a ++ "/" ++ b.

(** [s.split(' ')] *)
Fixpoint split_space (s : string) : list string :=
  match s with
  | EmptyString => [""]
  | String c rest =>
      if Ascii.eqb c " "%char then "" :: split_space rest
      else match split_space rest with
           | word :: words => String c word :: words
           | [] => [String c ""]
           end
  end.

(** [os.path.exists(p)]; the empty path never exists. *)
Definition path_exists (w : World) (p : string) : bool :=
  negb (String.eqb p "") && existsb (String.eqb p) (paths w).

Definition os_path_exists (p : string) : IO bool :=
  fun w => (w, Ok (path_exists w p)).

(** The directory and the directories above it. *)
Fixpoint with_parents (fuel : nat) (p : string) : list string :=
  match fuel with
  | O => []
  | S n =>
      if String.eqb p "" then []
      else p :: (if String.eqb (dirname p) p then []
                 else with_parents n (dirname p))
  end.

Definition add_paths (new : list string) (w : World) : World :=
  {| paths := new ++ paths w; saved := saved w; dumped := dumped w;
     ncl_settings := ncl_settings w; logged := logged w |}.

(** [os.makedirs(name)]: creates the directory and the missing ones above
    it; the empty name is refused with [FileNotFoundError]. *)
Definition os_makedirs (name : string) : IO unit :=
  fun w =>
    if String.eqb name "" then (w, Raise (FileNotFoundError name))
    else (add_paths (with_parents (S (String.length name)) name) w, Ok tt).

(** ** Saving *)

Definition GLOBAL_FILL_VALUE : Z := 10 ^ 20.

(** [iris.save(cubes, **kwargs)] *)
Definition iris_save (cubes : list Cube) (kwargs : SaveKwargs) : IO unit :=
  fun w =>
    ({| paths := target kwargs :: paths w;
        saved := saved w ++ [(cubes, kwargs)];
        dumped := dumped w;
        ncl_settings := ncl_settings w;
        logged := logged w |}, Ok tt).

(** The loop [for coord_dims in (...): dims += coord_dims] *)
Fixpoint named_dims (cube : Cube) (names : list string) (dims : list nat)
  : Result (list nat) :=
  match names with
  | [] => Ok dims
  | dimension :: rest =>
      match coord_dims cube dimension with
      | Ok coord_dims => named_dims cube rest (dims ++ coord_dims)
      | Raise e => Raise e
      end
  end.

(** The dimensions [dims] that [optimize_access] selects in [cube]. *)
Definition selected_dims (cube : Cube) (optimize_access : string)
  : Result (list nat) :=
  if String.eqb optimize_access "map" then
    match coord_dims cube "latitude" with
    | Ok lat =>
        match coord_dims cube "longitude" with
        | Ok lon => Ok (lat ++ lon)
        | Raise e => Raise e
        end
    | Raise e => Raise e
    end
  else if String.eqb optimize_access "timeseries" then
    coord_dims cube "time"
  else named_dims cube (split_space optimize_access) [].

(** [tuple(length if index in dims else 1
          for index, length in enumerate(shape))], from [index] on. *)
Fixpoint chunks_from (index : nat) (dims : list nat) (shape : list nat)
  : list nat :=
  match shape with
  | [] => []
  | length :: rest =>
      (if existsb (Nat.eqb index) dims then length else 1)
        :: chunks_from (S index) dims rest
  end.

(** [save(cubes, filename, optimize_access='', compress=False)]; further
    keyword arguments of the caller go to [iris.save] untouched and are left
    out. *)
Definition save (cubes : list Cube) (filename optimize_access : string)
                (compress : bool) : IO string :=
  let dirname := dirname filename in
  dir_exists <- os_path_exists dirname ;;
  (if dir_exists then ret tt else os_makedirs dirname) ;;
  file_exists <- os_path_exists filename ;;
  if file_exists && forallb lazy_data cubes then
    logger_debug ("Not saving cubes %s to %s to avoid data loss. "
                  ++ "The cube is probably unchanged.")
                 [ArgCubes cubes; ArgStr filename] ;;
    ret filename
  else
    logger_debug "Saving cubes %s to %s" [ArgCubes cubes; ArgStr filename] ;;
    chunks <- (if String.eqb optimize_access "" then ret None
               else
                 cube <- lift (index cubes 0) ;;
                 dims <- lift (selected_dims cube optimize_access) ;;
                 ret (Some (chunks_from 0 dims (shape cube)))) ;;
    iris_save cubes {| target := filename; zlib := compress;
                       chunksizes := chunks;
                       fill_value := GLOBAL_FILL_VALUE |} ;;
    ret filename.

(** ** Writing metadata *)

Definition DATASET_KEYS : list string := ["mip"].
Definition VARIABLE_KEYS : list string :=
  ["reference_dataset"; "alternative_dataset"].

(** A preprocessor product, as far as [write_metadata] reads it. *)
Module Product.
Record t : Type := {
  filename : string;
  attributes : Dict YamlValue
}.
End Product.

(** [a == b] on attribute values. *)
Definition yaml_eqb (a b : YamlValue) : bool :=
  match a, b with
  | YStr s, YStr t => String.eqb s t
  | YInt x, YInt y => Z.eqb x y
  | YList l, YList m =>
      Nat.eqb (List.length l) (List.length m)
      && forallb (fun p => String.eqb (fst p) (snd p)) (combine l m)
  | _, _ => false
  end.

Fixpoint strings_ltb (l m : list string) : bool :=
  match l, m with
  | [], [] => false
  | [], _ :: _ => true
  | _ :: _, [] => false
  | x :: l', y :: m' =>
      if String.eqb x y then strings_ltb l' m' else String.ltb x y
  end.

(** [a < b]: defined between two numbers, two strings or two lists, a
    [TypeError] otherwise. *)
Definition yaml_ltb (a b : YamlValue) : Result bool :=
  match a, b with
  | YStr s, YStr t => Ok (String.ltb s t)
  | YInt x, YInt y => Ok (Z.ltb x y)
  | YList l, YList m => Ok (strings_ltb l m)
  | _, _ => Raise TypeError
  end.

(** The sort key of [write_metadata];
    the default [1e6] of the index is the number 1000000. *)
Definition sort_key (p : Product.t) : YamlValue * YamlValue :=
  (match dict_get "recipe_dataset_index" (Product.attributes p) with
   | Some v => v
   | None => YInt 1000000
   end,
   match dict_get "dataset" (Product.attributes p) with
   | Some v => v
   | None => YStr ""
   end).

(** [k1 < k2] on pairs: the first components decide unless they are equal. *)
Definition key_ltb (k1 k2 : YamlValue * YamlValue) : Result bool :=
  if yaml_eqb (fst k1) (fst k2) then
    if yaml_eqb (snd k1) (snd k2) then Ok false
    else yaml_ltb (snd k1) (snd k2)
  else yaml_ltb (fst k1) (fst k2).

(** [sorted(prods, key=sort_key)], a stable sort: each product goes before
    the first one with a larger key. *)
Fixpoint insert_sorted (x : Product.t) (l : list Product.t)
  : Result (list Product.t) :=
  match l with
  | [] => Ok [x]
  | y :: rest =>
      match key_ltb (sort_key x) (sort_key y) with
      | Raise e => Raise e
      | Ok true => Ok (x :: y :: rest)
      | Ok false =>
          match insert_sorted x rest with
          | Ok rest' => Ok (y :: rest')
          | Raise e => Raise e
          end
      end
  end.

Fixpoint sorted_onto (acc : list Product.t) (prods : list Product.t)
  : Result (list Product.t) :=
  match prods with
  | [] => Ok acc
  | x :: rest =>
      match insert_sorted x acc with
      | Ok acc' => sorted_onto acc' rest
      | Raise e => Raise e
      end
  end.

Definition sorted (prods : list Product.t) : Result (list Product.t) :=
  sorted_onto [] prods.

(** [itertools.groupby(l, key)]: runs of neighbours with the same key. *)
Fixpoint groupby {A} (key : A -> string) (l : list A)
  : list (string * list A) :=
  match l with
  | [] => []
  | x :: rest =>
      match groupby key rest with
      | (k, g) :: groups =>
          if String.eqb (key x) k then (k, x :: g) :: groups
          else (key x, [x]) :: (k, g) :: groups
      | [] => [(key x, [x])]
      end
  end.

(** A list or tuple under ['exp'] becomes ['-'.join(...)]. *)
Definition join_exp (attrs : Dict YamlValue) : Dict YamlValue :=
  match dict_get "exp" attrs with
  | Some (YList l) => dict_set "exp" (YStr (String.concat "-" l)) attrs
  | _ => attrs
  end.

(** The [metadata] mapping of one directory. *)
Definition manifest (sorted_products : list Product.t)
  : Dict (Dict YamlValue) :=
  fold_left (fun metadata product =>
               dict_set (Product.filename product)
                        (join_exp (Product.attributes product)) metadata)
            sorted_products [].

(** The directory a file of this name lies in is there: the working
    directory for a bare name, the root, or a path that exists. *)
Definition directory_exists (w : World) (name : string) : bool :=
  String.eqb (dirname name) ""
  || forallb is_slash (list_ascii_of_string (dirname name))
  || path_exists w (dirname name).

(** [with open(name, 'w') as file: _ordered_safe_dump(data, file)];
    [open] raises [FileNotFoundError] when the directory of the file does
    not exist. *)
Definition dump_yaml (name : string) (data : Dict (Dict YamlValue))
  : IO unit :=
  fun w =>
    if directory_exists w name then
      ({| paths := name :: paths w; saved := saved w;
          dumped := dumped w ++ [(name, data)];
          ncl_settings := ncl_settings w; logged := logged w |}, Ok tt)
    else (w, Raise (FileNotFoundError name)).

(** [write_ncl_settings(info, filename)] of [_task.py] *)
Definition write_ncl_settings (info : NclInfo) (name : string) : IO unit :=
  fun w =>
    ({| paths := name :: paths w; saved := saved w; dumped := dumped w;
        ncl_settings := ncl_settings w ++ [(name, info)];
        logged := logged w |}, Ok tt).

(** [any(variable[key] != var.get(key, object()) for var in variables)] *)
Definition dataset_specific (key : string) (value : YamlValue)
                            (variables : list (Dict YamlValue)) : bool :=
  existsb (fun var => match dict_get key var with
                      | Some v => negb (yaml_eqb value v)
                      | None => true
                      end) variables.

(** The loop over the keys of one variable: the pair is
    [(dataset_info, variable_info)]. *)
Definition classify (variables : list (Dict YamlValue))
                    (infos : Dict YamlValue * Dict YamlValue)
                    (item : string * YamlValue)
  : Dict YamlValue * Dict YamlValue :=
  let (key, value) := item in
  if (dataset_specific key value variables
      || existsb (String.eqb key) DATASET_KEYS)
     && negb (existsb (String.eqb key) VARIABLE_KEYS)
  then (dict_set key value (fst infos), snd infos)
  else (fst infos, dict_set key value (snd infos)).

(** [_write_ncl_metadata(output_dir, metadata)] *)
Definition _write_ncl_metadata (output_dir : string)
                               (metadata : Dict (Dict YamlValue))
  : IO string :=
  let variables := values metadata in
  let (datasets, variable_info) :=
    fold_left (fun (acc : list (Dict YamlValue) * Dict YamlValue) variable =>
                 let (dataset_info, variable_info) :=
                   fold_left (classify variables) variable ([], snd acc) in
                 (fst acc ++ [dataset_info], variable_info))
              variables ([], []) in
  let info := {| input_file_info := variables;
                 variable_info := variable_info;
                 dataset_info := datasets |} in
  match dict_get "short_name" variable_info with
  | None => raise (KeyError "short_name")
  | Some (YStr short_name) =>
      let name := path_join output_dir (short_name ++ "_info.ncl") in
      write_ncl_settings info name ;;
      ret name
  | Some _ => raise TypeError
  end.

(** The body of the loop of [write_metadata] for one directory. *)
Definition write_group (write_ncl : bool) (output_files : list string)
                       (group : string * list Product.t)
  : IO (list string) :=
  let (output_dir, prods) := group in
  sorted_products <- lift (sorted prods) ;;
  let metadata := manifest sorted_products in
  let output_filename := path_join output_dir "metadata.yml" in
  let output_files := output_files ++ [output_filename] in
  dump_yaml output_filename metadata ;;
  if write_ncl then
    ncl <- _write_ncl_metadata output_dir metadata ;;
    ret (output_files ++ [ncl])
  else ret output_files.

Fixpoint write_groups (write_ncl : bool) (output_files : list string)
                      (groups : list (string * list Product.t))
  : IO (list string) :=
  match groups with
  | [] => ret output_files
  | group :: rest =>
      output_files <- write_group write_ncl output_files group ;;
      write_groups write_ncl output_files rest
  end.

(** [write_metadata(products, write_ncl=False)]; the list returned is
    [output_files]. *)
Definition write_metadata (products : list Product.t) (write_ncl : bool)
  : IO (list string) :=
  write_groups write_ncl []
               (groupby (fun p => dirname (Product.filename p)) products).

(** *** The order [write_metadata] sorts by *)

(** What the products of a directory are to be ordered by, read off the
    attributes: the number under ['recipe_dataset_index'], or 1000000 when
    the product has no such attribute, ... *)
Definition index_or_default (attrs : Dict YamlValue) : option Z :=
  match dict_get "recipe_dataset_index" attrs with
  | None => Some 1000000%Z
  | Some (YInt i) => Some i
  | Some _ => None
  end.

(** ... and the string under ['dataset'], or the empty string when the
    product has no such attribute. *)
Definition dataset_or_default (attrs : Dict YamlValue) : option string :=
  match dict_get "dataset" attrs with
  | None => Some ""
  | Some (YStr d) => Some d
  | Some _ => None
  end.

(** The pair of the two, for a product whose index is a number and whose
    dataset is a string. *)
Definition typed_key (p : Product.t) : option (Z * string) :=
  match index_or_default (Product.attributes p),
        dataset_or_default (Product.attributes p) with
  | Some i, Some d => Some (i, d)
  | _, _ => None
  end.

Definition well_keyed (p : Product.t) : Prop := typed_key p <> None.

(** Pairs of an index and a dataset name in ascending order: by index, and
    by name for equal indices. *)
Definition pair_le (a b : Z * string) : Prop :=
  (fst a < fst b)%Z
  \/ (fst a = fst b /\ String.leb (snd a) (snd b) = true).

Definition key_le (p q : Product.t) : Prop :=
  match typed_key p, typed_key q with
  | Some a, Some b => pair_le a b
  | _, _ => False
  end.

(** The manifest file of a group. *)
Definition manifest_name (output_dir : string) : string :=
  path_join output_dir "metadata.yml".

(** ** Sample collaborators and worlds for running the functions *)

Definition empty_world : World :=
  {| paths := []; saved := []; dumped := []; ncl_settings := [];
     logged := [] |}.

(** [num2date] for days since 1850-01-01 in the 360-day calendar. *)
Definition days_since_1850 (units : string) (t : Z) : Date :=
  {| year := 1850 + t / 360; month := 1 + (t mod 360) / 30;
     day := 1 + t mod 30; hour := 0; minute := 0; second := 0 |}.

(** A structural concatenation that finds nothing to merge. *)
Definition merge_nothing (cubes : list Cube) : list Cube := cubes.

(** A [concatenate_cube] that joins the time points of two cubes and
    refuses anything else. *)
Definition join_pair (cubes : list Cube) : Result Cube :=
  match cubes with
  | [a; b] =>
      match coord a "time", coord b "time" with
      | Ok ta, Ok tb =>
          Ok {| var_name := var_name a; attributes := attributes a;
                coords := dict_set "time"
                            {| coord_units := coord_units ta;
                               first_point := first_point ta;
                               more_points := more_points ta ++ points tb;
                               dims := dims ta |} (coords a);
                shape := shape a; lazy_data := lazy_data a |}
      | _, _ => Raise (ConcatenateError "failed to concatenate into a single cube.")
      end
  | _ => Raise (ConcatenateError "failed to concatenate into a single cube.")
  end.

(** An [extract_time] that keeps the points dated from the first day up to,
    but not including, the second, and raises when none is left. *)
Definition keep_between (cube : Cube) (y1 m1 d1 y2 m2 d2 : Z)
  : Result Cube :=
  match coord cube "time" with
  | Raise e => Raise e
  | Ok time =>
      let day_of y m d :=
        {| year := y; month := m; day := d;
           hour := 0; minute := 0; second := 0 |} in
      let inside t :=
        date_leb (day_of y1 m1 d1) (days_since_1850 (coord_units time) t)
        && date_ltb (days_since_1850 (coord_units time) t) (day_of y2 m2 d2) in
      match filter inside (points time) with
      | [] => Raise (ValueError "Time slice is outside cube time bounds.")
      | t :: ts =>
          Ok {| var_name := var_name cube; attributes := attributes cube;
                coords := dict_set "time"
                            {| coord_units := coord_units time;
                               first_point := t; more_points := ts;
                               dims := dims time |} (coords cube);
                shape := shape cube; lazy_data := lazy_data cube |}
      end
  end.

(** A daily time coordinate and a cube that has it. *)
Definition daily_time (first : Z) (more : list Z) : Coord :=
  {| coord_units := "days since 1850-01-01";
     first_point := first; more_points := more; dims := [0%nat] |}.

Definition daily_cube (name : string) (first : Z) (more : list Z) : Cube :=
  {| var_name := name; attributes := [];
     coords := [("time", daily_time first more)];
     shape := [S (List.length more)]; lazy_data := true |}.

(** A world in which the output directories [A] and [B] have been made. *)
Definition output_world : World := add_paths ["A"; "B"] empty_world.

(** Two products of directory [A] with the indices 2 and 1, and one of
    directory [B] without index. *)
Definition three_products : list Product.t :=
  [{| Product.filename := "A/tas_second.nc";
      Product.attributes := [("dataset", YStr "M2");
                             ("recipe_dataset_index", YInt 2)] |};
   {| Product.filename := "A/tas_first.nc";
      Product.attributes := [("dataset", YStr "M1");
                             ("recipe_dataset_index", YInt 1)] |};
   {| Product.filename := "B/pr.nc";
      Product.attributes := [("dataset", YStr "M1")] |}].

(** A cube on a time, latitude and longitude grid. *)
Definition grid_cube (name : string) (shape : list nat) (lazy : bool)
  : Cube :=
  let axis d := {| coord_units := "1"; first_point := 0; more_points := [];
                   dims := [d] |} in
  {| var_name := name; attributes := [];
     coords := [("time", axis 0%nat); ("latitude", axis 1%nat);
                ("longitude", axis 2%nat)];
     shape := shape; lazy_data := lazy |}.

(** ** Computations that only log *)

(** The lines of the report [concatenate] logs before it gives up: the two
    headers and the date range of a cube. *)
Definition report_line (record : LogRecord) : bool :=
  match msg record with
  | Fmt text =>
      existsb (String.eqb text)
              ["Can not concatenate cubes into a single one.";
               "Resulting cubes:"; "From %s to %s"]
  | Obj _ => false
  end.

(** A computation whose outcome does not depend on the world and whose only
    effect is to add records to the log, none of them a line of the
    report. *)
Definition log_only {A} (m : IO A) : Prop :=
  exists records r,
    Forall (fun record => report_line record = false) records
    /\ forall w, m w = (add_log records w, r).

(** ** The structure [_write_ncl_metadata] writes *)

(** The pair [(info['dataset_info'], variable_info)] after the loop over
    the variables. *)
Definition split_info (variables : list (Dict YamlValue))
  : list (Dict YamlValue) * Dict YamlValue :=
  fold_left (fun (acc : list (Dict YamlValue) * Dict YamlValue) variable =>
               let (dataset_info, variable_info) :=
                 fold_left (classify variables) variable ([], snd acc) in
               (fst acc ++ [dataset_info], variable_info))
            variables ([], []).

(** [info] as it is when the file name is computed. *)
Definition ncl_info (variables : list (Dict YamlValue)) : NclInfo :=
  {| input_file_info := variables;
     variable_info := snd (split_info variables);
     dataset_info := fst (split_info variables) |}.

(** ** The coordinates [save] looks up *)

(** The names [save] passes to [coord_dims] for a non-empty
    [optimize_access], in the order of the calls. *)
Definition requested_coordinates (optimize_access : string) : list string :=
  if String.eqb optimize_access "map" then ["latitude"; "longitude"]
  else if String.eqb optimize_access "timeseries" then ["time"]
  else split_space optimize_access.

(** The dimensions of a coordinate of the cube, none for a name the cube
    does not have. *)
Definition dims_of (cube : Cube) (name : string) : list nat :=
  match dict_get name (coords cube) with
  | Some c => dims c
  | None => []
  end.

Definition has_coord (cube : Cube) (name : string) : bool :=
  match dict_get name (coords cube) with
  | Some _ => true
  | None => false
  end.

(** The test of [_write_ncl_metadata] that sends a key and its value to
    [dataset_info] rather than to [variable_info]. *)
Definition dataset_level (variables : list (Dict YamlValue))
                         (key : string) (value : YamlValue) : bool :=
  (dataset_specific key value variables
   || existsb (String.eqb key) DATASET_KEYS)
  && negb (existsb (String.eqb key) VARIABLE_KEYS).

(** ** The load callback *)

(** What [concatenate_callback] reads and writes of a raw cube: the
    attributes, and of each coordinate the standard name, the variable name
    (both may be [None]) and the units. *)
Module Raw.
Record Coord : Type := {
  standard_name : option string;
  var_name : option string;
  units : string
}.

Record Cube : Type := {
  attributes : Dict Value;
  coords : list Coord
}.
End Raw.

(** The low-level field: [ncfield.cf_group[name].cf_attrs()] is the list of
    the attributes of the file variable [name]. *)
Definition Field : Type := Dict (list (string * Value)).

(** [_get_attr_from_field_coord(ncfield, coord_name, attr)] *)
Definition _get_attr_from_field_coord
           (ncfield : Field) (coord_name : option string) (attr : string)
  : Result (option Value) :=
  match coord_name with
  | Some name =>
      match dict_get name ncfield with
      | None => Raise (KeyError name)
      | Some attrs =>
          let attr_val :=
            map snd (filter (fun kv => String.eqb (fst kv) attr) attrs) in
          match attr_val with
          | value :: _ => Ok (Some value)
          | [] => Ok None
          end
      end
  | None => Ok None
  end.

(** [del d[k]] *)
Definition dict_del {V} (k : string) (d : Dict V) : Dict V :=
  filter (fun kv => negb (String.eqb k (fst kv))) d.

Definition volatile_attributes : list string :=
  ["creation_date"; "tracking_id"; "history"].

(** The first loop of [concatenate_callback]. *)
Definition remove_volatile (attributes : Dict Value) : Dict Value :=
  fold_left (fun attributes attr =>
               match dict_get attr attributes with
               | Some _ => dict_del attr attributes
               | None => attributes
               end)
            volatile_attributes attributes.

Section Callback.
(** [coord.units = units]: the value is turned into a unit, which cf_units
    may refuse. *)
Variable as_unit : Value -> Result string.

(** The body of the second loop of [concatenate_callback]. *)
Definition restore_units (field : Field) (coord : Raw.Coord)
  : Result Raw.Coord :=
  match Raw.standard_name coord with
  | Some name =>
      if existsb (String.eqb name) ["longitude"; "latitude"] then
        match _get_attr_from_field_coord field (Raw.var_name coord)
                                         "units" with
        | Raise e => Raise e
        | Ok None => Ok coord
        | Ok (Some units) =>
            match as_unit units with
            | Raise e => Raise e
            | Ok unit =>
                Ok {| Raw.standard_name := Raw.standard_name coord;
                      Raw.var_name := Raw.var_name coord;
                      Raw.units := unit |}
            end
        end
      else Ok coord
  | None => Ok coord
  end.

Fixpoint restore_all (field : Field) (coords : list Raw.Coord)
  : Result (list Raw.Coord) :=
  match coords with
  | [] => Ok []
  | coord :: rest =>
      match restore_units field coord with
      | Raise e => Raise e
      | Ok coord' =>
          match restore_all field rest with
          | Raise e => Raise e
          | Ok rest' => Ok (coord' :: rest')
          end
      end
  end.

(** [concatenate_callback(raw_cube, field, _)]: the raw cube as the call
    leaves it. *)
Definition concatenate_callback (raw_cube : Raw.Cube) (field : Field)
  : Result Raw.Cube :=
  let attributes := remove_volatile (Raw.attributes raw_cube) in
  match restore_all field (Raw.coords raw_cube) with
  | Raise e => Raise e
  | Ok coords => Ok {| Raw.attributes := attributes; Raw.coords := coords |}
  end.
End Callback.

(** ** Cleaning up *)

Inductive Kind : Type := File | Directory.

(** Where an entry of the disk is: the names of the directories from the
    root down, its own name last. *)
Definition Location : Type := list string.

(** The files and directories [cleanup] can see, each at its location; a
    disk without symbolic links. *)
Definition Disk : Type := list (Location * Kind).

Definition is_directory (k : Kind) : bool :=
  match k with Directory => true | File => false end.

Fixpoint location_eqb (a b : Location) : bool :=
  match a, b with
  | [], [] => true
  | x :: a', y :: b' => String.eqb x y && location_eqb a' b'
  | _, _ => false
  end.

(** The entry lies below the directory. *)
Fixpoint below (directory entry : Location) : bool :=
  match directory, entry with
  | [], _ :: _ => true
  | x :: directory', y :: entry' => String.eqb x y && below directory' entry'
  | _, [] => false
  end.

Section Cleanup.
(** The location the operating system resolves a path to, if any: [work],
    [work/] and [./work] are one location, the empty path is none. *)
Variable resolve : string -> option Location.

(** The path leads to this location, or to a directory above it. *)
Definition at_path (path : string) (entry : Location) : bool :=
  match resolve path with
  | Some location => location_eqb entry location
  | None => false
  end.
Definition under_path (path : string) (entry : Location) : bool :=
  match resolve path with
  | Some location => below location entry
  | None => false
  end.

(** [os.path.isdir(path)] and [os.path.isfile(path)] *)
Definition isdir (disk : Disk) (path : string) : bool :=
  existsb (fun e => at_path path (fst e) && is_directory (snd e)) disk.
Definition isfile (disk : Disk) (path : string) : bool :=
  existsb (fun e => at_path path (fst e) && negb (is_directory (snd e)))
          disk.

(** [shutil.rmtree(path)] and [os.remove(path)] *)
Definition rmtree (path : string) (disk : Disk) : Disk :=
  filter (fun e => negb (at_path path (fst e) || under_path path (fst e)))
         disk.
Definition os_remove (path : string) (disk : Disk) : Disk :=
  filter (fun e => negb (at_path path (fst e))) disk.

(** The body of the loop of [cleanup]. *)
Definition remove_path (disk : Disk) (path : string) : Disk :=
  if isdir disk path then rmtree path disk
  else if isfile disk path then os_remove path disk
  else disk.

(** [cleanup(files, remove=None)]: the disk afterwards and the value
    returned. *)
Definition cleanup (files : list string) (remove : option (list string))
                   (disk : Disk) : Disk * list string :=
  let remove := match remove with
                | None => []
                | Some remove => remove
                end in
  (fold_left remove_path remove disk, files).
End Cleanup.

(** [s.split('/')] *)
Fixpoint split_slash (s : string) : list string :=
  match s with
  | EmptyString => [""]
  | String c rest =>
      if is_slash c then "" :: split_slash rest
      else match split_slash rest with
           | word :: words => String c word :: words
           | [] => [String c ""]
           end
  end.

(** A resolver for running [cleanup]: from the working directory [cwd] for
    a relative path and from the root for an absolute one, name by name;
    empty names and [.] stay where they are, [..] goes one up. *)
Definition resolve_from (cwd : Location) (path : string)
  : option Location :=
  if String.eqb path "" then None
  else
    Some (fold_left
            (fun location name =>
               if String.eqb name "" || String.eqb name "." then location
               else if String.eqb name ".." then removelast location
               else location ++ [name])
            (split_slash path)
            (if startswith_slash path then [] else cwd)).

(** The coordinates whose units the callback restores: those with the
    standard name longitude or latitude. *)
Definition is_geographic (coord : Raw.Coord) : bool :=
  match Raw.standard_name coord with
  | Some name => existsb (String.eqb name) ["longitude"; "latitude"]
  | None => false
  end.

(** An [as_unit] for running the callback: strings are units, anything else
    is refused. *)
Definition text_unit (v : Value) : Result string :=
  match v with
  | VStr s => Ok s
  | _ => Raise (ValueError "not a unit")
  end.

(** Products of two variables, one directory each. *)
Definition named_products : list Product.t :=
  [{| Product.filename := "A/tas_M2.nc";
      Product.attributes := [("short_name", YStr "tas");
                             ("dataset", YStr "M2");
                             ("recipe_dataset_index", YInt 2)] |};
   {| Product.filename := "A/tas_M1.nc";
      Product.attributes := [("short_name", YStr "tas");
                             ("dataset", YStr "M1");
                             ("recipe_dataset_index", YInt 1)] |};
   {| Product.filename := "B/pr_M1.nc";
      Product.attributes := [("short_name", YStr "pr");
                             ("dataset", YStr "M1")] |}].

Definition variable_of (output_dir : string) : string :=
  if String.eqb output_dir "A" then "tas" else "pr".

(** The NCL settings file of a directory whose variable is [short_name]. *)
Definition ncl_name (output_dir short_name : string) : string :=
  path_join output_dir (short_name ++ "_info.ncl").

(** What [dirname] returns: nothing but slashes, or a path that does not
    end with a slash. *)
Definition dirname_shape (r : list ascii) : Prop :=
  forallb is_slash r = true
  \/ exists c body, rev r = c :: body /\ is_slash c = false.

(** * Properties *)

(** ** Dictionaries *)

Section DictProps.
Context {V : Type}.
Implicit Types (d : Dict V) (k : string) (v : V).

Lemma dict_get_set k k' v d :
  dict_get k (dict_set k' v d) =
  if String.eqb k k' then Some v else dict_get k d.
Proof.
  induction d as [|[k0 v0] rest IH]; simpl.
  - reflexivity.
  - destruct (String.eqb k' k0) eqn:E1; simpl.
    + apply String.eqb_eq in E1; subst k0.
      destruct (String.eqb k k'); reflexivity.
    + rewrite IH.
      destruct (String.eqb k k0) eqn:E2; [|reflexivity].
      apply String.eqb_eq in E2; subst k0.
      rewrite String.eqb_sym, E1. reflexivity.
Qed.

Lemma dict_get_None_notin k d :
  dict_get k d = None <-> ~ In k (keys d).
Proof.
  induction d as [|[k0 v0] rest IH]; simpl.
  - tauto.
  - destruct (String.eqb k k0) eqn:E.
    + apply String.eqb_eq in E; subst. split; [discriminate | tauto].
    + apply String.eqb_neq in E. rewrite IH. split.
      * intros H [H1 | H1]; [congruence | tauto].
      * tauto.
Qed.

Lemma dict_set_absent k v d :
  dict_get k d = None -> dict_set k v d = d ++ [(k, v)].
Proof.
  induction d as [|[k0 v0] rest IH]; simpl; [reflexivity|].
  destruct (String.eqb k k0); [discriminate|].
  intros H. now rewrite IH.
Qed.

Lemma keys_dict_set_present k v d :
  dict_get k d <> None -> keys (dict_set k v d) = keys d.
Proof.
  induction d as [|[k0 v0] rest IH]; simpl; [congruence|].
  destruct (String.eqb k k0); simpl; [reflexivity|].
  intros H. now rewrite IH.
Qed.

Lemma dict_get_app_absent k d d' :
  dict_get k d = None -> dict_get k (d ++ d') = dict_get k d'.
Proof.
  induction d as [|[k0 v0] rest IH]; simpl; [reflexivity|].
  destruct (String.eqb k k0); [discriminate | exact IH].
Qed.

Lemma dict_get_NoDup_In k v d :
  NoDup (keys d) -> In (k, v) d -> dict_get k d = Some v.
Proof.
  induction d as [|[k0 v0] rest IH]; simpl; [tauto|].
  intros Hnd [Heq | Hin]; inversion Hnd; subst.
  - inversion Heq; subst. now rewrite String.eqb_refl.
  - destruct (String.eqb k k0) eqn:E; [|now apply IH].
    apply String.eqb_eq in E; subst k0.
    exfalso. apply H1. change k with (fst (k, v)). now apply in_map.
Qed.
End DictProps.

(** ** The attribute unifier *)

Lemma number_eqb_refl n : number_has_nan n = false -> number_eqb n n = true.
Proof. destruct n; simpl; [intros _; apply Z.eqb_refl | discriminate]. Qed.

Lemma array_equal_refl v : has_nan v = false -> array_equal v v = true.
Proof.
  destruct v as [s|n|a]; simpl.
  - intros _. apply String.eqb_refl.
  - apply number_eqb_refl.
  - intros H. rewrite Nat.eqb_refl. simpl.
    induction a as [|x a IH]; simpl in *; [reflexivity|].
    apply orb_false_iff in H as [Hx Ha].
    now rewrite number_eqb_refl, IH.
Qed.

Section UnifierProps.
Variable numpy_str : Value -> string.

Local Abbreviation merge_attr := (merge_attr numpy_str).
Local Abbreviation accumulate := (accumulate numpy_str).
Local Abbreviation unified_attributes := (unified_attributes numpy_str).
Local Abbreviation fix_attrs := (_fix_cube_attributes numpy_str).
Local Abbreviation loop_body :=
  (fun attrs cube => fold_left merge_attr (attributes cube) attrs).

Lemma dict_get_merge_attr k k' v attrs :
  dict_get k (merge_attr attrs (k', v)) =
  if String.eqb k k' then accumulate (dict_get k attrs) v
  else dict_get k attrs.
Proof.
  unfold merge_attr.
  destruct (String.eqb k k') eqn:E.
  - apply String.eqb_eq in E; subst k'.
    destruct (dict_get k attrs) as [cur|] eqn:G; simpl.
    + destruct (array_equal v cur).
      * now rewrite G.
      * now rewrite dict_get_set, String.eqb_refl.
    + now rewrite dict_get_set, String.eqb_refl.
  - destruct (dict_get k' attrs) as [cur|]; [destruct (array_equal v cur)|];
      try reflexivity; now rewrite dict_get_set, E.
Qed.

Lemma dict_get_fold_merge k items : forall attrs,
  dict_get k (fold_left merge_attr items attrs) =
  fold_left accumulate
            (map snd (filter (fun kv => String.eqb k (fst kv)) items))
            (dict_get k attrs).
Proof.
  induction items as [|[k' v] items IH]; intros attrs; simpl; [reflexivity|].
  rewrite IH, dict_get_merge_attr.
  destruct (String.eqb k k'); reflexivity.
Qed.

Lemma dict_get_loop k cubes : forall attrs,
  dict_get k (fold_left loop_body cubes attrs) =
  fold_left accumulate (values_of k cubes) (dict_get k attrs).
Proof.
  induction cubes as [|c cubes IH]; intros attrs; simpl; [reflexivity|].
  now rewrite IH, fold_left_app, dict_get_fold_merge.
Qed.

Lemma accumulate_Some vs : forall first,
  fold_left accumulate vs (Some first) =
  Some (fold_left (fun acc v =>
                     if array_equal v acc then acc
                     else format_pair numpy_str acc v) vs first).
Proof.
  induction vs as [|v vs IH]; intros first; simpl; [reflexivity|].
  now rewrite IH.
Qed.

(** The keys of the accumulated dictionary stay distinct. *)
Lemma merge_attr_NoDup attrs item :
  NoDup (keys attrs) -> NoDup (keys (merge_attr attrs item)).
Proof.
  destruct item as [k v]. unfold merge_attr.
  intros Hnd.
  destruct (dict_get k attrs) as [cur|] eqn:G.
  - destruct (array_equal v cur); [exact Hnd|].
    rewrite keys_dict_set_present; [exact Hnd | congruence].
  - rewrite dict_set_absent by exact G.
    unfold keys. rewrite map_app. simpl.
    apply NoDup_app; [exact Hnd | repeat constructor; simpl; tauto |].
    intros x Hin [Hx|[]]; subst x.
    now apply dict_get_None_notin in G.
Qed.

Lemma fold_merge_NoDup items : forall attrs,
  NoDup (keys attrs) -> NoDup (keys (fold_left merge_attr items attrs)).
Proof.
  induction items as [|it items IH]; intros attrs H; simpl; [exact H|].
  apply IH. now apply merge_attr_NoDup.
Qed.

Lemma unified_NoDup cubes : NoDup (keys (unified_attributes cubes)).
Proof.
  unfold unified_attributes.
  assert (G : forall attrs, NoDup (keys attrs) ->
                            NoDup (keys (fold_left loop_body cubes attrs))).
  { induction cubes as [|c cubes IH]; intros attrs H; simpl; [exact H|].
    apply IH. now apply fold_merge_NoDup. }
  apply G. constructor.
Qed.

Lemma dict_set_nan_free k v d :
  has_nan v = false -> nan_free d -> nan_free (dict_set k v d).
Proof.
  intros Hv. induction d as [|[k0 v0] rest IH]; simpl; intros Hd.
  - repeat constructor. exact Hv.
  - inversion Hd; subst.
    destruct (String.eqb k k0); constructor; simpl; auto.
    apply IH; assumption.
Qed.

Lemma merge_attr_nan_free attrs item :
  has_nan (snd item) = false -> nan_free attrs ->
  nan_free (merge_attr attrs item).
Proof.
  destruct item as [k v]. unfold merge_attr. simpl.
  intros Hv Hd.
  destruct (dict_get k attrs) as [cur|].
  - destruct (array_equal v cur); [exact Hd|].
    now apply dict_set_nan_free.
  - now apply dict_set_nan_free.
Qed.

Lemma fold_merge_nan_free items : forall attrs,
  nan_free items -> nan_free attrs ->
  nan_free (fold_left merge_attr items attrs).
Proof.
  induction items as [|it items IH]; intros attrs Hi Ha; simpl; [exact Ha|].
  inversion Hi; subst. apply IH; [assumption|].
  now apply merge_attr_nan_free.
Qed.

Lemma unified_nan_free cubes :
  Forall (fun c => nan_free (attributes c)) cubes ->
  nan_free (unified_attributes cubes).
Proof.
  unfold unified_attributes.
  assert (G : forall attrs,
             Forall (fun c => nan_free (attributes c)) cubes ->
             nan_free attrs -> nan_free (fold_left loop_body cubes attrs)).
  { induction cubes as [|c cubes IH]; intros attrs H Ha; simpl; [exact Ha|].
    inversion H; subst. apply IH; [assumption|].
    now apply fold_merge_nan_free. }
  intros H. apply G; [exact H | constructor].
Qed.

(** Feeding a dictionary with distinct keys into an accumulator that has
    none of them copies it. *)
Lemma fold_merge_fresh items : forall attrs,
  NoDup (keys items) ->
  (forall k, In k (keys items) -> dict_get k attrs = None) ->
  fold_left merge_attr items attrs = attrs ++ items.
Proof.
  induction items as [|[k v] items IH]; intros attrs Hnd Hfresh; simpl.
  - now rewrite app_nil_r.
  - inversion Hnd; subst.
    unfold merge_attr at 2.
    rewrite (Hfresh k) by (simpl; auto).
    rewrite dict_set_absent by (apply Hfresh; simpl; auto).
    rewrite IH; [now rewrite <- app_assoc | assumption |].
    intros k' Hin. rewrite dict_get_app_absent by (apply Hfresh; simpl; auto).
    simpl. destruct (String.eqb k' k) eqn:E; [|reflexivity].
    apply String.eqb_eq in E; subst. contradiction.
Qed.

(** Feeding in items the accumulator already holds changes nothing. *)
Lemma fold_merge_same items : forall attrs,
  (forall k v, In (k, v) items ->
               dict_get k attrs = Some v /\ array_equal v v = true) ->
  fold_left merge_attr items attrs = attrs.
Proof.
  induction items as [|[k v] items IH]; intros attrs H; simpl; [reflexivity|].
  destruct (H k v) as [G R]; [simpl; auto|].
  unfold merge_attr at 2. rewrite G, R.
  apply IH. intros k' v' Hin. apply H. simpl; auto.
Qed.

Lemma unified_of_unified cubes :
  nan_free (unified_attributes cubes) ->
  unified_attributes
    (map (set_attributes (unified_attributes cubes)) cubes) =
  match cubes with [] => [] | _ => unified_attributes cubes end.
Proof.
  intros Hnan. set (U := unified_attributes cubes) in *.
  assert (Hnd : NoDup (keys U)) by apply unified_NoDup.
  assert (Hsame : forall l,
             fold_left loop_body (map (set_attributes U) l) U = U).
  { induction l as [|c l IH]; simpl; [reflexivity|].
    rewrite fold_merge_same; [exact IH|].
    intros k v Hin. split; [now apply dict_get_NoDup_In|].
    apply array_equal_refl.
    unfold nan_free in Hnan. rewrite Forall_forall in Hnan.
    exact (Hnan _ Hin). }
  destruct cubes as [|c cubes]; [reflexivity|].
  unfold unified_attributes at 1. simpl.
  rewrite fold_merge_fresh; [simpl; apply Hsame | exact Hnd | reflexivity].
Qed.

Lemma set_attributes_twice a b c :
  set_attributes a (set_attributes b c) = set_attributes a c.
Proof. reflexivity. Qed.
End UnifierProps.


(** Two fragments that disagree on a key, and a third that agrees with the
    first: the values accumulate in encounter order. *)
Example fix_cube_attributes_accumulates :
  let cube name attrs :=
    {| var_name := name; attributes := attrs; coords := [];
       shape := []; lazy_data := true |} in
  map attributes
      (_fix_cube_attributes plain_str
         [cube "a" [("institute", VStr "X"); ("version", VNum (Int 1))];
          cube "b" [("institute", VStr "Y"); ("version", VNum (Int 1))];
          cube "c" [("institute", VStr "X"); ("realm", VStr "atmos")]]) =
  let unified := [("institute", VStr "X;Y;X"); ("version", VNum (Int 1));
                  ("realm", VStr "atmos")] in
  [unified; unified; unified].
Proof. reflexivity. Qed.

(** X3 — unifying twice is unifying once, as long as no attribute value is
    or holds a NaN: a second call of [_fix_cube_attributes] on cubes already
    unified leaves every cube as it is. *)
Lemma fix_cube_attributes_idempotent_nan_free
      (numpy_str : Value -> string) (cubes : list Cube) :
  Forall (fun cube => nan_free (attributes cube)) cubes ->
  _fix_cube_attributes numpy_str (_fix_cube_attributes numpy_str cubes) =
  _fix_cube_attributes numpy_str cubes.
Proof.
  intros H. unfold _fix_cube_attributes at 1 3.
  unfold _fix_cube_attributes.
  rewrite unified_of_unified by now apply unified_nan_free.
  destruct cubes as [|c l]; [reflexivity|].
  rewrite map_map. apply map_ext. intros a. apply set_attributes_twice.
Qed.

(** C3 — the unifier run on two fragments, the first with the attribute
    [missing_value = NaN] and the second without attributes, gives both the
    attribute NaN; run again on the result it gives both the string
    ["nan;nan"]: NaN is not [array_equal] to itself, so the second run takes
    the shared value for two divergent ones. *)
Theorem fix_cube_attributes_twice_nan :
  let cube name attrs :=
    {| var_name := name; attributes := attrs; coords := [];
       shape := []; lazy_data := true |} in
  let cubes := [cube "a" [("missing_value", VNum NaN)]; cube "b" []] in
  let once := _fix_cube_attributes plain_str cubes in
  let twice := _fix_cube_attributes plain_str once in
  map attributes once = [[("missing_value", VNum NaN)];
                         [("missing_value", VNum NaN)]]
  /\ map attributes twice = [[("missing_value", VStr "nan;nan")];
                             [("missing_value", VStr "nan;nan")]]
  /\ twice <> once.
Proof.
  repeat split. discriminate.
Qed.

(** ** Dates *)

Lemma lex_opp c1 c2 : CompOpp (lex c1 c2) = lex (CompOpp c1) (CompOpp c2).
Proof. destruct c1; reflexivity. Qed.

Lemma date_compare_antisym a b :
  date_compare b a = CompOpp (date_compare a b).
Proof.
  unfold date_compare. rewrite !lex_opp, <- !Z.compare_antisym.
  reflexivity.
Qed.

Lemma date_compare_refl a : date_compare a a = Eq.
Proof. unfold date_compare. now rewrite !Z.compare_refl. Qed.

Lemma date_eqb_sym a b : date_eqb a b = date_eqb b a.
Proof.
  unfold date_eqb. rewrite (date_compare_antisym a b).
  destruct (date_compare a b); reflexivity.
Qed.

Lemma date_leb_refl a : date_leb a a = true.
Proof. unfold date_leb. now rewrite date_compare_refl. Qed.

Lemma date_ltb_leb a b : date_ltb a b = true -> date_leb a b = true.
Proof. unfold date_ltb, date_leb. destruct (date_compare a b); auto. Qed.

Lemma date_not_ltb_leb a b : date_ltb a b = false -> date_leb b a = true.
Proof.
  unfold date_ltb, date_leb. rewrite (date_compare_antisym a b).
  destruct (date_compare a b); auto.
Qed.

Lemma date_ltb_asym a b : date_ltb a b = true -> date_ltb b a = false.
Proof.
  unfold date_ltb. rewrite (date_compare_antisym a b).
  destruct (date_compare a b); auto; discriminate.
Qed.

Lemma date_gtb_leb a b : date_gtb a b = negb (date_leb a b).
Proof. unfold date_gtb, date_leb. destruct (date_compare a b); auto. Qed.

(** ** The log *)

(** Runs the monad of the module: computations become functions of the
    world, log calls become [add_log]. *)
Ltac io_run :=
  unfold bind, lift, ret, raise, logger_debug, logger_error,
         logger_error_cube, log_record.

Lemma add_log_nil w : add_log [] w = w.
Proof. destruct w. unfold add_log. simpl. now rewrite app_nil_r. Qed.

Lemma add_log_add_log r1 r2 w :
  add_log r2 (add_log r1 w) = add_log (r1 ++ r2) w.
Proof. unfold add_log. simpl. now rewrite app_assoc. Qed.

Lemma for_each_logger_error_cube cubes : forall w,
  for_each cubes logger_error_cube w =
  (add_log (map (fun c => {| level := ERROR; msg := Obj c; args := [] |})
                cubes) w, Ok tt).
Proof.
  induction cubes as [|c l IH]; intros w; simpl.
  - unfold ret. now rewrite add_log_nil.
  - unfold bind, logger_error_cube, log_record. rewrite IH.
    now rewrite add_log_add_log.
Qed.

(** ** Computations that only log *)

Lemma log_only_ret {A} (a : A) : log_only (ret a).
Proof.
  exists [], (Ok a). split; [constructor|].
  intros w. unfold ret. now rewrite add_log_nil.
Qed.

Lemma log_only_raise {A} (e : PyError) : log_only (@raise A e).
Proof.
  exists [], (Raise e). split; [constructor|].
  intros w. unfold raise. now rewrite add_log_nil.
Qed.

Lemma log_only_lift {A} (r : Result A) : log_only (lift r).
Proof.
  exists [], r. split; [constructor|].
  intros w. unfold lift. now rewrite add_log_nil.
Qed.

Lemma log_only_log_record r :
  report_line r = false -> log_only (log_record r).
Proof. intros H. exists [r], (Ok tt). split; [now constructor | reflexivity]. Qed.

Lemma log_only_bind {A B} (m : IO A) (f : A -> IO B) :
  log_only m -> (forall a, log_only (f a)) -> log_only (bind m f).
Proof.
  intros (r1 & [a|e] & F1 & Hm) Hf.
  - destruct (Hf a) as (r2 & res & F2 & Hfa).
    exists (r1 ++ r2), res. split; [now apply Forall_app|].
    intros w. unfold bind. now rewrite Hm, Hfa, add_log_add_log.
  - exists r1, (Raise e). split; [exact F1|].
    intros w. unfold bind. now rewrite Hm.
Qed.

Lemma log_only_for_each {A} (xs : list A) (body : A -> IO unit) :
  (forall x, log_only (body x)) -> log_only (for_each xs body).
Proof.
  intros H. induction xs as [|x xs IH]; simpl.
  - apply log_only_ret.
  - apply log_only_bind; auto.
Qed.

Ltac log_only_step :=
  first [ simple apply log_only_ret | simple apply log_only_raise
        | simple apply log_only_lift
        | simple apply log_only_log_record; reflexivity
        | simple apply log_only_for_each; intros
        | simple apply log_only_bind; [|intros] ].

(** ** The overlap resolver and the concatenator *)

Section ConcatenationProps.
Variable numpy_str : Value -> string.
Variable num2date : string -> Z -> Date.
Variable iris_concatenate : list Cube -> list Cube.
Variable concatenate_cube : list Cube -> Result Cube.
Variable extract_time : Cube -> Z -> Z -> Z -> Z -> Z -> Z -> Result Cube.

Local Abbreviation cell_first := (cell_first num2date).
Local Abbreviation cell_last := (cell_last num2date).
Local Abbreviation splice := (splice concatenate_cube extract_time).
Local Abbreviation resolve_ordered :=
  (resolve_ordered num2date concatenate_cube extract_time).
Local Abbreviation resolver :=
  (_concatenate_overlapping_cubes num2date concatenate_cube extract_time).
Local Abbreviation resolve_overlap :=
  (resolve_overlap num2date concatenate_cube extract_time).
Local Abbreviation report_cube := (report_cube num2date).
Local Abbreviation report_records := (report_records num2date).
Local Abbreviation concatenate :=
  (concatenate numpy_str num2date iris_concatenate concatenate_cube
               extract_time).
Local Abbreviation raised_by_collaborator :=
  (raised_by_collaborator concatenate_cube extract_time).

Lemma find_disjoint (l1 l2 : list Z) :
  (forall t, In t l1 -> ~ In t l2) ->
  find (fun t => existsb (Z.eqb t) l2) l1 = None.
Proof.
  induction l1 as [|x l1 IH]; intros H; simpl; [reflexivity|].
  destruct (existsb (Z.eqb x) l2) eqn:E.
  - apply existsb_exists in E as [y [Hy Hxy]].
    apply Z.eqb_eq in Hxy; subst y.
    exfalso. apply (H x); simpl; auto.
  - apply IH. intros t Ht. apply H. simpl; auto.
Qed.

(** The splice gives one cube or an error of a collaborator. *)
Lemma splice_outcome cube_1 cube_2 d1 d2 w :
  (exists cube w', splice cube_1 cube_2 d1 d2 w = (w', Ok [cube]))
  \/ (exists e w', splice cube_1 cube_2 d1 d2 w = (w', Raise e)
                   /\ raised_by_collaborator e).
Proof.
  unfold splice, bind, lift, logger_debug, log_record.
  destruct (extract_time _ _ _ _ _ _ _) as [c1_delta|e] eqn:Ex.
  - destruct (concatenate_cube _) as [cube|e] eqn:Ec.
    + left. unfold ret. eauto.
    + right. exists e.
      assert (Hc : raised_by_collaborator e) by (left; eauto).
      destruct e; unfold raise; eauto.
      unfold logger_error, log_record. rewrite for_each_logger_error_cube.
      eauto.
  - right. exists e. eexists. split; [reflexivity|].
    right. do 7 eexists. exact Ex.
Qed.

(** The record of the resolver's first debug message. *)
Lemma resolver_ordered c0 c1 t0 t1 w :
  coord c0 "time" = Ok t0 -> coord c1 "time" = Ok t1 ->
  exists w1,
    resolver [c0; c1] w =
    (if Z.leb (first_point t0) (first_point t1)
     then resolve_ordered c0 c1 t0 t1 w1
     else resolve_ordered c1 c0 t1 t0 w1).
Proof.
  intros H0 H1.
  unfold _concatenate_overlapping_cubes, bind, lift, index. simpl.
  rewrite H0, H1.
  unfold logger_debug, log_record.
  eexists.
  destruct (Z.leb (first_point t0) (first_point t1)); simpl;
    rewrite H0, H1; reflexivity.
Qed.

Lemma resolve_ordered_outcome a b ta tb w :
  (exists cube w', resolve_ordered a b ta tb w = (w', Ok [cube]))
  \/ (exists e w', resolve_ordered a b ta tb w = (w', Raise e)
                   /\ (e = separated_in_time \/ raised_by_collaborator e)).
Proof.
  unfold resolve_ordered.
  destruct (date_eqb (cell_first ta) (cell_first tb)).
  - destruct (date_ltb (cell_last ta) (cell_last tb)); left;
      io_run; eauto.
  - destruct (find_start_overlap num2date ta tb) as [so|].
    + rewrite date_gtb_leb.
      destruct (date_leb (cell_last ta) (cell_last tb)); cbn [negb].
      * unfold bind.
        destruct (splice_outcome a b (cell_first ta) so w)
          as [(cube & w' & E) | (e & w' & E & He)]; rewrite E.
        -- left. unfold ret. eauto.
        -- right. exists e, w'. split; [reflexivity | now right].
      * left. io_run. simpl. eauto.
    + right. unfold raise. exists separated_in_time. eauto.
Qed.
Lemma resolver_outcome c0 c1 t0 t1 w :
  coord c0 "time" = Ok t0 -> coord c1 "time" = Ok t1 ->
  (exists cube w', resolver [c0; c1] w = (w', Ok [cube]))
  \/ (exists e w', resolver [c0; c1] w = (w', Raise e)
                   /\ (e = separated_in_time \/ raised_by_collaborator e)).
Proof.
  intros H0 H1.
  destruct (resolver_ordered c0 c1 t0 t1 w H0 H1) as [w1 ->].
  destruct (Z.leb (first_point t0) (first_point t1));
    apply resolve_ordered_outcome.
Qed.

(** The overlap resolver only logs, and nothing of the report. *)
Lemma log_only_splice a b d1 d2 : log_only (splice a b d1 d2).
Proof.
  unfold splice, logger_debug, logger_error, logger_error_cube.
  repeat log_only_step.
  destruct (concatenate_cube _) as [cube|[]]; repeat log_only_step.
Qed.

Lemma log_only_resolve_ordered a b ta tb :
  log_only (resolve_ordered a b ta tb).
Proof.
  unfold resolve_ordered, logger_debug.
  destruct (date_eqb _ _).
  - destruct (date_ltb _ _); repeat log_only_step.
  - destruct (find_start_overlap _ _ _); [|apply log_only_raise].
    apply log_only_bind.
    + destruct (date_leb _ _); [apply log_only_splice | apply log_only_ret].
    + intros cubes. destruct (date_gtb _ _); repeat log_only_step.
Qed.

Lemma log_only_resolve_overlap results :
  log_only (resolve_overlap results).
Proof.
  unfold resolve_overlap.
  destruct results as [|a [|b [|c l]]]; try apply log_only_ret.
  destruct (has_time a && has_time b); [|apply log_only_ret].
  unfold _concatenate_overlapping_cubes, logger_debug.
  repeat log_only_step. apply log_only_resolve_ordered.
Qed.

Lemma resolve_overlap_raises results w w' e :
  resolve_overlap results w = (w', Raise e) ->
  e = separated_in_time \/ raised_by_collaborator e.
Proof.
  destruct results as [|a [|b [|c l]]]; simpl; unfold ret;
    try discriminate.
  unfold has_time.
  destruct (coord a "time") as [ta|] eqn:Ha; simpl; [|discriminate].
  destruct (coord b "time") as [tb|] eqn:Hb; simpl; [|discriminate].
  intros E.
  destruct (resolver_outcome a b ta tb w Ha Hb)
    as [(cube & w1 & E1) | (e1 & w1 & E1 & He)];
    rewrite E1 in E; inversion E; subst; assumption.
Qed.

Lemma for_each_report_cube results : forall w,
  for_each results report_cube w =
  (add_log (flat_map report_records results) w, Ok tt).
Proof.
  induction results as [|c l IH]; intros w; simpl.
  - unfold ret. now rewrite add_log_nil.
  - unfold bind at 1.
    unfold report_cube at 1,
           report_records at 1.
    unfold bind, logger_error_cube, logger_error, log_record, ret.
    destruct (coord c "time") as [time|]; rewrite IH;
      rewrite ?add_log_add_log; reflexivity.
Qed.

(** C1 — whatever list of fragments [concatenate] is given, in particular
    one of one or more fragments, it returns exactly one fragment or raises:
    - when the overlap resolver raised, that error reaches the caller; it
      is the error for cubes separated in time or the error of a failed
      structural concatenation or time extraction, and by then the log has
      received what the resolver logged, which holds no line of the report
      below;
    - when exactly one result remains, that result is returned;
    - otherwise the call raises [ValueError('Can not concatenate cubes.')],
      and what it has added to the log before are two header records at
      error level and, for each remaining result in turn, the result at
      error level followed, when the result has a time coordinate, by the
      record of its first and last date at error level. *)
Theorem concatenate_one_or_error (cubes : list Cube) (w : World) :
  let '(w1, remaining) :=
    resolve_overlap
      (iris_concatenate (_fix_cube_attributes numpy_str cubes)) w in
  match remaining with
  | Raise e =>
      concatenate cubes w = (w1, Raise e)
      /\ (e = separated_in_time \/ raised_by_collaborator e)
      /\ exists records,
          w1 = add_log records w
          /\ Forall (fun record => report_line record = false) records
  | Ok [cube] => concatenate cubes w = (w1, Ok cube)
  | Ok results =>
      concatenate cubes w =
      (add_log ({| level := ERROR;
                   msg := Fmt "Can not concatenate cubes into a single one.";
                   args := [] |}
                :: {| level := ERROR; msg := Fmt "Resulting cubes:";
                      args := [] |}
                :: flat_map report_records results) w1,
       Raise can_not_concatenate)
  end.
Proof.
  destruct (resolve_overlap _ w) as [w1 remaining] eqn:E.
  destruct remaining as [results|e].
  - assert (G : (logger_error "Can not concatenate cubes into a single one."
                              [] ;;
                 logger_error "Resulting cubes:" [] ;;
                 for_each results report_cube ;;
                 @raise Cube (ValueError "Can not concatenate cubes.")) w1 =
                (add_log ({| level := ERROR;
                             msg := Fmt
                               "Can not concatenate cubes into a single one.";
                             args := [] |}
                          :: {| level := ERROR; msg := Fmt "Resulting cubes:";
                                args := [] |}
                          :: flat_map report_records results) w1,
                 Raise can_not_concatenate)).
    { io_run. rewrite for_each_report_cube.
      now rewrite !add_log_add_log. }
    destruct results as [|c [|c' l]];
      unfold concatenate; unfold bind at 1; rewrite E;
      [exact G | reflexivity | exact G].
  - split; [|split; [eapply resolve_overlap_raises; exact E|]].
    + unfold concatenate. unfold bind at 1. now rewrite E.
    + destruct (log_only_resolve_overlap
                  (iris_concatenate (_fix_cube_attributes numpy_str cubes)))
        as (records & r & F & L).
      rewrite L in E. inversion E; subst. now exists records.
Qed.

(** C5 — two cubes with time coordinates whose first dates are equal:
    the resolver returns a list of one cube, which is one of the two and
    ends no earlier than either; when the first ends before the second it
    is the second cube itself, when the second ends before the first it is
    the first. *)
Theorem overlapping_cubes_equal_start (c0 c1 : Cube) (t0 t1 : Coord)
        (w : World) :
  coord c0 "time" = Ok t0 -> coord c1 "time" = Ok t1 ->
  date_eqb (cell_first t0) (cell_first t1) = true ->
  exists kept tk w',
    resolver [c0; c1] w = (w', Ok [kept])
    /\ (kept = c0 \/ kept = c1)
    /\ coord kept "time" = Ok tk
    /\ date_leb (cell_last t0) (cell_last tk) = true
    /\ date_leb (cell_last t1) (cell_last tk) = true
    /\ (date_ltb (cell_last t0) (cell_last t1) = true -> kept = c1)
    /\ (date_ltb (cell_last t1) (cell_last t0) = true -> kept = c0).
Proof.
  intros H0 H1 Hstart.
  destruct (resolver_ordered c0 c1 t0 t1 w H0 H1) as [w1 ->].
  unfold resolve_ordered.
  rewrite (date_eqb_sym (cell_first t1)), Hstart.
  io_run.
  destruct (Z.leb (first_point t0) (first_point t1)).
  - destruct (date_ltb (cell_last t0) (cell_last t1)) eqn:L.
    + exists c1, t1. eexists. repeat split; auto.
      * now apply date_ltb_leb.
      * apply date_leb_refl.
      * intros L'. apply date_ltb_asym in L. congruence.
    + exists c0, t0. eexists. repeat split; auto.
      * apply date_leb_refl.
      * now apply date_not_ltb_leb.
      * discriminate.
  - destruct (date_ltb (cell_last t1) (cell_last t0)) eqn:L.
    + exists c0, t0. eexists. repeat split; auto.
      * apply date_leb_refl.
      * now apply date_ltb_leb.
      * intros L'. apply date_ltb_asym in L. congruence.
    + exists c1, t1. eexists. repeat split; auto.
      * now apply date_not_ltb_leb.
      * apply date_leb_refl.
      * discriminate.
Qed.

(** C6 — two cubes with time coordinates whose first dates differ and
    whose time points are disjoint: the resolver raises the error for cubes
    separated in time, and so does [concatenate] whenever these two cubes
    are what the structural concatenation leaves. *)
Theorem overlapping_cubes_disjoint (c0 c1 : Cube) (t0 t1 : Coord)
        (w : World) :
  coord c0 "time" = Ok t0 -> coord c1 "time" = Ok t1 ->
  date_eqb (cell_first t0) (cell_first t1) = false ->
  (forall t, In t (points t0) -> ~ In t (points t1)) ->
  (exists w', resolver [c0; c1] w = (w', Raise separated_in_time))
  /\ (forall cubes,
         iris_concatenate (_fix_cube_attributes numpy_str cubes) = [c0; c1] ->
         exists w', concatenate cubes w = (w', Raise separated_in_time)).
Proof.
  intros H0 H1 Hstart Hdisj.
  assert (R : exists w', resolver [c0; c1] w = (w', Raise separated_in_time)).
  { destruct (resolver_ordered c0 c1 t0 t1 w H0 H1) as [w1 ->].
    unfold resolve_ordered, find_start_overlap.
    rewrite (date_eqb_sym (cell_first t1)), Hstart.
    rewrite (find_disjoint (points t0) (points t1)) by exact Hdisj.
    rewrite (find_disjoint (points t1) (points t0))
      by (intros t Ht1 Ht0; exact (Hdisj t Ht0 Ht1)).
    unfold raise.
    destruct (Z.leb (first_point t0) (first_point t1)); eauto. }
  split; [exact R|].
  intros cubes Hc. destruct R as [w' R].
  exists w'. unfold concatenate, bind.
  rewrite Hc. simpl. unfold has_time. rewrite H0, H1. simpl.
  now rewrite R.
Qed.

(** C9 — two cubes with time coordinates (each holding at least one
    point): the resolver returns a list of exactly one cube or raises; it
    never hands back the pair. *)
Theorem overlapping_cubes_one_or_error (c0 c1 : Cube) (t0 t1 : Coord)
        (w : World) :
  coord c0 "time" = Ok t0 -> coord c1 "time" = Ok t1 ->
  (exists cube w', resolver [c0; c1] w = (w', Ok [cube]))
  \/ (exists e w', resolver [c0; c1] w = (w', Raise e)).
Proof.
  intros H0 H1.
  destruct (resolver_outcome c0 c1 t0 t1 w H0 H1)
    as [(cube & w' & E) | (e & w' & E & _)]; eauto.
Qed.
End ConcatenationProps.

(** *** The resolver at work on daily cubes *)

Lemma overlapping_cubes_equal_start_witness :
  let ts := daily_time 0 [1; 2; 3; 4]%Z in
  let tl := daily_time 0 [1; 2; 3; 4; 5; 6; 7; 8; 9]%Z in
  let short := daily_cube "short" 0 [1; 2; 3; 4]%Z in
  let long := daily_cube "long" 0 [1; 2; 3; 4; 5; 6; 7; 8; 9]%Z in
  coord short "time" = Ok ts /\ coord long "time" = Ok tl
  /\ date_eqb (cell_first days_since_1850 ts)
              (cell_first days_since_1850 tl) = true
  /\ exists w',
      _concatenate_overlapping_cubes days_since_1850 join_pair keep_between
                                     [short; long] empty_world
      = (w', Ok [long]).
Proof.
  intros ts tl short long.
  repeat split.
  destruct (overlapping_cubes_equal_start
              days_since_1850 join_pair keep_between
              short long ts tl empty_world eq_refl eq_refl eq_refl)
    as (kept & tk & w' & E & _ & _ & _ & _ & Hlt & _).
  exists w'. rewrite (Hlt eq_refl) in E. exact E.
Defined.

Lemma overlapping_cubes_disjoint_witness :
  let te := daily_time 0 [1; 2]%Z in
  let tl := daily_time 10 [11; 12]%Z in
  let early := daily_cube "early" 0 [1; 2]%Z in
  let late := daily_cube "late" 10 [11; 12]%Z in
  coord early "time" = Ok te /\ coord late "time" = Ok tl
  /\ date_eqb (cell_first days_since_1850 te)
              (cell_first days_since_1850 tl) = false
  /\ (forall t, In t (points te) -> ~ In t (points tl))
  /\ exists w',
      _concatenate_overlapping_cubes days_since_1850 join_pair keep_between
                                     [early; late] empty_world
      = (w', Raise separated_in_time).
Proof.
  intros te tl early late.
  assert (Hdisj : forall t, In t (points te) -> ~ In t (points tl))
    by (unfold points; simpl; intros t H1 H2; lia).
  repeat split; [exact Hdisj|].
  exact (proj1 (overlapping_cubes_disjoint
                  plain_str days_since_1850 merge_nothing join_pair
                  keep_between early late te tl empty_world
                  eq_refl eq_refl eq_refl Hdisj)).
Defined.

(** C1 as stated fails at two cubes separated in time: the structural
    concatenation leaves both, each with a time coordinate, [concatenate]
    fails, and no record at error level has been logged, neither the cubes
    nor their date ranges: the error comes from the overlap resolver, before
    the report is reached. *)
Lemma concatenate_fails_unreported :
  let early := daily_cube "early" 0 [1; 2]%Z in
  let late := daily_cube "late" 10 [11; 12]%Z in
  let '(w', r) :=
    concatenate plain_str days_since_1850 merge_nothing join_pair
                keep_between [early; late] empty_world in
  merge_nothing (_fix_cube_attributes plain_str [early; late])
  = [early; late]
  /\ has_time early = true /\ has_time late = true
  /\ r = Raise separated_in_time
  /\ ~ (exists record, In record (logged w') /\ level record = ERROR).
Proof.
  vm_compute. repeat split.
  intros (record & [<- | []] & H). discriminate.
Qed.

Lemma overlapping_cubes_one_or_error_witness :
  let t1 := daily_time 0 [1; 2; 3; 4; 5]%Z in
  let t2 := daily_time 4 [5; 6; 7; 8]%Z in
  let first := daily_cube "first" 0 [1; 2; 3; 4; 5]%Z in
  let second := daily_cube "second" 4 [5; 6; 7; 8]%Z in
  coord first "time" = Ok t1 /\ coord second "time" = Ok t2
  /\ ((exists cube w',
          _concatenate_overlapping_cubes
            days_since_1850 join_pair keep_between
            [first; second] empty_world = (w', Ok [cube]))
      \/ (exists e w',
             _concatenate_overlapping_cubes
               days_since_1850 join_pair keep_between
               [first; second] empty_world = (w', Raise e))).
Proof.
  intros t1 t2 first second.
  repeat split.
  exact (overlapping_cubes_one_or_error
           days_since_1850 join_pair keep_between
           first second t1 t2 empty_world eq_refl eq_refl).
Defined.

(** Three cubes the structural concatenation cannot merge: [concatenate]
    reports each with its dates and raises. *)
Example concatenate_three_pieces :
  let a := daily_cube "a" 0 [1]%Z in
  let b := daily_cube "b" 5 [6]%Z in
  let c := {| var_name := "c"; attributes := []; coords := [];
              shape := []; lazy_data := true |} in
  let date (d : Z) := {| year := 1850; month := 1; day := d;
                         hour := 0; minute := 0; second := 0 |} in
  let error m a := {| level := ERROR; msg := m; args := a |} in
  concatenate plain_str days_since_1850 merge_nothing join_pair keep_between
              [a; b; c] empty_world =
  (add_log [error (Fmt "Can not concatenate cubes into a single one.") [];
            error (Fmt "Resulting cubes:") [];
            error (Obj a) [];
            error (Fmt "From %s to %s") [ArgDate (date 1%Z); ArgDate (date 2%Z)];
            error (Obj b) [];
            error (Fmt "From %s to %s") [ArgDate (date 6%Z); ArgDate (date 7%Z)];
            error (Obj c) []]
           empty_world,
   Raise can_not_concatenate).
Proof. reflexivity. Qed.

(** ** Loading *)

(** C2 (as the code has it) — a source that yields no cube makes [load]
    raise at once, after its debug record and without returning anything:
    the error is the built-in [Exception] with the message
    ['Can not load cubes from <file>']. *)
Theorem load_nothing_raises_exception
        (Callback : Type)
        (load_raw : string -> option Callback -> list Cube)
        (file : string) (callback : option Callback) (w : World) :
  load_raw file callback = [] ->
  load Callback load_raw file callback w =
  (add_log [{| level := DEBUG; msg := Fmt ("Loading:" ++ newline ++ "%s");
               args := [ArgStr file] |}] w,
   Raise (Exception ("Can not load cubes from " ++ file))).
Proof.
  intros H. unfold load, bind, logger_debug, log_record. now rewrite H.
Qed.

Lemma load_nothing_raises_exception_witness :
  (fun (_ : string) (_ : option unit) => @nil Cube) "tas.nc" None = []
  /\ load unit (fun _ _ => []) "tas.nc" None empty_world =
     (add_log [{| level := DEBUG; msg := Fmt ("Loading:" ++ newline ++ "%s");
                  args := [ArgStr "tas.nc"] |}] empty_world,
      Raise (Exception "Can not load cubes from tas.nc")).
Proof.
  split; [reflexivity|].
  apply (load_nothing_raises_exception unit (fun _ _ => []) "tas.nc" None
                                       empty_world).
  reflexivity.
Defined.

(** C2 as stated fails: for a source without cubes the error raised is not
    of a dedicated kind, it is the generic [Exception]. *)
Lemma load_nothing_not_dedicated :
  ~ (exists e w',
        load unit (fun _ _ => []) "tas.nc" None empty_world = (w', Raise e)
        /\ is_generic e = false).
Proof.
  intros (e & w' & H & G). vm_compute in H. inversion H; subst.
  discriminate G.
Qed.

(** ** Saving *)

Lemma chunks_from_nth dims shape : forall start i,
  nth i (chunks_from start dims shape) 1 =
  if existsb (Nat.eqb (start + i)) dims then nth i shape 1 else 1.
Proof.
  induction shape as [|len rest IH]; intros start i; simpl.
  - destruct i; destruct (existsb _ dims); reflexivity.
  - destruct i as [|i].
    + now rewrite Nat.add_0_r.
    + rewrite IH. now rewrite Nat.add_succ_r.
Qed.

Lemma chunks_from_length dims shape : forall start,
  List.length (chunks_from start dims shape) = List.length shape.
Proof.
  induction shape as [|len rest IH]; intros start; simpl; auto.
Qed.

(** A target without a directory part: [os.makedirs('')] raises before
    anything else happens. *)
Lemma save_without_directory cubes filename optimize_access compress w :
  dirname filename = "" ->
  save cubes filename optimize_access compress w =
  (w, Raise (FileNotFoundError "")).
Proof.
  intros H. unfold save. rewrite H. reflexivity.
Qed.

(** X8 — the skip rule: when the directory of the target and the target
    itself exist and every cube has lazy data, [save] writes nothing, makes
    no directory, logs one debug record and returns the filename, whatever
    [optimize_access] and [compress] are. *)
Lemma save_skips_unchanged cubes filename optimize_access compress w :
  path_exists w (dirname filename) = true ->
  path_exists w filename = true ->
  forallb lazy_data cubes = true ->
  save cubes filename optimize_access compress w =
  (add_log [{| level := DEBUG;
               msg := Fmt ("Not saving cubes %s to %s to avoid data loss. "
                           ++ "The cube is probably unchanged.");
               args := [ArgCubes cubes; ArgStr filename] |}] w,
   Ok filename).
Proof.
  intros Hd Hf Hl.
  unfold save, bind, os_path_exists. rewrite Hd. unfold ret at 1.
  rewrite Hf, Hl. reflexivity.
Qed.

(** C7 — a file [tas.nc] of the working directory exists and the cube to
    save is lazy, so the write should be skipped and the path returned;
    [save] raises [FileNotFoundError] instead: the directory part of the
    path is empty, does not exist, and [os.makedirs('')] refuses it. *)
Theorem save_existing_bare_filename :
  let cube := daily_cube "tas" 0 [1%Z; 2%Z] in
  let w := add_paths ["tas.nc"] empty_world in
  path_exists w "tas.nc" = true
  /\ forallb lazy_data [cube] = true
  /\ save [cube] "tas.nc" "" false w = (w, Raise (FileNotFoundError "")).
Proof. repeat split. Qed.

(** Past the directory step of [save], for a target with a directory
    part: no cube has been saved meanwhile. *)
Lemma save_directory_step (filename : string) (w : World) :
  dirname filename <> "" ->
  exists w1,
    saved w1 = saved w
    /\ forall k : unit -> IO string,
        (dir_exists <- os_path_exists (dirname filename) ;;
         (if dir_exists then ret tt else os_makedirs (dirname filename)) ;;
         k tt) w = k tt w1.
Proof.
  intros Hdir. apply String.eqb_neq in Hdir.
  unfold bind, os_path_exists, os_makedirs. cbv beta.
  destruct (path_exists w (dirname filename)) eqn:E.
  - exists w. split; [reflexivity|]. intros k. reflexivity.
  - rewrite Hdir. eexists. split; [|intros k; reflexivity].
    reflexivity.
Qed.

Lemma named_dims_spec (cube : Cube) (names : list string) : forall dims,
  named_dims cube names dims =
  match find (fun name => negb (has_coord cube name)) names with
  | Some missing => Raise (CoordinateNotFoundError missing)
  | None => Ok (dims ++ flat_map (dims_of cube) names)
  end.
Proof.
  induction names as [|name names IH]; intros dims; simpl.
  - now rewrite app_nil_r.
  - unfold coord_dims, coord, has_coord, dims_of.
    destruct (dict_get name (coords cube)) as [c|] eqn:G; simpl.
    + rewrite IH. unfold has_coord, dims_of.
      destruct (find _ names); [reflexivity|]. now rewrite app_assoc.
    + reflexivity.
Qed.

Lemma selected_dims_spec (cube : Cube) (optimize_access : string) :
  selected_dims cube optimize_access =
  match find (fun name => negb (has_coord cube name))
             (requested_coordinates optimize_access) with
  | Some missing => Raise (CoordinateNotFoundError missing)
  | None => Ok (flat_map (dims_of cube)
                         (requested_coordinates optimize_access))
  end.
Proof.
  unfold selected_dims, requested_coordinates.
  destruct (String.eqb optimize_access "map").
  - unfold coord_dims, coord, has_coord, dims_of. simpl.
    destruct (dict_get "latitude" (coords cube)); simpl; [|reflexivity].
    destruct (dict_get "longitude" (coords cube)); simpl; [|reflexivity].
    now rewrite app_nil_r.
  - destruct (String.eqb optimize_access "timeseries").
    + unfold coord_dims, coord, has_coord, dims_of. simpl.
      destruct (dict_get "time" (coords cube)); simpl; [|reflexivity].
      now rewrite app_nil_r.
    + apply (named_dims_spec cube _ []).
Qed.

(** C10 — saving a non-empty list of cubes with a non-empty
    [optimize_access].  The selected coordinates are latitude and longitude
    for ['map'], time for ['timeseries'] and otherwise the names that
    [optimize_access] lists; their dimensions are looked up in the first
    cube.  Either no cube is handed to the writer (the write is skipped or
    an error is raised first), or the first cube has all selected
    coordinates, the call returns the target and the writer receives chunk
    sizes computed from the first cube alone, whatever the other cubes are:
    as many as the first cube has dimensions, the first cube's shape entry
    for a dimension of a selected coordinate and 1 for any other.  The
    writer is called whenever the target has a directory part, the first
    cube has the selected coordinates and some cube is not lazy. *)
Theorem save_chunksizes_from_first
        (first : Cube) (rest : list Cube) (filename optimize_access : string)
        (compress : bool) (w : World) :
  optimize_access <> "" ->
  let selected := requested_coordinates optimize_access in
  let dims := flat_map (dims_of first) selected in
  let '(w', r) :=
    save (first :: rest) filename optimize_access compress w in
  let written :=
    exists chunks,
      r = Ok filename
      /\ saved w' =
         saved w ++ [(first :: rest,
                      {| target := filename; zlib := compress;
                         chunksizes := Some chunks;
                         fill_value := GLOBAL_FILL_VALUE |})]
      /\ List.length chunks = List.length (shape first)
      /\ forall i,
          nth i chunks 1 =
          if existsb (Nat.eqb i) dims then nth i (shape first) 1 else 1 in
  (saved w' = saved w
   \/ (forallb (has_coord first) selected = true /\ written))
  /\ (dirname filename <> "" ->
      forallb (has_coord first) selected = true ->
      forallb lazy_data (first :: rest) = false ->
      written).
Proof.
  intros Hopt selected dims. apply String.eqb_neq in Hopt.
  destruct (String.eqb (dirname filename) "") eqn:Hdir.
  - apply String.eqb_eq in Hdir.
    rewrite save_without_directory by exact Hdir.
    split; [now left | congruence].
  - apply String.eqb_neq in Hdir.
    destruct (save_directory_step filename w Hdir) as (w1 & Hsaved & Hsave).
    unfold save. rewrite (Hsave (fun _ => _)).
    unfold bind at 1. unfold os_path_exists at 1.
    remember (forallb lazy_data (first :: rest)) as all_lazy eqn:Hall.
    destruct (path_exists w1 filename && all_lazy) eqn:Hskip.
    + apply andb_true_iff in Hskip as [_ Hlazy].
      unfold bind, logger_debug, log_record, ret. simpl.
      split; [now left | congruence].
    + unfold bind, logger_debug, log_record, lift, index. simpl.
      rewrite Hopt, selected_dims_spec. fold selected.
      destruct (find (fun name => negb (has_coord first name)) selected)
        as [missing|] eqn:Hfind; simpl.
      * split; [now left|]. intros _ Hall' _.
        apply find_some in Hfind as [Hin Hmiss].
        rewrite forallb_forall in Hall'.
        rewrite (Hall' missing Hin) in Hmiss. discriminate.
      * assert (Hhas : forallb (has_coord first) selected = true).
        { apply forallb_forall. intros name Hin.
          pose proof (find_none _ _ Hfind name Hin) as Hn.
          now apply negb_false_iff in Hn. }
        assert (W : exists chunks,
                   Ok filename = Ok filename
                   /\ saved w1 ++
                      [(first :: rest,
                        {| target := filename; zlib := compress;
                           chunksizes :=
                             Some (chunks_from 0 dims (shape first));
                           fill_value := GLOBAL_FILL_VALUE |})] =
                      saved w ++
                      [(first :: rest,
                        {| target := filename; zlib := compress;
                           chunksizes := Some chunks;
                           fill_value := GLOBAL_FILL_VALUE |})]
                   /\ List.length chunks = List.length (shape first)
                   /\ forall i,
                       nth i chunks 1 =
                       if existsb (Nat.eqb i) dims
                       then nth i (shape first) 1 else 1).
        { exists (chunks_from 0 dims (shape first)). repeat split.
          - now rewrite Hsaved.
          - apply chunks_from_length.
          - intros i. apply (chunks_from_nth dims (shape first) 0 i). }
        split; [right; split; [exact Hhas | exact W] | intros _ _ _; exact W].
Qed.

Lemma save_chunksizes_from_first_witness :
  let first := grid_cube "tas" [12; 90; 180] true in
  let other := grid_cube "pr" [1; 45; 90] false in
  "time latitude" <> ""
  /\ exists w',
      save [first; other] "out/tas.nc" "time latitude" false empty_world
      = (w', Ok "out/tas.nc")
      /\ saved w' =
         [([first; other],
           {| target := "out/tas.nc"; zlib := false;
              chunksizes := Some [12; 90; 1];
              fill_value := GLOBAL_FILL_VALUE |})].
Proof.
  intros first other.
  assert (Hopt : "time latitude" <> "") by discriminate.
  split; [exact Hopt|].
  pose proof (save_chunksizes_from_first
                first [other] "out/tas.nc" "time latitude" false
                empty_world Hopt) as T.
  cbv zeta in T.
  destruct (save [first; other] "out/tas.nc" "time latitude" false
                 empty_world) as [w' r].
  destruct T as [_ T].
  destruct T as (chunks & Hr & Hs & Hlen & Hnth);
    [discriminate | reflexivity | reflexivity |].
  assert (Hchunks : chunks = [12; 90; 1]).
  { destruct chunks as [|a [|b [|c [|d l]]]]; try discriminate.
    pose proof (Hnth 0) as H0. pose proof (Hnth 1) as H1.
    pose proof (Hnth 2) as H2. simpl in H0, H1, H2. congruence. }
  exists w'. rewrite Hr. split; [reflexivity|].
  rewrite Hs, Hchunks. reflexivity.
Defined.

(** ** Writing metadata *)

Lemma string_ltb_leb s t : String.ltb s t = true -> String.leb s t = true.
Proof.
  unfold String.ltb, String.leb. destruct (String.compare s t); auto.
Qed.

Lemma string_not_ltb_leb s t :
  String.ltb s t = false -> String.leb t s = true.
Proof.
  unfold String.ltb, String.leb. rewrite (String.compare_antisym t s).
  destruct (String.compare s t); simpl; auto.
Qed.

(** The key [sorted] is called with is the pair of the index and the
    dataset, with the defaults 1e6 and the empty string. *)
Lemma typed_key_sort_key p i d :
  typed_key p = Some (i, d) -> sort_key p = (YInt i, YStr d).
Proof.
  unfold typed_key, index_or_default, dataset_or_default, sort_key.
  destruct (dict_get "recipe_dataset_index" (Product.attributes p))
    as [[ | i' | ]|]; try discriminate;
    destruct (dict_get "dataset" (Product.attributes p))
      as [[d' | | ]|]; try discriminate;
    intros H; inversion H; reflexivity.
Qed.

(** On typed keys the comparison of [sorted] does not raise and agrees
    with the order on pairs. *)
Lemma key_ltb_typed p q a b :
  typed_key p = Some a -> typed_key q = Some b ->
  exists lt,
    key_ltb (sort_key p) (sort_key q) = Ok lt
    /\ (if lt then pair_le a b else pair_le b a).
Proof.
  destruct a as [i d], b as [j e]. intros Ha Hb.
  rewrite (typed_key_sort_key p i d Ha), (typed_key_sort_key q j e Hb).
  unfold key_ltb, pair_le. simpl.
  destruct (Z.eqb i j) eqn:Eij.
  - apply Z.eqb_eq in Eij; subst j.
    destruct (String.eqb d e) eqn:Ede.
    + apply String.eqb_eq in Ede; subst e.
      exists false. split; [reflexivity|]. right. split; [reflexivity|].
      destruct (String.leb_total d d); assumption.
    + exists (String.ltb d e). split; [reflexivity|].
      destruct (String.ltb d e) eqn:L; right; split; auto.
      * now apply string_ltb_leb.
      * now apply string_not_ltb_leb.
  - exists (Z.ltb i j). split; [reflexivity|].
    apply Z.eqb_neq in Eij.
    destruct (Z.ltb i j) eqn:L; left.
    + now apply Z.ltb_lt.
    + apply Z.ltb_ge in L. lia.
Qed.

Lemma key_le_of_pair p q a b :
  typed_key p = Some a -> typed_key q = Some b ->
  pair_le a b -> key_le p q.
Proof. intros Ha Hb H. unfold key_le. now rewrite Ha, Hb. Qed.

Lemma insert_sorted_spec x :
  well_keyed x -> forall l, Forall well_keyed l ->
  exists l',
    insert_sorted x l = Ok l'
    /\ Permutation (x :: l) l'
    /\ (Sorted key_le l -> Sorted key_le l')
    /\ (forall z, key_le z x -> HdRel key_le z l -> HdRel key_le z l').
Proof.
  intros Hx. unfold well_keyed in Hx.
  destruct (typed_key x) as [a|] eqn:Ka; [clear Hx | congruence].
  induction l as [|y rest IH]; intros Hl; simpl.
  - exists [x]. repeat split; auto.
  - inversion Hl as [|? ? Hy Hrest]; subst. unfold well_keyed in Hy.
    destruct (typed_key y) as [b|] eqn:Kb; [clear Hy | congruence].
    destruct (key_ltb_typed x y a b Ka Kb) as (lt & -> & Hlt).
    destruct lt.
    + exists (x :: y :: rest). repeat split; auto.
      intros S. constructor; [exact S|]. constructor.
      eapply key_le_of_pair; eauto.
    + destruct (IH Hrest) as (rest' & -> & P & S & H).
      exists (y :: rest'). repeat split.
      * rewrite perm_swap. now constructor.
      * intros Sy. inversion Sy; subst.
        constructor; [now apply S|].
        apply H; [|assumption]. eapply key_le_of_pair; eauto.
      * intros z _ Hz. inversion Hz; subst. now constructor.
Qed.

Lemma sorted_onto_spec prods : forall acc,
  Forall well_keyed prods -> Forall well_keyed acc -> Sorted key_le acc ->
  exists l,
    sorted_onto acc prods = Ok l
    /\ Permutation (acc ++ prods) l /\ Sorted key_le l.
Proof.
  induction prods as [|x rest IH]; intros acc Hp Ha Hs; simpl.
  - exists acc. rewrite app_nil_r. auto.
  - inversion Hp; subst.
    destruct (insert_sorted_spec x H1 acc Ha) as (acc' & -> & P & S & _).
    destruct (IH acc') as (l & -> & P' & S'); auto.
    + eapply Permutation_Forall; [exact P|]. now constructor.
    + exists l. repeat split; auto.
      rewrite <- P', <- P. apply Permutation_sym, Permutation_middle.
Qed.

Lemma sorted_spec prods :
  Forall well_keyed prods ->
  exists l,
    sorted prods = Ok l /\ Permutation prods l /\ Sorted key_le l.
Proof.
  intros H. apply (sorted_onto_spec prods []); auto.
Qed.

(** [groupby] cuts the list into non-empty runs of one key each, and
    neighbouring runs differ in their key. *)
Lemma groupby_spec {A} (key : A -> string) (l : list A) :
  List.concat (map snd (groupby key l)) = l
  /\ Forall (fun g => snd g <> [] /\ Forall (fun x => key x = fst g) (snd g))
            (groupby key l)
  /\ Sorted (fun g h => fst g <> fst h) (groupby key l)
  /\ (forall x rest, l = x :: rest ->
                     exists g groups, groupby key l = (key x, g) :: groups).
Proof.
  induction l as [|x rest (C & F & S & Hd)]; simpl.
  - repeat split; auto. discriminate.
  - destruct (groupby key rest) as [|[k g] groups] eqn:G.
    + simpl in *. subst rest. repeat split; auto.
      * repeat constructor. discriminate.
      * intros ? ? E. inversion E; subst. eauto.
    + simpl in C. apply Forall_cons_iff in F as [[Hne Hk] F'].
      apply Sorted_inv in S as [S' Hh]. simpl in Hne, Hk.
      destruct (String.eqb (key x) k) eqn:E.
      * apply String.eqb_eq in E. simpl. repeat split.
        -- now rewrite <- C.
        -- constructor; [|assumption]. simpl. split; [discriminate|].
           constructor; auto.
        -- constructor; [assumption|].
           destruct groups as [|h groups]; constructor.
           apply HdRel_inv in Hh. exact Hh.
        -- intros ? ? E'. inversion E'; subst. eauto.
      * apply String.eqb_neq in E. simpl. repeat split.
        -- now rewrite <- C.
        -- constructor; [|now constructor]. simpl. split; [discriminate|].
           repeat constructor.
        -- constructor; [now constructor|]. constructor. assumption.
        -- intros ? ? E'. inversion E'; subst. eauto.
Qed.

(** *** Directories and joined paths *)

Lemma drop_while_all {A} (f : A -> bool) (l : list A) :
  forallb f l = true -> drop_while f l = [].
Proof.
  induction l as [|x l IH]; simpl; [reflexivity|].
  destruct (f x); simpl; [exact IH | discriminate].
Qed.

Lemma forallb_rev {A} (f : A -> bool) (l : list A) :
  forallb f (rev l) = forallb f l.
Proof.
  induction l as [|x l IH]; simpl; [reflexivity|].
  rewrite forallb_app, IH. simpl. rewrite andb_true_r. apply andb_comm.
Qed.

Lemma dirname_without_slash (p : string) :
  forallb (fun c => negb (is_slash c)) (list_ascii_of_string p) = true ->
  dirname p = "".
Proof.
  intros H. unfold dirname.
  rewrite drop_while_all by (now rewrite forallb_rev). reflexivity.
Qed.

Lemma list_ascii_of_string_app (a b : string) :
  list_ascii_of_string (a ++ b)
  = (list_ascii_of_string a ++ list_ascii_of_string b)%list.
Proof. induction a as [|c a IH]; simpl; [reflexivity | now rewrite IH]. Qed.

Lemma string_of_list_ascii_app (l m : list ascii) :
  string_of_list_ascii (l ++ m)
  = (string_of_list_ascii l ++ string_of_list_ascii m)%string.
Proof. induction l as [|c l IH]; simpl; [reflexivity | now rewrite IH]. Qed.

Lemma drop_while_app_all {A} (f : A -> bool) (l m : list A) :
  forallb f l = true -> drop_while f (l ++ m) = drop_while f m.
Proof.
  induction l as [|x l IH]; simpl; [reflexivity|].
  destruct (f x); simpl; [exact IH | discriminate].
Qed.

Lemma drop_while_shape (l : list ascii) :
  forallb is_slash l = false ->
  exists c body, drop_while is_slash l = c :: body /\ is_slash c = false.
Proof.
  induction l as [|x l IH]; simpl; [discriminate|].
  destruct (is_slash x) eqn:E; simpl; [exact IH | eauto].
Qed.

Lemma dirname_has_shape (p : string) :
  dirname_shape (list_ascii_of_string (dirname p)).
Proof.
  unfold dirname, dirname_shape.
  set (head := rev (drop_while (fun c => negb (is_slash c))
                               (rev (list_ascii_of_string p)))).
  rewrite list_ascii_of_string_of_list_ascii.
  destruct (forallb is_slash head) eqn:E; [now left|].
  right. rewrite rev_involutive. apply drop_while_shape.
  now rewrite forallb_rev.
Qed.

Lemma dirname_of_list (l : list ascii) :
  dirname (string_of_list_ascii l) =
  string_of_list_ascii
    (let head := rev (drop_while (fun c => negb (is_slash c)) (rev l)) in
     if forallb is_slash head then head
     else rev (drop_while is_slash (rev head))).
Proof. unfold dirname. now rewrite list_ascii_of_string_of_list_ascii. Qed.

(** The directory of a file joined to a directory that [dirname] returned
    is that directory. *)
Lemma dirname_path_join (p name : string) :
  forallb (fun c => negb (is_slash c)) (list_ascii_of_string name) = true ->
  dirname (path_join (dirname p) name) = dirname p.
Proof.
  intros Hname.
  assert (Hstart : startswith_slash name = false).
  { destruct name as [|c name]; [reflexivity|]. simpl in *.
    apply andb_true_iff in Hname as [Hc _].
    now apply negb_true_iff in Hc. }
  unfold path_join. rewrite Hstart.
  destruct (String.eqb_spec (dirname p) "") as [E|E].
  - rewrite E. simpl. now apply dirname_without_slash.
  - simpl.
    pose proof (dirname_has_shape p) as Hshape.
    assert (Hd : dirname p = string_of_list_ascii
                               (list_ascii_of_string (dirname p)))
      by (symmetry; apply string_of_list_ascii_of_string).
    assert (Hnm : name = string_of_list_ascii (list_ascii_of_string name))
      by (symmetry; apply string_of_list_ascii_of_string).
    revert Hshape Hd Hnm Hname.
    generalize (list_ascii_of_string (dirname p)) as r.
    generalize (list_ascii_of_string name) as n.
    intros n r Hshape Hd Hnm Hname.
    rewrite Hd in *. rewrite Hnm. clear Hd Hnm Hstart.
    assert (Hn : forallb (fun c => negb (is_slash c)) (rev n) = true)
      by now rewrite forallb_rev.
    assert (Hr : r <> []) by (intros ->; now apply E).
    unfold endswith_slash. rewrite list_ascii_of_string_of_list_ascii.
    destruct Hshape as [Hall | (c & body & Hrev & Hc)].
    + assert (Hlast : match rev r with
                      | c :: _ => is_slash c
                      | [] => false
                      end = true).
      { destruct (rev r) as [|c l] eqn:R.
        - apply (f_equal (@rev ascii)) in R. rewrite rev_involutive in R.
          contradiction.
        - assert (F : forallb is_slash (rev r) = true)
            by now rewrite forallb_rev.
          rewrite R in F. simpl in F. now apply andb_true_iff in F. }
      rewrite Hlast.
      rewrite <- string_of_list_ascii_app. rewrite dirname_of_list. cbv zeta.
      rewrite rev_app_distr, drop_while_app_all by exact Hn.
      assert (D : drop_while (fun c => negb (is_slash c)) (rev r) = rev r).
      { destruct (rev r) as [|c l]; [reflexivity|]. simpl in *.
        now rewrite Hlast. }
      now rewrite D, rev_involutive, Hall.
    + rewrite Hrev, Hc.
      change (String "/" (string_of_list_ascii n))
        with (string_of_list_ascii ("/"%char :: n)).
      rewrite <- string_of_list_ascii_app. rewrite dirname_of_list. cbv zeta.
      rewrite rev_app_distr. simpl rev.
      rewrite <- app_assoc, drop_while_app_all by exact Hn.
      assert (Hnot : forallb is_slash r = false).
      { rewrite <- forallb_rev, Hrev. simpl. now rewrite Hc. }
      simpl. rewrite rev_involutive.
      rewrite forallb_app, Hnot. simpl.
      rewrite rev_app_distr. simpl. rewrite Hrev. simpl. rewrite Hc.
      now rewrite <- Hrev, rev_involutive.
Qed.

Lemma manifest_name_dirname (p : string) :
  dirname (manifest_name (dirname p)) = dirname p.
Proof. apply dirname_path_join. reflexivity. Qed.

(** Products with distinct filenames are listed in the manifest in the
    order they are in. *)
Lemma manifest_keys (sorted_products : list Product.t) :
  NoDup (map Product.filename sorted_products) ->
  keys (manifest sorted_products) = map Product.filename sorted_products.
Proof.
  unfold manifest.
  assert (G : forall l acc,
             NoDup (keys acc ++ map Product.filename l) ->
             keys (fold_left
                     (fun metadata product =>
                        dict_set (Product.filename product)
                                 (join_exp (Product.attributes product))
                                 metadata) l acc)
             = keys acc ++ map Product.filename l).
  { induction l as [|p l IH]; intros acc H; simpl.
    - now rewrite app_nil_r.
    - simpl in H.
      assert (Hfresh : dict_get (Product.filename p) acc = None).
      { apply dict_get_None_notin. intros Hin.
        apply NoDup_remove_2 in H. apply H.
        apply in_or_app. now left. }
      rewrite IH; rewrite (dict_set_absent _ _ _ Hfresh);
        unfold keys; rewrite map_app; simpl; rewrite <- app_assoc; simpl;
        [reflexivity | exact H]. }
  intros H. now apply (G sorted_products []).
Qed.

Lemma directory_exists_grows (w w' : World) (name : string) :
  (forall p, In p (paths w) -> In p (paths w')) ->
  directory_exists w name = true -> directory_exists w' name = true.
Proof.
  intros Hincl. unfold directory_exists, path_exists.
  destruct (String.eqb (dirname name) ""); [reflexivity|].
  destruct (forallb is_slash (list_ascii_of_string (dirname name)));
    [reflexivity|].
  simpl. intros H. apply existsb_exists in H as (p & Hin & Hp).
  apply existsb_exists. exists p. auto.
Qed.

(** Whether the manifest of a directory can be opened depends on the
    directory alone. *)
Lemma directory_exists_manifest (w : World) (filename : string) :
  directory_exists w (manifest_name (dirname filename))
  = directory_exists w filename.
Proof. unfold directory_exists. now rewrite manifest_name_dirname. Qed.

(** The directories of the runs are the directories of the products. *)
Lemma groups_directories_exist (products : list Product.t) (w : World) :
  Forall (fun p => directory_exists w (Product.filename p) = true)
         products ->
  Forall (fun g => directory_exists w (manifest_name (fst g)) = true)
         (groupby (fun p => dirname (Product.filename p)) products).
Proof.
  intros H.
  destruct (groupby_spec (fun p => dirname (Product.filename p)) products)
    as (C & F & _ & _).
  rewrite Forall_forall in *. intros g Hg.
  destruct (F g Hg) as [Hne Hkey].
  destruct (snd g) as [|p run] eqn:R; [congruence|].
  apply Forall_inv in Hkey. rewrite <- Hkey, directory_exists_manifest.
  apply H. rewrite <- C. apply in_concat. exists (snd g).
  split; [now apply in_map | rewrite R; now left].
Qed.

Lemma write_groups_spec groups : forall output_files w,
  Forall (fun g => Forall well_keyed (snd g)) groups ->
  Forall (fun g => directory_exists w (manifest_name (fst g)) = true)
         groups ->
  exists entries w',
    write_groups false output_files groups w =
    (w', Ok (output_files ++ map (fun g => manifest_name (fst g)) groups))
    /\ dumped w' = dumped w ++ entries
    /\ saved w' = saved w
    /\ paths w'
       = rev (map (fun g => manifest_name (fst g)) groups) ++ paths w
    /\ Forall2 (fun g entry =>
                  exists sorted_products,
                    sorted (snd g) = Ok sorted_products
                    /\ Permutation (snd g) sorted_products
                    /\ Sorted key_le sorted_products
                    /\ entry = (manifest_name (fst g),
                                manifest sorted_products)
                    /\ (NoDup (map Product.filename sorted_products) ->
                        keys (manifest sorted_products)
                        = map Product.filename sorted_products))
               groups entries.
Proof.
  induction groups as [|[dir prods] groups IH]; intros out w H Hd; simpl.
  - exists [], w. unfold ret. rewrite !app_nil_r. repeat split. constructor.
  - apply Forall_cons_iff in H as [Hg H]. simpl in Hg.
    apply Forall_cons_iff in Hd as [Hdir Hd]. simpl in Hdir.
    destruct (sorted_spec prods Hg) as (sp & Es & P & S).
    unfold bind at 1. unfold write_group, bind, lift. rewrite Es.
    unfold dump_yaml, ret. fold (manifest_name dir). rewrite Hdir.
    match goal with
    | |- context [write_groups false ?o groups ?w1] =>
        destruct (IH o w1 H) as (entries & w' & E & D & Sv & Pt & F)
    end.
    { eapply Forall_impl; [|exact Hd]. intros g.
      apply directory_exists_grows. simpl. auto. }
    exists ((manifest_name dir, manifest sp) :: entries), w'.
    rewrite E. simpl in D, Sv, Pt. repeat split.
    + now rewrite <- app_assoc.
    + now rewrite D, <- app_assoc.
    + exact Sv.
    + rewrite Pt, <- app_assoc. reflexivity.
    + constructor; [|exact F]. exists sp.
      repeat split; auto. apply manifest_keys.
Qed.

(** C8 — [write_metadata] on products whose directories exist and whose
    index attributes are numbers and dataset attributes strings: the
    products are cut into runs of neighbours with the same directory,
    neighbouring runs having different directories; the call returns one
    [metadata.yml] path per run, in order, and dumps one manifest per run
    under that path; the manifest of a run is built from the products of
    the run rearranged in ascending order of the pair of the number under
    ['recipe_dataset_index'] (1000000 for a product without) and the string
    under ['dataset'] (the empty string for a product without), and lists
    them in that order when their filenames are distinct. *)
Theorem write_metadata_groups_and_sorts (products : list Product.t)
        (w : World) :
  Forall well_keyed products ->
  Forall (fun p => directory_exists w (Product.filename p) = true)
         products ->
  let groups := groupby (fun p => dirname (Product.filename p)) products in
  List.concat (map snd groups) = products
  /\ Forall (fun g =>
               snd g <> []
               /\ Forall (fun p => dirname (Product.filename p) = fst g)
                         (snd g)) groups
  /\ Sorted (fun g h => fst g <> fst h) groups
  /\ exists entries w',
      write_metadata products false w =
      (w', Ok (map (fun g => manifest_name (fst g)) groups))
      /\ dumped w' = dumped w ++ entries
      /\ Forall2 (fun g entry =>
                    exists sorted_products,
                      sorted (snd g) = Ok sorted_products
                      /\ Permutation (snd g) sorted_products
                      /\ Sorted key_le sorted_products
                      /\ entry = (manifest_name (fst g),
                                  manifest sorted_products)
                      /\ (NoDup (map Product.filename sorted_products) ->
                          keys (manifest sorted_products)
                          = map Product.filename sorted_products))
                 groups entries.
Proof.
  intros H Hdirs groups.
  destruct (groupby_spec (fun p => dirname (Product.filename p)) products)
    as (C & F & S & _).
  fold groups in C, F, S.
  repeat split; try assumption.
  assert (Hg : Forall (fun g => Forall well_keyed (snd g)) groups).
  { apply Forall_map, Forall_concat. now rewrite C. }
  assert (Hd : Forall (fun g => directory_exists w (manifest_name (fst g))
                                = true) groups)
    by (apply (groups_directories_exist products w Hdirs)).
  destruct (write_groups_spec groups [] w Hg Hd)
    as (entries & w' & E & D & _ & _ & R).
  exists entries, w'. repeat split; assumption.
Qed.

(** The three products: the manifest of [A] lists the product with index 1
    before the one with index 2, and two manifests are written. *)
Example write_metadata_three_products :
  let first := [("dataset", YStr "M1"); ("recipe_dataset_index", YInt 1)] in
  let second := [("dataset", YStr "M2"); ("recipe_dataset_index", YInt 2)] in
  write_metadata three_products false output_world =
  ({| paths := ["B/metadata.yml"; "A/metadata.yml"; "A"; "B"];
      saved := [];
      dumped := [("A/metadata.yml", [("A/tas_first.nc", first);
                                     ("A/tas_second.nc", second)]);
                 ("B/metadata.yml", [("B/pr.nc", [("dataset", YStr "M1")])])];
      ncl_settings := [];
      logged := [] |},
   Ok ["A/metadata.yml"; "B/metadata.yml"]).
Proof. reflexivity. Qed.

(** Without the directory of the products, the manifest cannot be
    opened. *)
Example write_metadata_without_directory :
  write_metadata three_products false empty_world =
  (empty_world, Raise (FileNotFoundError "A/metadata.yml")).
Proof. reflexivity. Qed.

Lemma write_metadata_groups_and_sorts_witness :
  Forall well_keyed three_products
  /\ Forall (fun p => directory_exists output_world (Product.filename p)
                      = true) three_products
  /\ exists w',
      write_metadata three_products false output_world =
      (w', Ok ["A/metadata.yml"; "B/metadata.yml"])
      /\ map (fun entry => (fst entry, keys (snd entry))) (dumped w') =
         [("A/metadata.yml", ["A/tas_first.nc"; "A/tas_second.nc"]);
          ("B/metadata.yml", ["B/pr.nc"])].
Proof.
  assert (H : Forall well_keyed three_products)
    by (repeat constructor; discriminate).
  assert (Hd : Forall (fun p => directory_exists output_world
                                  (Product.filename p) = true)
                      three_products)
    by (repeat constructor).
  split; [exact H|]. split; [exact Hd|].
  destruct (write_metadata_groups_and_sorts three_products output_world
                                            H Hd)
    as (_ & _ & _ & entries & w' & E & _).
  exists w'. split; [exact E|].
  vm_compute in E. inversion E. reflexivity.
Defined.

(** Without any assumption on the attributes and the directories:
    [write_metadata] returns one manifest path per run, or a comparison of
    keys raised [TypeError], or a manifest could not be opened. *)
Lemma insert_sorted_total x l :
  (exists l', insert_sorted x l = Ok l') \/ insert_sorted x l = Raise TypeError.
Proof.
  induction l as [|y rest IH]; simpl; [eauto|].
  assert (K : (exists b, key_ltb (sort_key x) (sort_key y) = Ok b)
              \/ key_ltb (sort_key x) (sort_key y) = Raise TypeError).
  { unfold key_ltb, yaml_ltb.
    destruct (sort_key x) as [[]  []], (sort_key y) as [[] []]; simpl;
      repeat match goal with
             | |- context [if ?c then _ else _] => destruct c
             end; eauto. }
  destruct K as [[[|] ->] | ->]; eauto.
  destruct IH as [[l' ->] | ->]; eauto.
Qed.

Lemma sorted_onto_total prods : forall acc,
  (exists l, sorted_onto acc prods = Ok l)
  \/ sorted_onto acc prods = Raise TypeError.
Proof.
  induction prods as [|x rest IH]; intros acc; simpl; [eauto|].
  destruct (insert_sorted_total x acc) as [[acc' ->] | ->]; auto.
Qed.

Lemma write_groups_total groups : forall output_files w,
  exists w',
    write_groups false output_files groups w =
    (w', Ok (output_files ++ map (fun g => manifest_name (fst g)) groups))
    \/ write_groups false output_files groups w = (w', Raise TypeError)
    \/ exists g,
        In g groups
        /\ write_groups false output_files groups w =
           (w', Raise (FileNotFoundError (manifest_name (fst g)))).
Proof.
  induction groups as [|[dir prods] groups IH]; intros out w; simpl.
  - exists w. left. unfold ret. now rewrite app_nil_r.
  - unfold bind at 1. unfold write_group, bind, lift, sorted.
    destruct (sorted_onto_total prods []) as [[sp ->] | ->].
    + unfold dump_yaml, ret. fold (manifest_name dir).
      destruct (directory_exists w (manifest_name dir)).
      * match goal with
        | |- context [write_groups false ?o groups ?w1] =>
            destruct (IH o w1) as (w' & [E | [E | (g & Hg & E)]])
        end; exists w'; rewrite E.
        -- left. now rewrite <- app_assoc.
        -- right. now left.
        -- right. right. exists g. auto.
      * exists w. right. right. exists (dir, prods). auto.
    + exists w. right. now left.
Qed.

Lemma write_metadata_returns_or_raises products w :
  let groups := groupby (fun p => dirname (Product.filename p)) products in
  exists w',
    write_metadata products false w =
    (w', Ok (map (fun g => manifest_name (fst g)) groups))
    \/ write_metadata products false w = (w', Raise TypeError)
    \/ exists g,
        In g groups
        /\ write_metadata products false w =
           (w', Raise (FileNotFoundError (manifest_name (fst g)))).
Proof. apply (write_groups_total _ [] w). Qed.

(** * Further properties of the module *)

(** ** [load] on a source with cubes *)

(** X1 — when the source yields at least one cube, [load] returns as many
    cubes as were read, in the same order; each carries the attribute
    [source_file] with the path loaded, overwriting a value the file may
    have had, every other attribute and everything else of the cube is as
    read, and the debug record is the only trace in the world. *)
Theorem load_tags_source_file
        (Callback : Type)
        (load_raw : string -> option Callback -> list Cube)
        (file : string) (callback : option Callback) (w : World) :
  load_raw file callback <> [] ->
  exists cubes,
    load Callback load_raw file callback w =
    (add_log [{| level := DEBUG; msg := Fmt ("Loading:" ++ newline ++ "%s");
                 args := [ArgStr file] |}] w, Ok cubes)
    /\ Forall2 (fun raw cube =>
                  dict_get "source_file" (attributes cube) = Some (VStr file)
                  /\ (forall k, k <> "source_file" ->
                                dict_get k (attributes cube)
                                = dict_get k (attributes raw))
                  /\ var_name cube = var_name raw
                  /\ coords cube = coords raw
                  /\ shape cube = shape raw
                  /\ lazy_data cube = lazy_data raw)
               (load_raw file callback) cubes.
Proof.
  intros H.
  exists (map (fun cube =>
                 set_attributes
                   (dict_set "source_file" (VStr file) (attributes cube))
                   cube) (load_raw file callback)).
  split.
  - unfold load, bind, logger_debug, log_record.
    destruct (load_raw file callback); [congruence | reflexivity].
  - clear H. induction (load_raw file callback) as [|raw l IH]; simpl;
      constructor; [|exact IH].
    repeat split; simpl.
    + now rewrite dict_get_set, String.eqb_refl.
    + intros k Hk. rewrite dict_get_set.
      apply String.eqb_neq in Hk. now rewrite Hk.
Qed.

Lemma load_tags_source_file_witness :
  let raw := {| var_name := "tas";
                attributes := [("source_file", VStr "old.nc");
                               ("units", VStr "K")];
                coords := []; shape := []; lazy_data := true |} in
  (fun (_ : string) (_ : option unit) => [raw]) "tas.nc" None <> []
  /\ exists cubes w',
      load unit (fun _ _ => [raw]) "tas.nc" None empty_world = (w', Ok cubes)
      /\ map attributes cubes = [[("source_file", VStr "tas.nc");
                                  ("units", VStr "K")]].
Proof.
  intros raw.
  assert (H : (fun (_ : string) (_ : option unit) => [raw]) "tas.nc" None
              <> []) by discriminate.
  split; [exact H|].
  destruct (load_tags_source_file unit (fun _ _ => [raw]) "tas.nc" None
                                  empty_world H) as (cubes & E & _).
  exists cubes. eexists. split; [exact E|].
  vm_compute in E. inversion E. reflexivity.
Defined.

(** ** The unifier on fragments that agree *)

Lemma set_own_attributes cube : set_attributes (attributes cube) cube = cube.
Proof. destruct cube; reflexivity. Qed.

(** X2 — fragments that all carry the same attribute dictionary, with
    distinct keys and without NaN, come out of the unifier unchanged; one
    fragment alone comes out unchanged whatever its values are. *)
Theorem fix_cube_attributes_agreeing
        (numpy_str : Value -> string) (first : Cube) (rest : list Cube) :
  NoDup (keys (attributes first)) ->
  (rest = [] \/ nan_free (attributes first)) ->
  Forall (fun cube => attributes cube = attributes first) rest ->
  _fix_cube_attributes numpy_str (first :: rest) = first :: rest.
Proof.
  intros Hnd Hnan Hsame.
  assert (U : unified_attributes numpy_str (first :: rest) = attributes first).
  { unfold unified_attributes. simpl.
    rewrite fold_merge_fresh by (auto; reflexivity). simpl.
    destruct Hnan as [-> | Hnan]; [reflexivity|].
    induction Hsame as [|c l Hc _ IH]; simpl; [reflexivity|].
    rewrite Hc, fold_merge_same; [exact IH|].
    intros k v Hin. split; [now apply dict_get_NoDup_In|].
    apply array_equal_refl.
    unfold nan_free in Hnan. rewrite Forall_forall in Hnan.
    exact (Hnan _ Hin). }
  unfold _fix_cube_attributes. rewrite U. simpl.
  rewrite set_own_attributes. f_equal.
  clear U Hnan.
  induction Hsame as [|c l Hc _ IH]; simpl; [reflexivity|].
  f_equal; [|exact IH]. rewrite <- Hc. apply set_own_attributes.
Qed.

Lemma fix_cube_attributes_agreeing_witness :
  let attrs := [("institute", VStr "X"); ("missing_value", VNum (Int 9))] in
  let cube name := {| var_name := name; attributes := attrs; coords := [];
                      shape := []; lazy_data := true |} in
  NoDup (keys (attributes (cube "a")))
  /\ ([cube "b"] = [] \/ nan_free (attributes (cube "a")))
  /\ Forall (fun c => attributes c = attributes (cube "a")) [cube "b"]
  /\ _fix_cube_attributes plain_str [cube "a"; cube "b"]
     = [cube "a"; cube "b"].
Proof.
  intros attrs cube.
  assert (Hnd : NoDup (keys (attributes (cube "a")))).
  { repeat constructor; simpl; intuition discriminate. }
  assert (Hnan : [cube "b"] = [] \/ nan_free (attributes (cube "a")))
    by (right; repeat constructor).
  assert (Hsame : Forall (fun c => attributes c = attributes (cube "a"))
                         [cube "b"]) by (repeat constructor).
  split; [exact Hnd|]. split; [exact Hnan|]. split; [exact Hsame|].
  exact (fix_cube_attributes_agreeing plain_str (cube "a") [cube "b"]
                                      Hnd Hnan Hsame).
Defined.

Lemma fix_cube_attributes_idempotent_nan_free_witness :
  let cube name attrs := {| var_name := name; attributes := attrs;
                            coords := []; shape := []; lazy_data := true |} in
  let cubes := [cube "a" [("institute", VStr "X")];
                cube "b" [("institute", VStr "Y"); ("realm", VStr "ocean")]] in
  Forall (fun c => nan_free (attributes c)) cubes
  /\ _fix_cube_attributes plain_str (_fix_cube_attributes plain_str cubes)
     = _fix_cube_attributes plain_str cubes.
Proof.
  intros cube cubes.
  assert (H : Forall (fun c => nan_free (attributes c)) cubes)
    by (repeat constructor).
  split; [exact H|].
  exact (fix_cube_attributes_idempotent_nan_free plain_str cubes H).
Defined.

(** ** More on the overlap resolver and the concatenator *)

Section ResolverProps.
Variable numpy_str : Value -> string.
Variable num2date : string -> Z -> Date.
Variable iris_concatenate : list Cube -> list Cube.
Variable concatenate_cube : list Cube -> Result Cube.
Variable extract_time : Cube -> Z -> Z -> Z -> Z -> Z -> Z -> Result Cube.

Local Abbreviation cell_first := (cell_first num2date).
Local Abbreviation cell_last := (cell_last num2date).
Local Abbreviation find_start_overlap := (find_start_overlap num2date).
Local Abbreviation splice := (splice concatenate_cube extract_time).
Local Abbreviation resolve_ordered :=
  (resolve_ordered num2date concatenate_cube extract_time).
Local Abbreviation resolver :=
  (_concatenate_overlapping_cubes num2date concatenate_cube extract_time).
Local Abbreviation resolve_overlap :=
  (resolve_overlap num2date concatenate_cube extract_time).
Local Abbreviation report_cube := (report_cube num2date).
Local Abbreviation concatenate :=
  (concatenate numpy_str num2date iris_concatenate concatenate_cube
               extract_time).

(** X5 — the outcome of the resolver does not depend on the order in which
    the two cubes are handed over, as long as their first time points
    differ (for equal first points the cube given first wins a tie). *)
Theorem resolver_order_irrelevant (c0 c1 : Cube) (t0 t1 : Coord)
        (w : World) :
  coord c0 "time" = Ok t0 -> coord c1 "time" = Ok t1 ->
  first_point t0 <> first_point t1 ->
  snd (resolver [c0; c1] w) = snd (resolver [c1; c0] w).
Proof.
  intros H0 H1 Hne.
  destruct (resolver_ordered num2date concatenate_cube extract_time
                             c0 c1 t0 t1 w H0 H1) as [w1 ->].
  destruct (resolver_ordered num2date concatenate_cube extract_time
                             c1 c0 t1 t0 w H1 H0) as [w2 ->].
  destruct (log_only_resolve_ordered num2date concatenate_cube extract_time
                                     c0 c1 t0 t1) as (r01 & o01 & _ & E01).
  destruct (log_only_resolve_ordered num2date concatenate_cube extract_time
                                     c1 c0 t1 t0) as (r10 & o10 & _ & E10).
  rewrite !E01, !E10.
  destruct (Z.leb (first_point t0) (first_point t1)) eqn:L01;
    destruct (Z.leb (first_point t1) (first_point t0)) eqn:L10;
    try reflexivity.
  - apply Z.leb_le in L01, L10. lia.
  - apply Z.leb_gt in L01, L10. lia.
Qed.

Lemma find_shared_point (l1 l2 : list Z) :
  (exists t, In t l1 /\ In t l2) ->
  exists t, find (fun t => existsb (Z.eqb t) l2) l1 = Some t
            /\ In t l1 /\ In t l2.
Proof.
  intros (t & H1 & H2).
  destruct (find (fun t => existsb (Z.eqb t) l2) l1) as [s|] eqn:F.
  - exists s. split; [reflexivity|].
    apply find_some in F as [Hs Hex]. split; [exact Hs|].
    apply existsb_exists in Hex as (y & Hy & E).
    apply Z.eqb_eq in E. now subst.
  - exfalso. apply (find_none _ _ F) in H1.
    assert (existsb (Z.eqb t) l2 = true)
      by (apply existsb_exists; exists t; split; [exact H2 | apply Z.eqb_refl]).
    congruence.
Qed.

(** X6 — case 2.2: the cubes start on different dates, the one given
    first starts no later, they share a time point and the first ends after
    the second.  Then the resolver returns the first cube alone and as it
    is, whatever the collaborators would do, and [concatenate] returns it
    when these two cubes are what the structural concatenation leaves. *)
Theorem resolver_first_contains_second (c0 c1 : Cube) (t0 t1 : Coord)
        (w : World) :
  coord c0 "time" = Ok t0 -> coord c1 "time" = Ok t1 ->
  (first_point t0 <= first_point t1)%Z ->
  date_eqb (cell_first t0) (cell_first t1) = false ->
  (exists t, In t (points t0) /\ In t (points t1)) ->
  date_gtb (cell_last t0) (cell_last t1) = true ->
  (exists w', resolver [c0; c1] w = (w', Ok [c0]))
  /\ (forall cubes,
         iris_concatenate (_fix_cube_attributes numpy_str cubes) = [c0; c1] ->
         exists w', concatenate cubes w = (w', Ok c0)).
Proof.
  intros H0 H1 Hle Hstart Hshared Hend.
  assert (R : exists w', resolver [c0; c1] w = (w', Ok [c0])).
  { destruct (resolver_ordered num2date concatenate_cube extract_time
                               c0 c1 t0 t1 w H0 H1) as [w1 ->].
    apply Z.leb_le in Hle. rewrite Hle.
    unfold resolve_ordered, find_start_overlap. rewrite Hstart.
    destruct (find_shared_point _ _ Hshared) as (t & -> & _).
    rewrite Hend. rewrite date_gtb_leb in Hend.
    apply negb_true_iff in Hend. rewrite Hend.
    io_run. simpl. eauto. }
  split; [exact R|].
  intros cubes Hc. destruct R as [w' R]. exists w'.
  unfold concatenate, bind, resolve_overlap. rewrite Hc.
  unfold has_time. rewrite H0, H1. simpl. now rewrite R.
Qed.

(** The resolver on cubes given in order: one debug record, then the part
    of the function past the ordering. *)
Lemma resolver_in_order (c0 c1 : Cube) (t0 t1 : Coord) (w : World) :
  coord c0 "time" = Ok t0 -> coord c1 "time" = Ok t1 ->
  (first_point t0 <= first_point t1)%Z ->
  resolver [c0; c1] w =
  resolve_ordered c0 c1 t0 t1
    (add_log [{| level := DEBUG;
                 msg := Fmt ("Will attempt to concatenate cubes %s "
                             ++ "and %s in this order");
                 args := [ArgCube c0; ArgCube c1] |}] w).
Proof.
  intros H0 H1 Hle. apply Z.leb_le in Hle.
  unfold _concatenate_overlapping_cubes, bind, lift, index. simpl.
  rewrite H0, H1. unfold logger_debug, log_record.
  rewrite Hle. simpl. now rewrite H0, H1.
Qed.

(** X7 — case 2.1: the cubes start on different dates, the one given
    first starts no later and ends no later than the second, and
    [start_overlap] is the date of its first time point that the second
    cube has too.  The resolver asks [extract_time] for the first cube from
    the day of its first date to the day of [start_overlap] and
    [concatenate_cube] for the slice followed by the second cube:
    - an error of [extract_time] is raised as it is;
    - a cube from [concatenate_cube] is returned alone;
    - an error of [concatenate_cube] is raised as it is, and when it is a
      [ConcatenateError] the log receives, after the debug records, the
      error, the line ['Cubes:'], the slice and the second cube, all at
      error level. *)
Theorem resolver_splices (c0 c1 : Cube) (t0 t1 : Coord)
        (start_overlap : Date) (w : World) :
  coord c0 "time" = Ok t0 -> coord c1 "time" = Ok t1 ->
  (first_point t0 <= first_point t1)%Z ->
  date_eqb (cell_first t0) (cell_first t1) = false ->
  find_start_overlap t0 t1 = Some start_overlap ->
  date_leb (cell_last t0) (cell_last t1) = true ->
  match extract_time c0
          (year (cell_first t0)) (month (cell_first t0)) (day (cell_first t0))
          (year start_overlap) (month start_overlap) (day start_overlap) with
  | Raise e => exists w', resolver [c0; c1] w = (w', Raise e)
  | Ok c1_delta =>
      match concatenate_cube [c1_delta; c1] with
      | Ok joined => exists w', resolver [c0; c1] w = (w', Ok [joined])
      | Raise e =>
          exists debug,
            Forall (fun r => level r = DEBUG) debug
            /\ resolver [c0; c1] w =
               (add_log
                  (debug ++
                   match e with
                   | ConcatenateError _ =>
                       [{| level := ERROR;
                           msg := Fmt "Can not concatenate cubes: %s";
                           args := [ArgError e] |};
                        {| level := ERROR; msg := Fmt "Cubes:"; args := [] |};
                        {| level := ERROR; msg := Obj c1_delta; args := [] |};
                        {| level := ERROR; msg := Obj c1; args := [] |}]
                   | _ => []
                   end) w,
                Raise e)
      end
  end.
Proof.
  intros H0 H1 Hle Hstart Hso Hend.
  rewrite (resolver_in_order c0 c1 t0 t1 w H0 H1 Hle).
  unfold resolve_ordered. cbv zeta. rewrite Hstart, Hso, Hend.
  rewrite date_gtb_leb, Hend. cbn [negb].
  unfold splice. io_run. cbv beta zeta.
  destruct (extract_time _ _ _ _ _ _ _) as [c1_delta|e]; cbv beta iota;
    [|eauto].
  destruct (concatenate_cube [c1_delta; c1]) as [joined|e]; cbv beta iota.
  - eauto.
  - eexists [_; _; _]. split; cycle 1.
    + destruct e; simpl; unfold add_log; simpl; rewrite <- ?app_assoc;
        simpl; reflexivity.
    + repeat constructor.
Qed.
End ResolverProps.

Lemma resolver_order_irrelevant_witness :
  let t0 := daily_time 0 [1; 2; 3; 4; 5]%Z in
  let t1 := daily_time 4 [5; 6; 7; 8]%Z in
  let c0 := daily_cube "first" 0 [1; 2; 3; 4; 5]%Z in
  let c1 := daily_cube "second" 4 [5; 6; 7; 8]%Z in
  coord c0 "time" = Ok t0 /\ coord c1 "time" = Ok t1
  /\ first_point t0 <> first_point t1
  /\ snd (_concatenate_overlapping_cubes
            days_since_1850 join_pair keep_between [c0; c1] empty_world)
     = snd (_concatenate_overlapping_cubes
              days_since_1850 join_pair keep_between [c1; c0] empty_world).
Proof.
  intros t0 t1 c0 c1.
  assert (Hne : first_point t0 <> first_point t1) by discriminate.
  split; [reflexivity|]. split; [reflexivity|]. split; [exact Hne|].
  exact (resolver_order_irrelevant days_since_1850 join_pair keep_between
                                   c0 c1 t0 t1 empty_world
                                   eq_refl eq_refl Hne).
Defined.

Lemma resolver_first_contains_second_witness :
  let t0 := daily_time 0 [1; 2; 3; 4; 5; 6; 7; 8; 9]%Z in
  let t1 := daily_time 4 [5; 6]%Z in
  let long := daily_cube "long" 0 [1; 2; 3; 4; 5; 6; 7; 8; 9]%Z in
  let inner := daily_cube "inner" 4 [5; 6]%Z in
  coord long "time" = Ok t0 /\ coord inner "time" = Ok t1
  /\ (first_point t0 <= first_point t1)%Z
  /\ date_eqb (cell_first days_since_1850 t0)
              (cell_first days_since_1850 t1) = false
  /\ (exists t, In t (points t0) /\ In t (points t1))
  /\ date_gtb (cell_last days_since_1850 t0)
              (cell_last days_since_1850 t1) = true
  /\ exists w',
      _concatenate_overlapping_cubes days_since_1850 join_pair keep_between
                                     [long; inner] empty_world
      = (w', Ok [long]).
Proof.
  intros t0 t1 long inner.
  assert (Hle : (first_point t0 <= first_point t1)%Z) by (simpl; lia).
  assert (Hsh : exists t, In t (points t0) /\ In t (points t1)).
  { exists 4%Z. unfold points. simpl. split; auto 10. }
  split; [reflexivity|]. split; [reflexivity|]. split; [exact Hle|].
  split; [reflexivity|]. split; [exact Hsh|]. split; [reflexivity|].
  exact (proj1 (resolver_first_contains_second
                  plain_str days_since_1850 merge_nothing join_pair
                  keep_between long inner t0 t1 empty_world
                  eq_refl eq_refl Hle eq_refl Hsh eq_refl)).
Defined.

Lemma resolver_splices_witness :
  let t0 := daily_time 0 [1; 2; 3; 4; 5]%Z in
  let t1 := daily_time 4 [5; 6; 7; 8]%Z in
  let c0 := daily_cube "first" 0 [1; 2; 3; 4; 5]%Z in
  let c1 := daily_cube "second" 4 [5; 6; 7; 8]%Z in
  let fifth_of_january := {| year := 1850; month := 1; day := 5;
                             hour := 0; minute := 0; second := 0 |} in
  let joined := {| var_name := "first"; attributes := [];
                   coords := [("time",
                               daily_time 0 [1; 2; 3; 4; 5; 6; 7; 8]%Z)];
                   shape := [6]; lazy_data := true |} in
  coord c0 "time" = Ok t0 /\ coord c1 "time" = Ok t1
  /\ (first_point t0 <= first_point t1)%Z
  /\ date_eqb (cell_first days_since_1850 t0)
              (cell_first days_since_1850 t1) = false
  /\ find_start_overlap days_since_1850 t0 t1 = Some fifth_of_january
  /\ date_leb (cell_last days_since_1850 t0)
              (cell_last days_since_1850 t1) = true
  /\ exists w',
      _concatenate_overlapping_cubes days_since_1850 join_pair keep_between
                                     [c0; c1] empty_world
      = (w', Ok [joined]).
Proof.
  intros t0 t1 c0 c1 fifth_of_january joined.
  assert (Hle : (first_point t0 <= first_point t1)%Z) by (simpl; lia).
  split; [reflexivity|]. split; [reflexivity|]. split; [exact Hle|].
  split; [reflexivity|]. split; [reflexivity|]. split; [reflexivity|].
  exact (resolver_splices days_since_1850 join_pair keep_between
                          c0 c1 t0 t1 fifth_of_january empty_world
                          eq_refl eq_refl Hle eq_refl eq_refl eq_refl).
Defined.

(** ** More on [save] *)

Lemma save_skips_unchanged_witness :
  let cube := grid_cube "tas" [12; 90; 180] true in
  let w := add_paths ["out"; "out/tas.nc"] empty_world in
  path_exists w (dirname "out/tas.nc") = true
  /\ path_exists w "out/tas.nc" = true
  /\ forallb lazy_data [cube] = true
  /\ saved (fst (save [cube] "out/tas.nc" "map" true w)) = []
  /\ snd (save [cube] "out/tas.nc" "map" true w) = Ok "out/tas.nc".
Proof.
  intros cube w.
  split; [reflexivity|]. split; [reflexivity|]. split; [reflexivity|].
  rewrite (save_skips_unchanged [cube] "out/tas.nc" "map" true w
                                eq_refl eq_refl eq_refl).
  split; reflexivity.
Defined.

(** X9 — a target given as a bare file name, without any slash, makes
    [save] raise [FileNotFoundError] at once, for every list of cubes and
    every option, whether the file exists or not: the world is left as it
    was, nothing is logged, created or saved. *)
Theorem save_bare_name_raises
        (cubes : list Cube) (filename optimize_access : string)
        (compress : bool) (w : World) :
  forallb (fun c => negb (is_slash c)) (list_ascii_of_string filename)
  = true ->
  save cubes filename optimize_access compress w
  = (w, Raise (FileNotFoundError "")).
Proof.
  intros H. apply dirname_without_slash in H.
  unfold save. rewrite H. reflexivity.
Qed.

Lemma save_bare_name_raises_witness :
  forallb (fun c => negb (is_slash c)) (list_ascii_of_string "tas_day.nc")
  = true
  /\ save [grid_cube "tas" [12; 90; 180] false] "tas_day.nc" "" false
          empty_world
     = (empty_world, Raise (FileNotFoundError "")).
Proof.
  split; [reflexivity|].
  exact (save_bare_name_raises [grid_cube "tas" [12; 90; 180] false]
                               "tas_day.nc" "" false empty_world eq_refl).
Defined.

Lemma path_exists_add_paths new w p :
  path_exists (add_paths new w) p =
  negb (String.eqb p "") && (existsb (String.eqb p) new)
  || path_exists w p.
Proof.
  unfold path_exists, add_paths. simpl. rewrite existsb_app.
  destruct (String.eqb p ""); simpl; reflexivity.
Qed.

Lemma path_exists_add_log records w p :
  path_exists (add_log records w) p = path_exists w p.
Proof. reflexivity. Qed.

(** Past the directory step of [save]: the directory exists, every path
    that existed still does, and nothing has been saved. *)
Lemma save_directory_made (filename : string) (w : World) :
  dirname filename <> "" ->
  exists w1,
    saved w1 = saved w
    /\ path_exists w1 (dirname filename) = true
    /\ (forall p, path_exists w p = true -> path_exists w1 p = true)
    /\ forall k : unit -> IO string,
        (dir_exists <- os_path_exists (dirname filename) ;;
         (if dir_exists then ret tt else os_makedirs (dirname filename)) ;;
         k tt) w = k tt w1.
Proof.
  intros Hdir. apply String.eqb_neq in Hdir.
  unfold bind, os_path_exists, os_makedirs. cbv beta.
  destruct (path_exists w (dirname filename)) eqn:E.
  - exists w. repeat split; auto.
  - rewrite Hdir.
    exists (add_paths (with_parents (S (String.length (dirname filename)))
                                    (dirname filename)) w).
    split; [reflexivity|].
    split; [|split; [|intros k; reflexivity]].
    + rewrite path_exists_add_paths. simpl. rewrite Hdir. simpl.
      now rewrite String.eqb_refl.
    + intros p Hp. rewrite path_exists_add_paths, Hp. apply orb_true_r.
Qed.

(** X10 — [save] with a non-empty [optimize_access], a target with a
    directory part and at least one cube that is not lazy: the coordinates
    looked up in the first cube are latitude and longitude for ['map'],
    time for ['timeseries'], and otherwise the words of [optimize_access]
    between single spaces.  If the first cube lacks one of them, the first
    one missing is reported by [CoordinateNotFoundError] and nothing is
    handed to the writer; otherwise the call returns the target and the
    writer gets all cubes with the chunk sizes of the dimensions of these
    coordinates, the fill value 1e20 and the compression flag. *)
Theorem save_optimized
        (first : Cube) (rest : list Cube) (filename optimize_access : string)
        (compress : bool) (w : World) :
  dirname filename <> "" ->
  optimize_access <> "" ->
  forallb lazy_data (first :: rest) = false ->
  match find (fun name => negb (has_coord first name))
             (requested_coordinates optimize_access) with
  | Some missing =>
      exists w',
        save (first :: rest) filename optimize_access compress w
        = (w', Raise (CoordinateNotFoundError missing))
        /\ saved w' = saved w
  | None =>
      exists w',
        save (first :: rest) filename optimize_access compress w
        = (w', Ok filename)
        /\ saved w' =
           saved w ++
           [(first :: rest,
             {| target := filename; zlib := compress;
                chunksizes :=
                  Some (chunks_from 0
                          (flat_map (dims_of first)
                             (requested_coordinates optimize_access))
                          (shape first));
                fill_value := GLOBAL_FILL_VALUE |})]
  end.
Proof.
  intros Hdir Hopt Hlazy. apply String.eqb_neq in Hopt.
  destruct (save_directory_made filename w Hdir)
    as (w1 & Hsaved & _ & _ & Hsave).
  unfold save. rewrite (Hsave (fun _ => _)).
  unfold bind, os_path_exists, logger_debug, log_record, lift, index.
  cbv beta. rewrite Hlazy, andb_false_r. simpl.
  rewrite Hopt, selected_dims_spec.
  destruct (find _ (requested_coordinates optimize_access)); simpl;
    eexists; (split; [reflexivity|]); simpl; now rewrite Hsaved.
Qed.

Lemma save_optimized_witness :
  let first := grid_cube "tas" [12; 90; 180] false in
  let bare := {| var_name := "x"; attributes := [];
                 coords := [("time", daily_time 0 [])];
                 shape := [1; 5]; lazy_data := false |} in
  dirname "out/tas.nc" <> "" /\ "latitude time" <> ""
  /\ forallb lazy_data [first; bare] = false
  /\ (exists w',
         save [first; bare] "out/tas.nc" "latitude time" true empty_world
         = (w', Ok "out/tas.nc")
         /\ saved w' =
            [([first; bare],
              {| target := "out/tas.nc"; zlib := true;
                 chunksizes := Some [12; 90; 1];
                 fill_value := GLOBAL_FILL_VALUE |})])
  /\ exists w',
      save [bare; first] "out/tas.nc" "time latitude" true empty_world
      = (w', Raise (CoordinateNotFoundError "latitude"))
      /\ saved w' = [].
Proof.
  intros first bare.
  assert (Hdir : dirname "out/tas.nc" <> "") by discriminate.
  assert (Hopt : "latitude time" <> "") by discriminate.
  assert (Hopt' : "time latitude" <> "") by discriminate.
  split; [exact Hdir|]. split; [exact Hopt|]. split; [reflexivity|].
  split.
  - exact (save_optimized first [bare] "out/tas.nc" "latitude time" true
                          empty_world Hdir Hopt eq_refl).
  - exact (save_optimized bare [first] "out/tas.nc" "time latitude" true
                          empty_world Hdir Hopt' eq_refl).
Defined.

(** X11 — [save] without [optimize_access], to a target with a directory
    part and with at least one cube that is not lazy: the call returns the
    target, the writer gets the cubes with the target, the compression
    flag, the fill value 1e20 and no chunk sizes, and afterwards both the
    target and its directory exist. *)
Theorem save_default_chunking
        (cubes : list Cube) (filename : string) (compress : bool)
        (w : World) :
  dirname filename <> "" ->
  forallb lazy_data cubes = false ->
  exists w',
    save cubes filename "" compress w = (w', Ok filename)
    /\ saved w' =
       saved w ++ [(cubes, {| target := filename; zlib := compress;
                              chunksizes := None;
                              fill_value := GLOBAL_FILL_VALUE |})]
    /\ path_exists w' filename = true
    /\ path_exists w' (dirname filename) = true.
Proof.
  intros Hdir Hlazy.
  assert (Hname : String.eqb filename "" = false).
  { apply String.eqb_neq. intros ->. now apply Hdir. }
  destruct (save_directory_made filename w Hdir)
    as (w1 & Hsaved & Hexists & _ & Hsave).
  unfold save. rewrite (Hsave (fun _ => _)).
  unfold bind, os_path_exists, logger_debug, log_record, lift, index.
  cbv beta. rewrite Hlazy, andb_false_r. simpl.
  eexists. split; [reflexivity|]. simpl. repeat split.
  - now rewrite Hsaved.
  - unfold path_exists. simpl. now rewrite Hname, String.eqb_refl.
  - unfold path_exists in *. simpl.
    apply andb_true_iff in Hexists as [-> Hex]. simpl.
    rewrite Hex. apply orb_true_r.
Qed.

Lemma save_default_chunking_witness :
  let cube := grid_cube "tas" [12; 90; 180] false in
  dirname "out/day/tas.nc" <> ""
  /\ forallb lazy_data [cube] = false
  /\ exists w',
      save [cube] "out/day/tas.nc" "" true empty_world
      = (w', Ok "out/day/tas.nc")
      /\ saved w' =
         [([cube], {| target := "out/day/tas.nc"; zlib := true;
                      chunksizes := None;
                      fill_value := GLOBAL_FILL_VALUE |})]
      /\ path_exists w' "out/day/tas.nc" = true
      /\ path_exists w' "out/day" = true.
Proof.
  intros cube.
  assert (Hdir : dirname "out/day/tas.nc" <> "") by discriminate.
  split; [exact Hdir|]. split; [reflexivity|].
  exact (save_default_chunking [cube] "out/day/tas.nc" true empty_world
                               Hdir eq_refl).
Defined.

(** X12 — for a target with a directory part, however [save] ends (write,
    skip or error), the directory of the target exists afterwards and no
    path that existed before has disappeared. *)
Theorem save_keeps_paths
        (cubes : list Cube) (filename optimize_access : string)
        (compress : bool) (w : World) :
  dirname filename <> "" ->
  let w' := fst (save cubes filename optimize_access compress w) in
  path_exists w' (dirname filename) = true
  /\ forall p, path_exists w p = true -> path_exists w' p = true.
Proof.
  intros Hdir.
  destruct (save_directory_made filename w Hdir)
    as (w1 & _ & Hexists & Hkeep & Hsave).
  assert (G : forall p, path_exists w1 p = true ->
                        path_exists
                          (fst (save cubes filename optimize_access
                                     compress w)) p = true).
  { intros p Hp. unfold save. rewrite (Hsave (fun _ => _)).
    unfold bind, os_path_exists, logger_debug, log_record, lift, index.
    cbv beta.
    destruct (path_exists w1 filename && forallb lazy_data cubes);
      [exact Hp|].
    destruct (String.eqb optimize_access ""); simpl.
    - unfold iris_save, ret. simpl. unfold path_exists in *. simpl.
      apply andb_true_iff in Hp as [-> Hp]. simpl.
      rewrite Hp. apply orb_true_r.
    - destruct cubes as [|cube rest]; simpl; [exact Hp|].
      destruct (selected_dims cube optimize_access); simpl; [|exact Hp].
      unfold path_exists in *. simpl.
      apply andb_true_iff in Hp as [-> Hp]. simpl.
      rewrite Hp. apply orb_true_r. }
  split; [apply G; exact Hexists | intros p Hp; apply G, Hkeep, Hp].
Qed.

Lemma save_keeps_paths_witness :
  let w := add_paths ["elsewhere/pr.nc"] empty_world in
  let w' := fst (save [] "out/day/tas.nc" "timeseries" false w) in
  dirname "out/day/tas.nc" <> ""
  /\ path_exists w' "out/day" = true
  /\ path_exists w' "elsewhere/pr.nc" = true.
Proof.
  intros w w'.
  assert (Hdir : dirname "out/day/tas.nc" <> "") by discriminate.
  split; [exact Hdir|].
  destruct (save_keeps_paths [] "out/day/tas.nc" "timeseries" false w Hdir)
    as [Hd Hk].
  split; [exact Hd | apply Hk; reflexivity].
Defined.

(** ** More on [write_metadata] *)

Lemma keys_dict_set_any {V} k (v : V) d :
  keys (dict_set k v d) = keys d \/ keys (dict_set k v d) = keys d ++ [k].
Proof.
  destruct (dict_get k d) eqn:G.
  - left. apply keys_dict_set_present. congruence.
  - right. rewrite dict_set_absent by exact G.
    unfold keys. now rewrite map_app.
Qed.

Lemma join_exp_spec (attrs : Dict YamlValue) :
  keys (join_exp attrs) = keys attrs
  /\ (forall k, k <> "exp" ->
                dict_get k (join_exp attrs) = dict_get k attrs)
  /\ dict_get "exp" (join_exp attrs) =
     match dict_get "exp" attrs with
     | Some (YList l) => Some (YStr (String.concat "-" l))
     | other => other
     end.
Proof.
  unfold join_exp.
  destruct (dict_get "exp" attrs) as [[s|z|l]|] eqn:G;
    try (repeat split; congruence).
  repeat split.
  - apply keys_dict_set_present. congruence.
  - intros k Hk. rewrite dict_get_set.
    apply String.eqb_neq in Hk. now rewrite Hk.
  - now rewrite dict_get_set, String.eqb_refl.
Qed.

Lemma manifest_entries (sorted_products : list Product.t) :
  Forall (fun entry =>
            exists product,
              In product sorted_products
              /\ fst entry = Product.filename product
              /\ snd entry = join_exp (Product.attributes product))
         (manifest sorted_products).
Proof.
  unfold manifest.
  assert (G : forall l acc,
             (forall p, In p l -> In p sorted_products) ->
             Forall (fun entry =>
                       exists product,
                         In product sorted_products
                         /\ fst entry = Product.filename product
                         /\ snd entry
                            = join_exp (Product.attributes product)) acc ->
             Forall (fun entry =>
                       exists product,
                         In product sorted_products
                         /\ fst entry = Product.filename product
                         /\ snd entry
                            = join_exp (Product.attributes product))
                    (fold_left
                       (fun metadata product =>
                          dict_set (Product.filename product)
                                   (join_exp (Product.attributes product))
                                   metadata) l acc)).
  { induction l as [|p l IH]; intros acc Hin Hacc; simpl; [exact Hacc|].
    apply IH; [intros q Hq; apply Hin; now right|].
    assert (Hp : In p sorted_products) by (apply Hin; now left).
    clear IH Hin. induction acc as [|[k a] acc IHacc]; simpl.
    - repeat constructor. exists p. auto.
    - apply Forall_cons_iff in Hacc as [Hhd Htl].
      destruct (String.eqb (Product.filename p) k) eqn:E.
      + apply String.eqb_eq in E. constructor; [|exact Htl].
        exists p. simpl. auto.
      + constructor; [exact Hhd | now apply IHacc]. }
  apply G; auto.
Qed.

(** X13 — the normalisation of ['exp']: a list under the key becomes the
    string of its elements joined by hyphens, any other value and a missing
    key stay as they are; no other key changes and the order of the keys is
    kept.  Every entry of a manifest maps the filename of one of the
    products to the normalised attributes of that product. *)
Theorem manifest_joins_exp (sorted_products : list Product.t) :
  (forall attrs,
      keys (join_exp attrs) = keys attrs
      /\ (forall k, k <> "exp" ->
                    dict_get k (join_exp attrs) = dict_get k attrs)
      /\ dict_get "exp" (join_exp attrs) =
         match dict_get "exp" attrs with
         | Some (YList l) => Some (YStr (String.concat "-" l))
         | other => other
         end)
  /\ Forall (fun entry =>
               exists product,
                 In product sorted_products
                 /\ fst entry = Product.filename product
                 /\ snd entry = join_exp (Product.attributes product))
            (manifest sorted_products).
Proof.
  split; [exact join_exp_spec | exact (manifest_entries sorted_products)].
Qed.

(** ** [_write_ncl_metadata] *)

Lemma strings_eqb_eq (l m : list string) :
  Nat.eqb (List.length l) (List.length m)
  && forallb (fun p => String.eqb (fst p) (snd p)) (combine l m) = true
  <-> l = m.
Proof.
  revert m. induction l as [|x l IH]; intros [|y m]; simpl;
    try (split; [discriminate | congruence || discriminate]).
  - split; reflexivity.
  - destruct (String.eqb_spec x y) as [->|Hne]; simpl.
    + rewrite IH. split; [congruence|]. intros H. now inversion H.
    + rewrite andb_false_r. split; [discriminate|].
      intros H. inversion H. contradiction.
Qed.

Lemma yaml_eqb_eq (a b : YamlValue) : yaml_eqb a b = true <-> a = b.
Proof.
  destruct a as [s|x|l], b as [t|y|m]; simpl;
    try (split; [discriminate | congruence || discriminate]).
  - rewrite String.eqb_eq. split; congruence.
  - rewrite Z.eqb_eq. split; congruence.
  - rewrite strings_eqb_eq. split; congruence.
Qed.

Lemma dict_get_In {V} k (v : V) d : dict_get k d = Some v -> In (k, v) d.
Proof.
  induction d as [|[k0 v0] rest IH]; simpl; [discriminate|].
  destruct (String.eqb_spec k k0) as [->|Hne].
  - intros H. inversion H. now left.
  - intros H. right. now apply IH.
Qed.

Lemma classify_eq vs ds vi k x :
  classify vs (ds, vi) (k, x) =
  if dataset_level vs k x then (dict_set k x ds, vi)
  else (ds, dict_set k x vi).
Proof. reflexivity. Qed.

Arguments classify : simpl never.

Section NclProps.
Variable vs : list (Dict YamlValue).
Variable k : string.

Local Abbreviation inner items acc := (fold_left (classify vs) items acc).
Local Abbreviation outer :=
  (fun (acc : list (Dict YamlValue) * Dict YamlValue) variable =>
     let (dataset_info, variable_info) :=
       fold_left (classify vs) variable ([], snd acc) in
     (fst acc ++ [dataset_info], variable_info)).

Lemma inner_variable_absent items : forall ds vi,
  (forall x, In (k, x) items -> dataset_level vs k x = true) ->
  dict_get k (snd (inner items (ds, vi))) = dict_get k vi.
Proof.
  induction items as [|[k' x] items IH]; intros ds vi H; simpl;
    [reflexivity|].
  rewrite classify_eq.
  destruct (dataset_level vs k' x) eqn:L.
  - apply IH. intros y Hy. apply H. now right.
  - rewrite IH by (intros y Hy; apply H; now right).
    rewrite dict_get_set.
    destruct (String.eqb_spec k k') as [->|Hne]; [|reflexivity].
    rewrite H in L by now left. discriminate.
Qed.

Lemma inner_dataset_absent items : forall ds vi,
  (forall x, In (k, x) items -> dataset_level vs k x = false) ->
  dict_get k (fst (inner items (ds, vi))) = dict_get k ds.
Proof.
  induction items as [|[k' x] items IH]; intros ds vi H; simpl;
    [reflexivity|].
  rewrite classify_eq.
  destruct (dataset_level vs k' x) eqn:L.
  - rewrite IH by (intros y Hy; apply H; now right).
    rewrite dict_get_set.
    destruct (String.eqb_spec k k') as [->|Hne]; [|reflexivity].
    rewrite H in L by now left. discriminate.
  - apply IH. intros y Hy. apply H. now right.
Qed.

Lemma inner_variable_set items x : forall ds vi,
  (forall y, In (k, y) items -> y = x /\ dataset_level vs k x = false) ->
  In (k, x) items \/ dict_get k vi = Some x ->
  dict_get k (snd (inner items (ds, vi))) = Some x.
Proof.
  induction items as [|[k' y] items IH]; intros ds vi H Hor; simpl.
  - destruct Hor as [[]|Hvi]. exact Hvi.
  - rewrite classify_eq.
    assert (Hrest : forall z, In (k, z) items ->
                              z = x /\ dataset_level vs k x = false)
      by (intros z Hz; apply H; now right).
    destruct (String.eqb_spec k k') as [<-|Hne].
    + destruct (H y) as [-> L]; [now left|]. rewrite L.
      apply IH; [exact Hrest|]. right.
      now rewrite dict_get_set, String.eqb_refl.
    + destruct (dataset_level vs k' y); apply IH; try exact Hrest.
      * destruct Hor as [[E|Hin]|Hvi]; [congruence | now left | now right].
      * destruct Hor as [[E|Hin]|Hvi]; [congruence | now left |].
        right. rewrite dict_get_set.
        apply String.eqb_neq in Hne. now rewrite Hne.
Qed.

Lemma outer_variable_absent l : forall acc,
  (forall v x, In v l -> In (k, x) v -> dataset_level vs k x = true) ->
  dict_get k (snd (fold_left outer l acc)) = dict_get k (snd acc).
Proof.
  induction l as [|v l IH]; intros acc H; simpl; [reflexivity|].
  rewrite IH by (intros v' x Hv; apply H; now right).
  remember (fold_left (classify vs) v ([], snd acc)) as r eqn:R.
  assert (E : dict_get k (snd r) = dict_get k (snd acc)).
  { subst r. apply inner_variable_absent.
    intros x Hx. apply (H v); [now left | exact Hx]. }
  destruct r. exact E.
Qed.

Lemma outer_dataset_absent l : forall acc,
  (forall v x, In v l -> In (k, x) v -> dataset_level vs k x = false) ->
  Forall (fun d => dict_get k d = None) (fst acc) ->
  Forall (fun d => dict_get k d = None) (fst (fold_left outer l acc)).
Proof.
  induction l as [|v l IH]; intros acc H Hacc; simpl; [exact Hacc|].
  apply IH; [intros v' x Hv; apply H; now right|].
  remember (fold_left (classify vs) v ([], snd acc)) as r eqn:R.
  assert (E : dict_get k (fst r) = None).
  { subst r. rewrite inner_dataset_absent; [reflexivity|].
    intros x Hx. apply (H v); [now left | exact Hx]. }
  destruct r. simpl in *.
  apply Forall_app. split; [exact Hacc|]. now repeat constructor.
Qed.

Lemma outer_variable_set l x : forall acc,
  (forall v y, In v l -> In (k, y) v ->
               y = x /\ dataset_level vs k x = false) ->
  (exists v, In v l /\ In (k, x) v) \/ dict_get k (snd acc) = Some x ->
  dict_get k (snd (fold_left outer l acc)) = Some x.
Proof.
  induction l as [|v l IH]; intros acc H Hor; simpl.
  - destruct Hor as [(v & [] & _)|Hacc]. exact Hacc.
  - apply IH; [intros v' y Hv; apply H; now right|].
    destruct Hor as [(v' & [<-|Hin] & Hx)|Hacc]; [right | left; eauto | right];
      remember (fold_left (classify vs) v ([], snd acc)) as r eqn:R;
      assert (E : dict_get k (snd r) = Some x)
        by (subst r; apply inner_variable_set;
            [intros y Hy; apply (H v); [now left | exact Hy] | tauto]);
      destruct r; exact E.
Qed.

Lemma outer_length l : forall acc,
  List.length (fst (fold_left outer l acc))
  = List.length (fst acc) + List.length l.
Proof.
  induction l as [|v l IH]; intros acc; simpl; [lia|].
  rewrite IH. destruct (fold_left (classify vs) v ([], snd acc)). simpl.
  rewrite length_app. simpl. lia.
Qed.
End NclProps.

Lemma existsb_eqb_In (key : string) (l : list string) :
  existsb (String.eqb key) l = true <-> In key l.
Proof.
  rewrite existsb_exists. split.
  - intros (y & Hy & E). apply String.eqb_eq in E. now subst.
  - intros H. exists key. split; [exact H | apply String.eqb_refl].
Qed.

Lemma existsb_eqb_notin (key : string) (l : list string) :
  ~ In key l -> existsb (String.eqb key) l = false.
Proof.
  intros H. destruct (existsb (String.eqb key) l) eqn:E; [|reflexivity].
  apply existsb_eqb_In in E. contradiction.
Qed.

(** A key whose value is not the same in all variables is dataset
    specific for every value. *)
Lemma varying_dataset_level (vs : list (Dict YamlValue)) (key : string) :
  ~ In key VARIABLE_KEYS ->
  (exists v, In v vs /\ dict_get key v = None)
  \/ (exists a b xa xb,
         In a vs /\ In b vs /\ dict_get key a = Some xa
         /\ dict_get key b = Some xb /\ xa <> xb) ->
  forall x, dataset_level vs key x = true.
Proof.
  intros Hk Hvar x. unfold dataset_level.
  rewrite (existsb_eqb_notin key VARIABLE_KEYS Hk). simpl.
  rewrite andb_true_r. apply orb_true_iff. left.
  unfold dataset_specific. apply existsb_exists.
  destruct Hvar as [(v & Hv & G) | (a & b & xa & xb & Ha & Hb & Ga & Gb & Hne)].
  - exists v. split; [exact Hv|]. now rewrite G.
  - destruct (yaml_eqb x xa) eqn:E.
    + apply yaml_eqb_eq in E. subst x.
      exists b. split; [exact Hb|]. rewrite Gb.
      destruct (yaml_eqb xa xb) eqn:E'; [|reflexivity].
      apply yaml_eqb_eq in E'. contradiction.
    + exists a. split; [exact Ha|]. now rewrite Ga, E.
Qed.

(** A key with one value in all variables is not dataset specific. *)
Lemma uniform_dataset_level (vs : list (Dict YamlValue)) (key : string)
      (x : YamlValue) :
  ~ In key DATASET_KEYS ->
  Forall (fun v => dict_get key v = Some x) vs ->
  dataset_level vs key x = false.
Proof.
  intros Hk H. unfold dataset_level.
  rewrite (existsb_eqb_notin key DATASET_KEYS Hk), orb_false_r.
  apply andb_false_iff. left.
  unfold dataset_specific.
  induction H as [|v l Hv _ IH]; simpl; [reflexivity|].
  rewrite Hv, IH.
  assert (E : yaml_eqb x x = true) by now apply yaml_eqb_eq.
  now rewrite E.
Qed.

Lemma write_ncl_metadata_eq output_dir metadata w :
  _write_ncl_metadata output_dir metadata w =
  match dict_get "short_name" (variable_info (ncl_info (values metadata))) with
  | None => (w, Raise (KeyError "short_name"))
  | Some (YStr short_name) =>
      (write_ncl_settings (ncl_info (values metadata))
                          (path_join output_dir (short_name ++ "_info.ncl")) ;;
       ret (path_join output_dir (short_name ++ "_info.ncl"))) w
  | Some _ => (w, Raise TypeError)
  end.
Proof.
  unfold _write_ncl_metadata, ncl_info, split_info.
  match goal with
  | |- context [fold_left ?f (values metadata) ?a] =>
      destruct (fold_left f (values metadata) a) as [ds vi]
  end.
  simpl.
  destruct (dict_get "short_name" vi) as [[s|z|l]|]; reflexivity.
Qed.

(** X14 — [_write_ncl_metadata] needs one ['short_name'] for the whole
    directory: when there is no product, when a product has no
    ['short_name'], or when two products have different ones, the call
    raises [KeyError('short_name')] and writes nothing. *)
Theorem ncl_short_name_must_agree
        (output_dir : string) (metadata : Dict (Dict YamlValue))
        (w : World) :
  values metadata = []
  \/ (exists v, In v (values metadata) /\ dict_get "short_name" v = None)
  \/ (exists a b xa xb,
         In a (values metadata) /\ In b (values metadata)
         /\ dict_get "short_name" a = Some xa
         /\ dict_get "short_name" b = Some xb /\ xa <> xb) ->
  _write_ncl_metadata output_dir metadata w
  = (w, Raise (KeyError "short_name")).
Proof.
  intros H. rewrite write_ncl_metadata_eq.
  assert (G : dict_get "short_name"
                       (variable_info (ncl_info (values metadata))) = None).
  { unfold ncl_info, split_info. simpl.
    rewrite outer_variable_absent; [reflexivity|].
    intros v x Hv _.
    destruct H as [H|H]; [rewrite H in Hv; destruct Hv|].
    apply varying_dataset_level; [|exact H].
    simpl. intuition discriminate. }
  now rewrite G.
Qed.

Lemma ncl_short_name_must_agree_witness :
  let metadata := [("A/tas.nc", [("short_name", YStr "tas")]);
                   ("A/pr.nc", [("short_name", YStr "pr")])] in
  (values metadata = []
   \/ (exists v, In v (values metadata) /\ dict_get "short_name" v = None)
   \/ (exists a b xa xb,
          In a (values metadata) /\ In b (values metadata)
          /\ dict_get "short_name" a = Some xa
          /\ dict_get "short_name" b = Some xb /\ xa <> xb))
  /\ _write_ncl_metadata "A" metadata empty_world
     = (empty_world, Raise (KeyError "short_name")).
Proof.
  intros metadata.
  assert (H : values metadata = []
              \/ (exists v, In v (values metadata)
                            /\ dict_get "short_name" v = None)
              \/ (exists a b xa xb,
                     In a (values metadata) /\ In b (values metadata)
                     /\ dict_get "short_name" a = Some xa
                     /\ dict_get "short_name" b = Some xb /\ xa <> xb)).
  { right. right.
    exists [("short_name", YStr "tas")], [("short_name", YStr "pr")],
           (YStr "tas"), (YStr "pr").
    simpl. repeat split; auto. discriminate. }
  split; [exact H|].
  exact (ncl_short_name_must_agree "A" metadata empty_world H).
Defined.

Lemma uniform_key_placed (vs : list (Dict YamlValue)) (key : string)
      (x : YamlValue) :
  ~ In key DATASET_KEYS ->
  vs <> [] ->
  Forall (fun v => NoDup (keys v) /\ dict_get key v = Some x) vs ->
  dict_get key (variable_info (ncl_info vs)) = Some x
  /\ Forall (fun d => dict_get key d = None) (dataset_info (ncl_info vs)).
Proof.
  intros Hk Hne H.
  assert (Hget : Forall (fun v => dict_get key v = Some x) vs)
    by (eapply Forall_impl; [|exact H]; simpl; tauto).
  assert (L : dataset_level vs key x = false)
    by now apply uniform_dataset_level.
  assert (Hy : forall v y, In v vs -> In (key, y) v ->
                           y = x /\ dataset_level vs key x = false).
  { intros v y Hv Hin. split; [|exact L].
    rewrite Forall_forall in H. destruct (H v Hv) as [Hnd G].
    rewrite (dict_get_NoDup_In key y v Hnd Hin) in G. congruence. }
  unfold ncl_info, split_info. simpl. split.
  - apply outer_variable_set; [exact Hy|]. left.
    destruct vs as [|v l]; [congruence|].
    exists v. split; [now left|]. apply dict_get_In.
    now inversion Hget.
  - apply outer_dataset_absent; [|constructor].
    intros v y Hv Hin. destruct (Hy v y Hv Hin) as [-> _]. exact L.
Qed.

(** X15 — when the directory has at least one product and all products have
    the same string as ['short_name'] (each attribute dictionary with
    distinct keys), [_write_ncl_metadata] writes the settings file
    [<short_name>_info.ncl] of the directory and returns its path; the
    structure written has the attribute dictionaries as
    [input_file_info], one [dataset_info] entry per product, and
    ['short_name'] in [variable_info] and in no [dataset_info]. *)
Theorem ncl_written_under_short_name
        (output_dir : string) (metadata : Dict (Dict YamlValue))
        (short_name : string) (w : World) :
  values metadata <> [] ->
  Forall (fun v => NoDup (keys v)
                   /\ dict_get "short_name" v = Some (YStr short_name))
         (values metadata) ->
  let name := path_join output_dir (short_name ++ "_info.ncl") in
  exists info w',
    _write_ncl_metadata output_dir metadata w = (w', Ok name)
    /\ ncl_settings w' = ncl_settings w ++ [(name, info)]
    /\ saved w' = saved w /\ dumped w' = dumped w
    /\ input_file_info info = values metadata
    /\ List.length (dataset_info info) = List.length (values metadata)
    /\ dict_get "short_name" (variable_info info) = Some (YStr short_name)
    /\ Forall (fun d => dict_get "short_name" d = None) (dataset_info info).
Proof.
  intros Hne H name.
  assert (Hk : ~ In "short_name" DATASET_KEYS)
    by (simpl; intuition discriminate).
  destruct (uniform_key_placed (values metadata) "short_name"
                               (YStr short_name) Hk Hne H) as [Hvi Hds].
  exists (ncl_info (values metadata)). eexists.
  rewrite write_ncl_metadata_eq, Hvi.
  unfold bind, write_ncl_settings, ret.
  split; [reflexivity|]. simpl. repeat split; try assumption.
  unfold split_info. now rewrite outer_length.
Qed.

Lemma ncl_written_under_short_name_witness :
  let metadata :=
    [("A/tas_M1.nc", [("short_name", YStr "tas"); ("dataset", YStr "M1")]);
     ("A/tas_M2.nc", [("short_name", YStr "tas"); ("dataset", YStr "M2")])] in
  values metadata <> []
  /\ Forall (fun v => NoDup (keys v)
                      /\ dict_get "short_name" v = Some (YStr "tas"))
            (values metadata)
  /\ exists w',
      _write_ncl_metadata "A" metadata empty_world = (w', Ok "A/tas_info.ncl")
      /\ ncl_settings w' =
         [("A/tas_info.ncl",
           {| input_file_info := values metadata;
              variable_info := [("short_name", YStr "tas")];
              dataset_info := [[("dataset", YStr "M1")];
                               [("dataset", YStr "M2")]] |})].
Proof.
  intros metadata.
  assert (Hne : values metadata <> []) by discriminate.
  assert (H : Forall (fun v => NoDup (keys v)
                               /\ dict_get "short_name" v = Some (YStr "tas"))
                     (values metadata)).
  { repeat constructor; simpl; intuition discriminate. }
  split; [exact Hne|]. split; [exact H|].
  destruct (ncl_written_under_short_name "A" metadata "tas" empty_world
                                         Hne H)
    as (info & w' & E & _).
  exists w'. split; [exact E|].
  vm_compute in E. inversion E. reflexivity.
Defined.

(** X16 — where the keys go in the structure [_write_ncl_metadata] writes:
    ['mip'] is never in [variable_info], ['reference_dataset'] and
    ['alternative_dataset'] are in no [dataset_info]; a key other than
    ['mip'] with one value in all products is in [variable_info] with
    that value and in no [dataset_info]; a key other than the two
    variable keys that a product lacks or that has different values in
    two products is not in [variable_info]. *)
Theorem ncl_key_placement
        (output_dir : string) (metadata : Dict (Dict YamlValue))
        (name : string) (w w' : World) :
  _write_ncl_metadata output_dir metadata w = (w', Ok name) ->
  exists info,
    ncl_settings w' = ncl_settings w ++ [(name, info)]
    /\ (forall key, In key DATASET_KEYS ->
                    dict_get key (variable_info info) = None)
    /\ (forall key, In key VARIABLE_KEYS ->
                    Forall (fun d => dict_get key d = None)
                           (dataset_info info))
    /\ (forall key x,
           ~ In key DATASET_KEYS ->
           Forall (fun v => NoDup (keys v) /\ dict_get key v = Some x)
                  (values metadata) ->
           dict_get key (variable_info info) = Some x
           /\ Forall (fun d => dict_get key d = None) (dataset_info info))
    /\ (forall key,
           ~ In key VARIABLE_KEYS ->
           (exists v, In v (values metadata) /\ dict_get key v = None)
           \/ (exists a b xa xb,
                  In a (values metadata) /\ In b (values metadata)
                  /\ dict_get key a = Some xa /\ dict_get key b = Some xb
                  /\ xa <> xb) ->
           dict_get key (variable_info info) = None).
Proof.
  intros E. rewrite write_ncl_metadata_eq in E.
  destruct (dict_get "short_name"
                     (variable_info (ncl_info (values metadata))))
    as [[s|z|l]|] eqn:G; try discriminate E.
  unfold bind, write_ncl_settings, ret in E. inversion E; subst. clear E.
  assert (Hne : values metadata <> []).
  { intros Hnil. rewrite Hnil in G. discriminate G. }
  exists (ncl_info (values metadata)). simpl.
  split; [reflexivity|]. repeat split.
  - intros key Hk. unfold split_info.
    rewrite outer_variable_absent; [reflexivity|].
    intros v x _ _. unfold dataset_level.
    destruct Hk as [<-|[]]. simpl. now rewrite orb_true_r.
  - intros key Hk. unfold split_info.
    apply outer_dataset_absent; [|constructor].
    intros v x _ _. unfold dataset_level.
    destruct Hk as [<-|[<-|[]]]; simpl; apply andb_false_r.
  - now apply (uniform_key_placed (values metadata) key x).
  - now apply (uniform_key_placed (values metadata) key x).
  - intros key Hk Hvar. unfold split_info.
    rewrite outer_variable_absent; [reflexivity|].
    intros v x _ _. now apply varying_dataset_level.
Qed.

Lemma ncl_key_placement_witness :
  let metadata :=
    [("A/tas_M1.nc", [("short_name", YStr "tas"); ("mip", YStr "Amon");
                      ("dataset", YStr "M1");
                      ("reference_dataset", YStr "M1")]);
     ("A/tas_M2.nc", [("short_name", YStr "tas"); ("mip", YStr "Amon");
                      ("dataset", YStr "M2");
                      ("reference_dataset", YStr "M1")])] in
  let w' := fst (_write_ncl_metadata "A" metadata empty_world) in
  _write_ncl_metadata "A" metadata empty_world = (w', Ok "A/tas_info.ncl")
  /\ exists info,
      ncl_settings w' = [("A/tas_info.ncl", info)]
      /\ dict_get "mip" (variable_info info) = None
      /\ dict_get "dataset" (variable_info info) = None
      /\ dict_get "short_name" (variable_info info) = Some (YStr "tas")
      /\ Forall (fun d => dict_get "reference_dataset" d = None)
                (dataset_info info).
Proof.
  intros metadata w'.
  assert (E : _write_ncl_metadata "A" metadata empty_world
              = (w', Ok "A/tas_info.ncl")) by reflexivity.
  split; [exact E|].
  destruct (ncl_key_placement "A" metadata "A/tas_info.ncl" empty_world w' E)
    as (info & Hs & Hmip & Hvk & Hunif & Hvar).
  exists info. split; [exact Hs|]. split; [apply Hmip; now left|].
  split; [|split].
  - apply Hvar; [simpl; intuition discriminate|]. right.
    exists (snd (nth 0 metadata ("", []))), (snd (nth 1 metadata ("", []))),
           (YStr "M1"), (YStr "M2").
    simpl. repeat split; auto. discriminate.
  - apply Hunif; [simpl; intuition discriminate|].
    repeat constructor; simpl; intuition discriminate.
  - apply Hvk. simpl. auto.
Defined.

(** ** The load callback *)

Lemma dict_get_del {V} k k' (d : Dict V) :
  dict_get k (dict_del k' d) =
  if String.eqb k k' then None else dict_get k d.
Proof.
  unfold dict_del.
  induction d as [|[k0 v0] rest IH]; simpl.
  - now destruct (String.eqb k k').
  - destruct (String.eqb_spec k' k0) as [<-|Hne]; simpl.
    + rewrite IH. destruct (String.eqb_spec k k'); reflexivity.
    + rewrite IH. destruct (String.eqb_spec k k0) as [->|Hne0];
        [|reflexivity].
      destruct (String.eqb_spec k0 k'); [congruence | reflexivity].
Qed.

Lemma dict_del_absent {V} k (d : Dict V) :
  dict_get k d = None -> dict_del k d = d.
Proof.
  unfold dict_del.
  induction d as [|[k0 v0] rest IH]; simpl; [reflexivity|].
  destruct (String.eqb k k0); [discriminate|]. simpl.
  intros H. now rewrite IH.
Qed.

Lemma keys_dict_del {V} k (d : Dict V) :
  keys (dict_del k d) = filter (fun k0 => negb (String.eqb k k0)) (keys d).
Proof.
  unfold dict_del, keys.
  induction d as [|[k0 v0] rest IH]; simpl; [reflexivity|].
  destruct (String.eqb k k0); simpl; now rewrite IH.
Qed.

Lemma remove_volatile_eq (attributes : Dict Value) :
  remove_volatile attributes =
  dict_del "history" (dict_del "tracking_id"
                               (dict_del "creation_date" attributes)).
Proof.
  unfold remove_volatile. simpl.
  assert (G : forall k (d : Dict Value),
             match dict_get k d with
             | Some _ => dict_del k d
             | None => d
             end = dict_del k d).
  { intros k d. destruct (dict_get k d) eqn:E; [reflexivity|].
    symmetry. now apply dict_del_absent. }
  now rewrite !G.
Qed.

(** X17 — when [concatenate_callback] returns, the attributes
    [creation_date], [tracking_id] and [history] are gone from the raw
    cube, every other attribute has the value it had, and the remaining
    keys are in the order they were in. *)
Theorem callback_removes_volatile
        (as_unit : Value -> Result string)
        (raw_cube cube' : Raw.Cube) (field : Field) :
  concatenate_callback as_unit raw_cube field = Ok cube' ->
  (forall k, In k volatile_attributes ->
             dict_get k (Raw.attributes cube') = None)
  /\ (forall k, ~ In k volatile_attributes ->
                dict_get k (Raw.attributes cube')
                = dict_get k (Raw.attributes raw_cube))
  /\ keys (Raw.attributes cube') =
     filter (fun k => negb (existsb (String.eqb k) volatile_attributes))
            (keys (Raw.attributes raw_cube)).
Proof.
  unfold concatenate_callback.
  destruct (restore_all as_unit field (Raw.coords raw_cube)) as [cs|e];
    [|discriminate].
  intros H. inversion H; subst; clear H. simpl.
  rewrite remove_volatile_eq. repeat split.
  - intros k Hk. rewrite !dict_get_del.
    destruct Hk as [<-|[<-|[<-|[]]]]; reflexivity.
  - intros k Hk. rewrite !dict_get_del.
    destruct (String.eqb_spec k "history") as [->|_];
      [exfalso; apply Hk; simpl; auto|].
    destruct (String.eqb_spec k "tracking_id") as [->|_];
      [exfalso; apply Hk; simpl; auto|].
    destruct (String.eqb_spec k "creation_date") as [->|_];
      [exfalso; apply Hk; simpl; auto|].
    reflexivity.
  - rewrite !keys_dict_del.
    induction (keys (Raw.attributes raw_cube)) as [|k0 l IH];
      [reflexivity|].
    unfold volatile_attributes in *. cbn [filter existsb].
    rewrite (String.eqb_sym k0 "creation_date"),
            (String.eqb_sym k0 "tracking_id"),
            (String.eqb_sym k0 "history").
    destruct (String.eqb "creation_date" k0); cbn [negb orb filter];
      [exact IH|].
    destruct (String.eqb "tracking_id" k0); cbn [negb orb filter];
      [exact IH|].
    destruct (String.eqb "history" k0); cbn [negb orb filter]; [exact IH|].
    now rewrite IH.
Qed.

(** X18 — the coordinates after [concatenate_callback]: names are never
    changed; a coordinate that is not longitude or latitude keeps its
    units; a longitude or latitude takes the first ['units'] attribute of
    its variable in the file, turned into a unit, and keeps its units when
    the variable has none or the coordinate has no variable name.  The
    callback raises only for a longitude or latitude whose variable is not
    in the file ([KeyError]) or whose file units are refused. *)
Theorem callback_restores_units
        (as_unit : Value -> Result string)
        (raw_cube : Raw.Cube) (field : Field) :
  match concatenate_callback as_unit raw_cube field with
  | Ok cube' =>
      Forall2
        (fun coord coord' =>
           Raw.standard_name coord' = Raw.standard_name coord
           /\ Raw.var_name coord' = Raw.var_name coord
           /\ if is_geographic coord then
                match _get_attr_from_field_coord
                        field (Raw.var_name coord) "units" with
                | Ok (Some units) => as_unit units = Ok (Raw.units coord')
                | _ => Raw.units coord' = Raw.units coord
                end
              else Raw.units coord' = Raw.units coord)
        (Raw.coords raw_cube) (Raw.coords cube')
  | Raise e =>
      exists coord,
        In coord (Raw.coords raw_cube)
        /\ is_geographic coord = true
        /\ ((exists name,
                Raw.var_name coord = Some name
                /\ dict_get name field = None /\ e = KeyError name)
            \/ (exists units,
                   _get_attr_from_field_coord field (Raw.var_name coord)
                                              "units" = Ok (Some units)
                   /\ as_unit units = Raise e))
  end.
Proof.
  unfold concatenate_callback.
  induction (Raw.coords raw_cube) as [|coord rest IH]; simpl.
  - constructor.
  - assert (Hone :
      match restore_units as_unit field coord with
      | Ok coord' =>
          Raw.standard_name coord' = Raw.standard_name coord
          /\ Raw.var_name coord' = Raw.var_name coord
          /\ (if is_geographic coord then
                match _get_attr_from_field_coord
                        field (Raw.var_name coord) "units" with
                | Ok (Some units) => as_unit units = Ok (Raw.units coord')
                | _ => Raw.units coord' = Raw.units coord
                end
              else Raw.units coord' = Raw.units coord)
      | Raise e =>
          is_geographic coord = true
          /\ ((exists name,
                  Raw.var_name coord = Some name
                  /\ dict_get name field = None /\ e = KeyError name)
              \/ (exists units,
                     _get_attr_from_field_coord field (Raw.var_name coord)
                                                "units" = Ok (Some units)
                     /\ as_unit units = Raise e))
      end).
    { unfold restore_units, is_geographic.
      destruct (Raw.standard_name coord) as [name|] eqn:S;
        [|simpl; repeat split; auto].
      destruct (existsb (String.eqb name) ["longitude"; "latitude"]);
        [|simpl; repeat split; auto].
      destruct (_get_attr_from_field_coord field (Raw.var_name coord)
                                           "units")
        as [[units|]|e] eqn:G; [| simpl; repeat split; auto |].
      - destruct (as_unit units) as [unit|e] eqn:U; simpl.
        + repeat split; auto.
        + split; [reflexivity|]. right. eauto.
      - split; [reflexivity|]. left.
        unfold _get_attr_from_field_coord in G.
        destruct (Raw.var_name coord) as [n|]; [|discriminate].
        destruct (dict_get n field) as [attrs|] eqn:D.
        + destruct (map snd _); discriminate.
        + inversion G. eauto. }
    destruct (restore_units as_unit field coord) as [coord'|e].
    + destruct (restore_all as_unit field rest) as [rest'|e]; simpl in *.
      * constructor; assumption.
      * destruct IH as (c & Hin & Hc). exists c. auto.
    + exists coord. destruct Hone as [Hg Hc]. auto.
Qed.

Lemma callback_removes_volatile_witness :
  let raw := {| Raw.attributes := [("history", VStr "created by cdo");
                                   ("institute", VStr "X");
                                   ("tracking_id", VStr "abc")];
                Raw.coords := [{| Raw.standard_name := Some "longitude";
                                  Raw.var_name := Some "lon";
                                  Raw.units := "degrees" |};
                               {| Raw.standard_name := Some "time";
                                  Raw.var_name := Some "time";
                                  Raw.units := "days since 1850-01-01" |}] |} in
  let field := [("lon", [("axis", VStr "X"); ("units", VStr "degrees_east")])] in
  let cube' := {| Raw.attributes := [("institute", VStr "X")];
                  Raw.coords := [{| Raw.standard_name := Some "longitude";
                                    Raw.var_name := Some "lon";
                                    Raw.units := "degrees_east" |};
                                 {| Raw.standard_name := Some "time";
                                    Raw.var_name := Some "time";
                                    Raw.units := "days since 1850-01-01" |}] |} in
  concatenate_callback text_unit raw field = Ok cube'
  /\ dict_get "history" (Raw.attributes cube') = None
  /\ dict_get "institute" (Raw.attributes cube')
     = dict_get "institute" (Raw.attributes raw).
Proof.
  intros raw field cube'.
  assert (E : concatenate_callback text_unit raw field = Ok cube')
    by reflexivity.
  split; [exact E|].
  destruct (callback_removes_volatile text_unit raw cube' field E)
    as (Hgone & Hkept & _).
  split; [apply Hgone; simpl; auto|].
  apply Hkept. simpl. intuition discriminate.
Defined.

(** ** [cleanup] *)

Section CleanupProps.
Variable resolve : string -> option Location.

Local Abbreviation at_path := (at_path resolve).
Local Abbreviation under_path := (under_path resolve).
Local Abbreviation isdir := (isdir resolve).
Local Abbreviation isfile := (isfile resolve).
Local Abbreviation rmtree := (rmtree resolve).
Local Abbreviation os_remove := (os_remove resolve).
Local Abbreviation remove_path := (remove_path resolve).
Local Abbreviation cleanup := (cleanup resolve).

Lemma remove_path_incl disk path e :
  In e (remove_path disk path) -> In e disk.
Proof.
  unfold remove_path, rmtree, os_remove.
  destruct (isdir disk path); [|destruct (isfile disk path)];
    try (intros H; apply filter_In in H; tauto); auto.
Qed.

Lemma filtered_not_at_path (f : Location * Kind -> bool)
      (keep : Location -> bool) (path : string) (disk : Disk) :
  (forall l, keep l = true -> at_path path l = false) ->
  existsb (fun e => at_path path (fst e) && f e)
          (filter (fun e => keep (fst e)) disk) = false.
Proof.
  intros Hkeep. induction disk as [|e l IH]; simpl; [reflexivity|].
  destruct (keep (fst e)) eqn:K; [|exact IH]. simpl.
  now rewrite (Hkeep _ K), IH.
Qed.

Lemma remove_path_gone disk path :
  isdir (remove_path disk path) path = false
  /\ isfile (remove_path disk path) path = false.
Proof.
  unfold remove_path.
  destruct (isdir disk path) eqn:D.
  - unfold isdir, isfile, rmtree.
    split;
      apply (filtered_not_at_path
               _ (fun l => negb (at_path path l || under_path path l)));
      intros l Hl; apply negb_true_iff, orb_false_iff in Hl; tauto.
  - split; [|destruct (isfile disk path) eqn:F; [|exact F]].
    + destruct (isfile disk path); [|exact D].
      unfold isdir, os_remove.
      apply (filtered_not_at_path _ (fun l => negb (at_path path l))).
      intros l Hl. now apply negb_true_iff in Hl.
    + unfold isfile, os_remove.
      apply (filtered_not_at_path _ (fun l => negb (at_path path l))).
      intros l Hl. now apply negb_true_iff in Hl.
Qed.

Lemma existsb_incl {A} (f : A -> bool) (l l' : list A) :
  (forall x, In x l' -> In x l) -> existsb f l = false ->
  existsb f l' = false.
Proof.
  intros Hincl H. destruct (existsb f l') eqn:E; [|reflexivity].
  apply existsb_exists in E as (x & Hx & Hf).
  assert (existsb f l = true)
    by (apply existsb_exists; exists x; auto).
  congruence.
Qed.

Lemma remove_path_keeps disk path e :
  In e disk -> at_path path (fst e) = false ->
  under_path path (fst e) = false ->
  In e (remove_path disk path).
Proof.
  intros Hin Hne Hb.
  unfold remove_path, rmtree, os_remove.
  destruct (isdir disk path); [|destruct (isfile disk path)]; auto;
    apply filter_In; (split; [exact Hin|]); now rewrite Hne, ?Hb.
Qed.

(** X19 — [cleanup] returns the list of files it was given.  With a list
    of paths to remove, none of these paths leads to a file or a directory
    afterwards, nothing is created, and every entry that none of the paths
    leads to and that lies below none of them is still there; without such
    a list the disk is left as it is.  A path that leads neither to a file
    nor to a directory is passed over, and a directory goes with everything
    below it. *)
Theorem cleanup_removes (files remove : list string) (disk : Disk) :
  let '(disk', returned) := cleanup files (Some remove) disk in
  returned = files
  /\ (forall path, In path remove ->
                   isdir disk' path = false /\ isfile disk' path = false)
  /\ (forall e, In e disk' -> In e disk)
  /\ (forall e, In e disk ->
                (forall path, In path remove ->
                              at_path path (fst e) = false
                              /\ under_path path (fst e) = false) ->
                In e disk')
  /\ cleanup files None disk = (disk, files)
  /\ (forall path, isdir disk path = false -> isfile disk path = false ->
                   cleanup files (Some [path]) disk = (disk, files))
  /\ (forall path e,
         isdir disk path = true ->
         In e (fst (cleanup files (Some [path]) disk)) ->
         at_path path (fst e) = false /\ under_path path (fst e) = false).
Proof.
  unfold cleanup. split; [reflexivity|].
  assert (Hincl : forall l d e, In e (fold_left remove_path l d) -> In e d).
  { induction l as [|p l IH]; intros d e H; simpl in H; [exact H|].
    eapply remove_path_incl, IH, H. }
  assert (Hgone : forall l d path,
             In path l ->
             isdir (fold_left remove_path l d) path = false
             /\ isfile (fold_left remove_path l d) path = false).
  { induction l as [|p l IH]; intros d path H; [destruct H|].
    simpl. destruct H as [<-|H]; [|now apply IH].
    destruct (remove_path_gone d p) as [Hd Hf].
    split; (eapply existsb_incl; [apply Hincl|]); assumption. }
  split; [apply Hgone|]. split; [apply Hincl|]. split; [|split; [|split]].
  - revert disk. induction remove as [|p l IH]; intros disk e Hin H;
      simpl; [exact Hin|].
    apply IH; [|intros q Hq; apply H; now right].
    destruct (H p (or_introl eq_refl)) as [Hne Hb].
    now apply remove_path_keeps.
  - reflexivity.
  - intros path Hd Hf. simpl. unfold remove_path.
    now rewrite Hd, Hf.
  - intros path e Hd. simpl. unfold remove_path. rewrite Hd.
    unfold rmtree. intros Hin. apply filter_In in Hin as [_ Hin].
    now apply negb_true_iff, orb_false_iff in Hin.
Qed.
End CleanupProps.

(** In the working directory [/home]: the tree [work] is removed through
    the path [work/], the file [tmp.nc] through [./tmp.nc]; a path that
    leads nowhere and the empty path are passed over. *)
Example cleanup_run :
  cleanup (resolve_from ["home"]) ["out/tas.nc"]
          (Some ["work/"; "./tmp.nc"; "missing"; ""])
          [(["home"], Directory);
           (["home"; "out"], Directory); (["home"; "out"; "tas.nc"], File);
           (["home"; "work"], Directory);
           (["home"; "work"; "a.nc"], File);
           (["home"; "work"; "sub"], Directory);
           (["home"; "work"; "sub"; "b.nc"], File);
           (["home"; "workshop.txt"], File); (["home"; "tmp.nc"], File)]
  = ([(["home"], Directory);
      (["home"; "out"], Directory); (["home"; "out"; "tas.nc"], File);
      (["home"; "workshop.txt"], File)],
     ["out/tas.nc"]).
Proof. reflexivity. Qed.

(** ** Where the manifests go *)

(** X20 — the manifests lie beside the products: for products whose
    directories exist and whose sort keys are comparable, [write_metadata]
    returns paths only of the form [<directory of a product>/metadata.yml],
    the directory of each returned path is the directory of a product
    given, every product has the manifest of its directory among the paths
    returned, and every path returned exists afterwards. *)
Theorem manifests_beside_products (products : list Product.t) (w : World) :
  Forall well_keyed products ->
  Forall (fun p => directory_exists w (Product.filename p) = true)
         products ->
  exists outputs w',
    write_metadata products false w = (w', Ok outputs)
    /\ (forall product,
           In product products ->
           In (manifest_name (dirname (Product.filename product))) outputs)
    /\ (forall output,
           In output outputs ->
           exists product,
             In product products
             /\ output = manifest_name (dirname (Product.filename product))
             /\ dirname output = dirname (Product.filename product))
    /\ (forall output, In output outputs -> In output (paths w')).
Proof.
  intros H Hdirs.
  set (key := fun p => dirname (Product.filename p)).
  destruct (groupby_spec key products) as (C & F & _ & _).
  assert (Hg : Forall (fun g => Forall well_keyed (snd g))
                      (groupby key products)).
  { apply Forall_map, Forall_concat. now rewrite C. }
  destruct (write_groups_spec (groupby key products) [] w Hg
                              (groups_directories_exist products w Hdirs))
    as (entries & w' & E & _ & _ & Hpaths & _).
  simpl in E.
  exists (map (fun g => manifest_name (fst g)) (groupby key products)), w'.
  split; [exact E|]. split; [|split].
  - intros product Hin. rewrite <- C in Hin.
    apply in_concat in Hin as (run & Hrun & Hp).
    apply in_map_iff in Hrun as (g & <- & Hgin).
    rewrite Forall_forall in F. destruct (F g Hgin) as [_ Hkey].
    rewrite Forall_forall in Hkey. specialize (Hkey product Hp).
    unfold key in Hkey. rewrite Hkey.
    apply in_map_iff. now exists g.
  - intros output Hin.
    apply in_map_iff in Hin as (g & <- & Hgin).
    rewrite Forall_forall in F. destruct (F g Hgin) as [Hne Hkey].
    destruct (snd g) as [|product run] eqn:R; [congruence|].
    apply Forall_inv in Hkey. unfold key in Hkey.
    exists product. rewrite <- Hkey. repeat split.
    + rewrite <- C. apply in_concat. exists (snd g).
      split; [now apply in_map | rewrite R; now left].
    + apply manifest_name_dirname.
  - intros output Hin. rewrite Hpaths. apply in_or_app. left.
    now apply in_rev in Hin.
Qed.

Lemma manifests_beside_products_witness :
  Forall well_keyed three_products
  /\ Forall (fun p => directory_exists output_world (Product.filename p)
                      = true) three_products
  /\ exists outputs w',
      write_metadata three_products false output_world = (w', Ok outputs)
      /\ In "B/metadata.yml" outputs
      /\ In "B/metadata.yml" (paths w').
Proof.
  assert (H : Forall well_keyed three_products)
    by (repeat constructor; discriminate).
  assert (Hd : Forall (fun p => directory_exists output_world
                                  (Product.filename p) = true)
                      three_products)
    by (repeat constructor).
  split; [exact H|]. split; [exact Hd|].
  destruct (manifests_beside_products three_products output_world H Hd)
    as (outputs & w' & E & Hall & _ & Hp).
  exists outputs, w'. split; [exact E|].
  assert (Hin : In "B/metadata.yml" outputs).
  { apply (Hall {| Product.filename := "B/pr.nc";
                   Product.attributes := [("dataset", YStr "M1")] |}).
    simpl. auto. }
  split; [exact Hin | exact (Hp _ Hin)].
Defined.

(** ** [write_metadata] with the NCL files *)

Lemma manifest_nonempty (sorted_products : list Product.t) :
  sorted_products <> [] -> manifest sorted_products <> [].
Proof.
  unfold manifest.
  assert (S : forall k (v : Dict YamlValue) d, dict_set k v d <> []).
  { intros k v d. destruct d as [|[k' v'] d]; simpl; [discriminate|].
    destruct (String.eqb k k'); discriminate. }
  assert (G : forall l (acc : Dict (Dict YamlValue)),
             acc <> [] ->
             fold_left
               (fun metadata product =>
                  dict_set (Product.filename product)
                           (join_exp (Product.attributes product))
                           metadata) l acc <> []).
  { induction l as [|p l IH]; intros acc Hacc; simpl; [exact Hacc|].
    apply IH, S. }
  destruct sorted_products as [|p l]; [congruence|].
  intros _. cbn [fold_left]. apply G, S.
Qed.

(** The attributes listed in a manifest have what the attributes of the
    products have, as far as ['exp'] is not concerned. *)
Lemma manifest_values (sorted_products : list Product.t)
      (key : string) (x : YamlValue) :
  key <> "exp" ->
  Forall (fun p => NoDup (keys (Product.attributes p))
                   /\ dict_get key (Product.attributes p) = Some x)
         sorted_products ->
  Forall (fun v => NoDup (keys v) /\ dict_get key v = Some x)
         (values (manifest sorted_products)).
Proof.
  intros Hkey H. unfold values. apply Forall_map.
  eapply Forall_impl; [|apply manifest_entries].
  intros entry (p & Hin & _ & ->).
  rewrite Forall_forall in H. destruct (H p Hin) as [Hnd Hget].
  destruct (join_exp_spec (Product.attributes p)) as (-> & Hother & _).
  now rewrite Hother.
Qed.

Lemma write_groups_ncl_spec (variable : string -> string) groups :
  forall output_files w,
  Forall (fun g =>
            snd g <> []
            /\ Forall well_keyed (snd g)
            /\ Forall (fun p =>
                         NoDup (keys (Product.attributes p))
                         /\ dict_get "short_name" (Product.attributes p)
                            = Some (YStr (variable (fst g)))) (snd g))
         groups ->
  Forall (fun g => directory_exists w (manifest_name (fst g)) = true)
         groups ->
  exists w',
    write_groups true output_files groups w =
    (w', Ok (output_files
             ++ flat_map (fun g => [manifest_name (fst g);
                                    ncl_name (fst g) (variable (fst g))])
                         groups))
    /\ saved w' = saved w
    /\ map fst (dumped w')
       = map fst (dumped w) ++ map (fun g => manifest_name (fst g)) groups
    /\ map fst (ncl_settings w')
       = map fst (ncl_settings w)
         ++ map (fun g => ncl_name (fst g) (variable (fst g))) groups.
Proof.
  induction groups as [|[dir prods] groups IH]; intros out w H Hdirs; simpl.
  - exists w. unfold ret. rewrite !app_nil_r. auto.
  - apply Forall_cons_iff in H as [(Hne & Hk & Hs) H]. simpl in Hne, Hk, Hs.
    apply Forall_cons_iff in Hdirs as [Hdir Hdirs]. simpl in Hdir.
    destruct (sorted_spec prods Hk) as (sp & Es & P & _).
    assert (Hsp : sp <> []).
    { intros ->. apply Permutation_sym, Permutation_nil in P.
      contradiction. }
    assert (Hv : Forall (fun v => NoDup (keys v)
                                  /\ dict_get "short_name" v
                                     = Some (YStr (variable dir)))
                        (values (manifest sp))).
    { apply manifest_values; [discriminate|].
      eapply Permutation_Forall; [exact P | exact Hs]. }
    assert (Hm : values (manifest sp) <> []).
    { pose proof (manifest_nonempty sp Hsp) as N.
      unfold values. destruct (manifest sp); [congruence | discriminate]. }
    assert (Hd : ~ In "short_name" DATASET_KEYS)
      by (simpl; intuition discriminate).
    destruct (uniform_key_placed _ "short_name" _ Hd Hm Hv) as [Hvi _].
    unfold bind at 1. unfold write_group, bind at 1, lift. rewrite Es.
    unfold bind at 1, dump_yaml. fold (manifest_name dir). rewrite Hdir.
    unfold bind at 1.
    rewrite write_ncl_metadata_eq, Hvi.
    unfold bind at 1, write_ncl_settings, ret.
    match goal with
    | |- context [write_groups true ?o groups ?w1] =>
        destruct (IH o w1 H) as (w' & E & Sv & D & N)
    end.
    { eapply Forall_impl; [|exact Hdirs]. intros g.
      apply directory_exists_grows. simpl. auto. }
    exists w'. rewrite E. simpl in Sv, D, N.
    repeat split.
    + now rewrite <- !app_assoc.
    + exact Sv.
    + rewrite D, map_app. simpl. now rewrite <- app_assoc.
    + rewrite N, map_app. simpl. now rewrite <- app_assoc.
Qed.

(** X21 — [write_metadata] with [write_ncl] set, for products whose
    directories exist, with comparable sort keys, whose attribute
    dictionaries have distinct keys and which have, in each directory, one
    and the same string as ['short_name']:
    the call returns, for each run of products of one directory in turn,
    the path of the manifest followed by the path of
    [<short_name>_info.ncl] in that directory; one manifest and one NCL
    settings file are written per run under these paths, in this order,
    and no cube is saved. *)
Theorem write_metadata_with_ncl
        (variable : string -> string) (products : list Product.t)
        (w : World) :
  Forall well_keyed products ->
  Forall (fun p => directory_exists w (Product.filename p) = true)
         products ->
  Forall (fun p =>
            NoDup (keys (Product.attributes p))
            /\ dict_get "short_name" (Product.attributes p)
               = Some (YStr (variable (dirname (Product.filename p)))))
         products ->
  let groups := groupby (fun p => dirname (Product.filename p)) products in
  exists w',
    write_metadata products true w =
    (w', Ok (flat_map (fun g => [manifest_name (fst g);
                                 ncl_name (fst g) (variable (fst g))])
                      groups))
    /\ saved w' = saved w
    /\ map fst (dumped w')
       = map fst (dumped w) ++ map (fun g => manifest_name (fst g)) groups
    /\ map fst (ncl_settings w')
       = map fst (ncl_settings w)
         ++ map (fun g => ncl_name (fst g) (variable (fst g))) groups.
Proof.
  intros Hk Hdirs Hs groups.
  destruct (groupby_spec (fun p => dirname (Product.filename p)) products)
    as (C & F & _ & _).
  fold groups in C, F.
  apply (write_groups_ncl_spec variable groups [] w);
    [|exact (groups_directories_exist products w Hdirs)].
  clear Hdirs. rewrite Forall_forall in *. intros g Hg.
  destruct (F g Hg) as [Hne Hdir].
  assert (Hin : forall p, In p (snd g) -> In p products).
  { intros p Hp. rewrite <- C. apply in_concat. exists (snd g).
    split; [now apply in_map | exact Hp]. }
  split; [exact Hne|]. split; rewrite Forall_forall; intros p Hp.
  - apply Hk, Hin, Hp.
  - rewrite Forall_forall in Hdir. rewrite <- (Hdir p Hp).
    apply Hs, Hin, Hp.
Qed.

Lemma write_metadata_with_ncl_witness :
  Forall well_keyed named_products
  /\ Forall (fun p => directory_exists output_world (Product.filename p)
                      = true) named_products
  /\ Forall (fun p =>
               NoDup (keys (Product.attributes p))
               /\ dict_get "short_name" (Product.attributes p)
                  = Some (YStr (variable_of
                                  (dirname (Product.filename p)))))
            named_products
  /\ exists w',
      write_metadata named_products true output_world =
      (w', Ok ["A/metadata.yml"; "A/tas_info.ncl";
               "B/metadata.yml"; "B/pr_info.ncl"]).
Proof.
  assert (Hk : Forall well_keyed named_products)
    by (repeat constructor; discriminate).
  assert (Hd : Forall (fun p => directory_exists output_world
                                  (Product.filename p) = true)
                      named_products)
    by (repeat constructor).
  assert (Hs : Forall (fun p =>
                         NoDup (keys (Product.attributes p))
                         /\ dict_get "short_name" (Product.attributes p)
                            = Some (YStr (variable_of
                                            (dirname (Product.filename p)))))
                      named_products).
  { repeat constructor; simpl; intuition discriminate. }
  split; [exact Hk|]. split; [exact Hd|]. split; [exact Hs|].
  destruct (write_metadata_with_ncl variable_of named_products output_world
                                    Hk Hd Hs) as (w' & E & _).
  exists w'. exact E.
Defined.
